(** * Multi-Agent Analytics Agent: field resolution, format selection,
      analytics / SEO pipelines and multi-agent aggregation

    A shallow embedding of the query-resolution pipeline of the repository
    (src/src/seo_agent.py, src/src/analytics_agent.py,
    src/src/response_formatter.py, src/src/orchestrator.py) together with
    the properties stated about it.

    Conventions of the embedding.
    - Python [str] values are [string]; the model covers ASCII text:
      [str.lower] maps 'A'..'Z' to 'a'..'z' and leaves every other code
      unchanged, [str.strip] removes the ASCII white space codes.
    - JSON-like payloads (dicts, lists, scalars) are the inductive [pyval];
      a dict is an association list in insertion order, as Python dicts are.
    - The language model, the GA4 client and the Sheets client are external
      collaborators; their answers are arguments of the embedded functions.
    - [difflib] (Python's standard library) is embedded from its source:
      the Ratcliff/Obershelp matching count of [SequenceMatcher] and
      [get_close_matches].  A ratio [2.0 * M / T] is kept as the exact
      rational [2M / T]; float division is monotone and separates two
      distinct such quotients for every text length the program can see,
      so comparisons of ratios are the comparisons of these rationals. *)

From stdpp Require Import base strings list gmap sets sorting numbers pretty.
From Stdlib Require Import Ascii String QArith Qcanon.

Local Open Scope string_scope.
Local Open Scope list_scope.

(** ** Python string primitives *)

Module PyStr.

(** [c.lower()] on one ASCII character. *)
Definition lower_ascii (c : ascii) : ascii :=
  let n := nat_of_ascii c in
  if (65 <=? n)%nat && (n <=? 90)%nat then ascii_of_nat (n + 32) else c.

(** [s.lower()] *)
Fixpoint lower (s : string) : string :=
  match s with
  | EmptyString => EmptyString
  | String c s' => String (lower_ascii c) (lower s')
  end.

(** [c.isspace()] for ASCII: TAB, LF, VT, FF, CR, FS, GS, RS, US, SPACE. *)
Definition is_space (c : ascii) : bool :=
  let n := nat_of_ascii c in
  ((9 <=? n)%nat && (n <=? 13)%nat) || ((28 <=? n)%nat && (n <=? 32)%nat).

(** [s.lstrip()] *)
Fixpoint lstrip (s : string) : string :=
  match s with
  | EmptyString => EmptyString
  | String c s' => if is_space c then lstrip s' else s
  end.

(** [s.rstrip()]: drop the trailing run of white space. *)
Fixpoint rstrip (s : string) : string :=
  match s with
  | EmptyString => EmptyString
  | String c s' =>
      match rstrip s' with
      | EmptyString => if is_space c then EmptyString else String c EmptyString
      | r => String c r
      end
  end.

(** [s.strip()] *)
Definition strip (s : string) : string := rstrip (lstrip s).

(** [s.startswith(p)] *)
Fixpoint startswith (p s : string) : bool :=
  match p, s with
  | EmptyString, _ => true
  | String a p', String b s' => if Ascii.eqb a b then startswith p' s' else false
  | String _ _, EmptyString => false
  end.

(** [needle in hay] on strings: substring test. *)
Fixpoint contains (needle hay : string) : bool :=
  startswith needle hay ||
  match hay with
  | EmptyString => false
  | String _ hay' => contains needle hay'
  end.

(** [sep.join(parts)] *)
Fixpoint join (sep : string) (parts : list string) : string :=
  match parts with
  | [] => EmptyString
  | [p] => p
  | p :: rest => p +:+ sep +:+ join sep rest
  end.

(** Truthiness of a string: [bool(s)]. *)
Definition truthy (s : string) : bool :=
  match s with EmptyString => false | _ => true end.

End PyStr.

(** ** Python's difflib *)

Module Difflib.

(** [SequenceMatcher.__chain_b] with [isjunk = None] and [autojunk = True]:
    when [len(b) >= 200], an element occurring more than
    [len(b) // 100 + 1] times in [b] is "popular" and is left out of the
    index [b2j]. *)
Definition is_popular (b : list ascii) (c : ascii) : bool :=
  let n := List.length b in
  (200 <=? n)%nat && (n / 100 + 1 <? count_occ ascii_dec b c)%nat.

(** One pass of the inner loop of [find_longest_match] for the element
    [ai = a[i]]: [newj2len[j] = j2len.get(j-1, 0) + 1] for every [j] of
    [b2j[ai]] with [blo <= j < bhi]; an absent key reads as [0]. *)
Definition next_row (b : list ascii) (blo bhi : nat) (ai : ascii)
    (j2len : list nat) : list nat :=
  imap (fun j '(bj, p) =>
          if (blo <=? j)%nat && (j <? bhi)%nat && Ascii.eqb ai bj
             && negb (is_popular b bj)
          then S p else 0%nat)
       (zip b (0%nat :: j2len)).

(** [if k > bestsize: besti, bestj, bestsize = i-k+1, j-k+1, k], for the
    entries of one row in increasing [j]. *)
Definition update_best (i : nat) (row : list nat) (best : nat * nat * nat)
    : nat * nat * nat :=
  foldl (fun best '(j, k) =>
           if (best.2 <? k)%nat then (i + 1 - k, j + 1 - k, k) else best)%nat
        best (imap pair row).

(** The main loop [for i in range(alo, ahi)]. *)
Definition longest_loop (a b : list ascii) (alo ahi blo bhi : nat)
    : nat * nat * nat :=
  snd (foldl (fun '(j2len, best) i =>
                let row := next_row b blo bhi (nth i a Ascii.zero) j2len in
                (row, update_best i row best))
             (replicate (List.length b) 0%nat, (alo, blo, 0%nat))
             (seq alo (ahi - alo))).

(** [while besti > alo and bestj > blo and a[besti-1] == b[bestj-1]]
    (no element is junk, so [isbjunk] is constantly false). *)
Fixpoint extend_left (n : nat) (a b : list ascii) (alo blo : nat)
    (best : nat * nat * nat) : nat * nat * nat :=
  match n with
  | O => best
  | S n' =>
      let '(besti, bestj, bestsize) := best in
      if (alo <? besti)%nat && (blo <? bestj)%nat
         && Ascii.eqb (nth (besti - 1) a Ascii.zero) (nth (bestj - 1) b Ascii.zero)
      then extend_left n' a b alo blo (besti - 1, bestj - 1, S bestsize)%nat
      else best
  end.

(** [while besti+bestsize < ahi and bestj+bestsize < bhi and
    a[besti+bestsize] == b[bestj+bestsize]] *)
Fixpoint extend_right (n : nat) (a b : list ascii) (ahi bhi : nat)
    (best : nat * nat * nat) : nat * nat * nat :=
  match n with
  | O => best
  | S n' =>
      let '(besti, bestj, bestsize) := best in
      if (besti + bestsize <? ahi)%nat && (bestj + bestsize <? bhi)%nat
         && Ascii.eqb (nth (besti + bestsize) a Ascii.zero)
                      (nth (bestj + bestsize) b Ascii.zero)
      then extend_right n' a b ahi bhi (besti, bestj, S bestsize)
      else best
  end.

(** [SequenceMatcher.find_longest_match(alo, ahi, blo, bhi)] *)
Definition find_longest_match (a b : list ascii) (alo ahi blo bhi : nat)
    : nat * nat * nat :=
  let best := longest_loop a b alo ahi blo bhi in
  let best := extend_left (List.length a) a b alo blo best in
  extend_right (List.length a) a b ahi bhi best.

(** Total size of the blocks found by [get_matching_blocks] in the window
    [(alo, ahi, blo, bhi)].  The work queue of the source is unfolded into
    the two recursive calls; every call shrinks the [a]-window, so
    [fuel] above its width is never exhausted. *)
Fixpoint blocks_size (fuel : nat) (a b : list ascii) (alo ahi blo bhi : nat)
    : nat :=
  match fuel with
  | O => 0%nat
  | S fuel' =>
      let '(i, j, k) := find_longest_match a b alo ahi blo bhi in
      if (k =? 0)%nat then 0%nat
      else
        (k
         + (if (alo <? i) && (blo <? j)
            then blocks_size fuel' a b alo i blo j else 0)
         + (if (i + k <? ahi) && (j + k <? bhi)
            then blocks_size fuel' a b (i + k) ahi (j + k) bhi else 0))%nat
  end.

(** [sum(triple[-1] for triple in self.get_matching_blocks())] *)
Definition matches (a b : string) : nat :=
  let la := list_ascii_of_string a in
  let lb := list_ascii_of_string b in
  blocks_size (S (List.length la)) la lb 0 (List.length la) 0 (List.length lb).

(** [_calculate_ratio(matches, length)] *)
Definition calculate_ratio (m len : nat) : Qc :=
  if (len =? 0)%nat then 1%Qc
  else Q2Qc (Z.of_nat (2 * m) # Pos.of_nat len).

(** [SequenceMatcher(None, a, b).ratio()] *)
Definition ratio (a b : string) : Qc :=
  calculate_ratio (matches a b) (String.length a + String.length b).

(** Remove the first occurrence of [c]. *)
Fixpoint remove_first (c : ascii) (l : list ascii) : list ascii :=
  match l with
  | [] => []
  | d :: l' => if Ascii.eqb c d then l' else d :: remove_first c l'
  end.

(** [quick_ratio()] counts the multiset intersection of [a] and [b]:
    each element of [a] consumes one still-available occurrence in [b]. *)
Fixpoint quick_matches (a avail : list ascii) : nat :=
  match a with
  | [] => 0%nat
  | c :: a' =>
      if bool_decide (c ∈ avail)
      then S (quick_matches a' (remove_first c avail))
      else quick_matches a' avail
  end.

Definition quick_ratio (a b : string) : Qc :=
  calculate_ratio
    (quick_matches (list_ascii_of_string a) (list_ascii_of_string b))
    (String.length a + String.length b).

(** [real_quick_ratio()] *)
Definition real_quick_ratio (a b : string) : Qc :=
  calculate_ratio (Nat.min (String.length a) (String.length b))
                  (String.length a + String.length b).

(** The order of the [(score, x)] tuples that [heapq.nlargest] ranks:
    by score, ties by the string (Python compares strings by code
    point).  [key_ge p q] reads "[p] is ranked no later than [q]". *)
Definition key_ge (p q : Qc * string) : Prop :=
  (q.1 < p.1)%Qc ∨ (p.1 = q.1 ∧ String.leb q.2 p.2 = true).

#[global] Instance key_ge_dec : RelDecision key_ge.
Proof. intros p q. unfold key_ge. apply _. Defined.

(** [get_close_matches(word, possibilities, n, cutoff)].
    [seq2] is [word] and [seq1] the candidate [x]; a candidate is kept
    when the three ratios reach [cutoff]; [heapq.nlargest(n, result)] is
    [sorted(result, reverse=True)[:n]].  The source raises [ValueError]
    for [n <= 0] or a cutoff outside [0, 1]; the callers pass [n = 3]
    and the cutoffs [0.4] and [0.5]. *)
Definition scored (word : string) (possibilities : list string)
    (cutoff : Qc) : list (Qc * string) :=
  x ← possibilities;
  if bool_decide (cutoff ≤ real_quick_ratio x word)%Qc
     && bool_decide (cutoff ≤ quick_ratio x word)%Qc
     && bool_decide (cutoff ≤ ratio x word)%Qc
  then [(ratio x word, x)] else [].

Definition nlargest (n : nat) (result : list (Qc * string))
    : list (Qc * string) :=
  take n (merge_sort key_ge result).

Definition get_close_matches (word : string) (possibilities : list string)
    (n : nat) (cutoff : Qc) : list string :=
  (nlargest n (scored word possibilities cutoff)).*2.

(** A block [(i, j, k)] lies in the [a]-window from [alo] to [ahi]. *)
Definition in_window (alo ahi : nat) (best : nat * nat * nat) : Prop :=
  (alo ≤ best.1.1)%nat ∧ (best.1.1 + best.2 ≤ ahi)%nat.

(** Similarity of a candidate to the user's term, as both agents hand them
    to [get_close_matches]: the candidate is [seq1], the term [seq2], both
    lower-cased. *)
Definition similarity (term candidate : string) : Qc :=
  ratio (PyStr.lower candidate) (PyStr.lower term).

End Difflib.

(** ** SEO agent: schema resolver (src/src/seo_agent.py) *)

Module SEOResolver.
Import PyStr.

(** [SEOAgent.COLUMN_ALIASES] *)
Definition COLUMN_ALIASES_items : list (string * string) :=
  [
    ("url", "Address");
    ("urls", "Address");
    ("address", "Address");
    ("page", "Address");
    ("pages", "Address");
    ("link", "Address");
    ("links", "Address");
    ("title", "Title 1");
    ("page title", "Title 1");
    ("titles", "Title 1");
    ("title tag", "Title 1");
    ("title tags", "Title 1");
    ("title 1", "Title 1");
    ("title length", "Title 1 Length");
    ("title len", "Title 1 Length");
    ("meta description", "Meta Description 1");
    ("meta descriptions", "Meta Description 1");
    ("description", "Meta Description 1");
    ("descriptions", "Meta Description 1");
    ("meta desc", "Meta Description 1");
    ("meta description 1", "Meta Description 1");
    ("meta description length", "Meta Description 1 Length");
    ("description length", "Meta Description 1 Length");
    ("h1", "H1-1");
    ("h1s", "H1-1");
    ("h1 tag", "H1-1");
    ("h1 tags", "H1-1");
    ("heading", "H1-1");
    ("headings", "H1-1");
    ("h1-1", "H1-1");
    ("h1 length", "H1-1 Length");
    ("h2", "H2-1");
    ("h2s", "H2-1");
    ("h2-1", "H2-1");
    ("status", "Status Code");
    ("status code", "Status Code");
    ("http status", "Status Code");
    ("response code", "Status Code");
    ("status codes", "Status Code");
    ("indexable", "Indexability");
    ("indexability", "Indexability");
    ("index status", "Indexability");
    ("indexed", "Indexability");
    ("indexability status", "Indexability Status");
    ("word count", "Word Count");
    ("words", "Word Count");
    ("content length", "Word Count");
    ("canonical", "Canonical Link Element 1");
    ("canonical url", "Canonical Link Element 1");
    ("canonical link", "Canonical Link Element 1");
    ("redirect", "Redirect URL");
    ("redirect url", "Redirect URL");
    ("redirects", "Redirect URL");
    ("redirect to", "Redirect URL");
    ("content type", "Content Type");
    ("content", "Content Type");
    ("type", "Content Type");
    ("inlinks", "Inlinks");
    ("internal links", "Inlinks");
    ("outlinks", "Outlinks");
    ("external links", "Outlinks");
    ("unique inlinks", "Unique Inlinks");
    ("unique outlinks", "Unique Outlinks");
    ("size", "Size (Bytes)");
    ("page size", "Size (Bytes)");
    ("response time", "Response Time");
    ("load time", "Response Time");
    ("crawl depth", "Crawl Depth");
    ("depth", "Crawl Depth");
    ("level", "Crawl Depth")
  ].

Definition COLUMN_ALIASES : gmap string string :=
  list_to_map COLUMN_ALIASES_items.

(** [SEOAgent.FUZZY_THRESHOLD = 0.8] *)
Definition FUZZY_THRESHOLD : Qc := Q2Qc (4 # 5).

(** The cutoff [0.4] passed to [difflib.get_close_matches]. *)
Definition SUGGESTION_CUTOFF : Qc := Q2Qc (2 # 5).

(** The dict returned by [_resolve_single_column]:
    [{'status': 'resolved', 'column': c}] with an optional ['warning'],
    or [{'status': 'error', 'error': msg}]. *)
Inductive resolution : Type :=
| Resolved (column : string) (warning : option string)
| Failed (error : string).

(** One turn of the loop of [_fuzzy_match]: the pair
    [(best_match, best_ratio)] after looking at [candidate]. *)
Definition fuzzy_step (term_lower : string)
    (acc : option string * Qc) (candidate : string) : option string * Qc :=
  let ratio := Difflib.ratio term_lower (lower candidate) in
  if bool_decide (acc.2 < ratio)%Qc then (Some candidate, ratio) else acc.

(** [_fuzzy_match(term, candidates)] *)
Definition _fuzzy_match (term : string) (candidates : list string)
    : option string :=
  match candidates with
  | [] => None
  | _ =>
      let term_lower := lower term in
      let '(best_match, best_ratio) :=
        foldl (fuzzy_step term_lower) (None, 0%Qc) candidates in
      if bool_decide (FUZZY_THRESHOLD ≤ best_ratio)%Qc
      then best_match else None
  end.

(** The loop of [_get_suggestions] that maps a lower-cased match back to
    a candidate in its original case: the first candidate with that
    lower-cased form that is not in [result] yet. *)
Definition map_back (candidates : list string) (result : list string)
    (m : string) : list string :=
  match find (fun candidate =>
                String.eqb (lower candidate) m
                && negb (bool_decide (candidate ∈ result))) candidates with
  | Some candidate => result ++ [candidate]
  | None => result
  end.

(** [_get_suggestions(term, candidates, n)] *)
Definition _get_suggestions (term : string) (candidates : list string)
    (n : nat) : list string :=
  match candidates with
  | [] => []
  | _ =>
      let matches :=
        Difflib.get_close_matches (lower term) (lower <$> candidates)
                                  n SUGGESTION_CUTOFF in
      foldl (map_back candidates) [] matches
  end.

(** The message of the failure branch. *)
Definition unknown_field_error (user_field : string)
    (suggestions available : list string) : string :=
  let suggestion_text :=
    match suggestions with
    | [] => ""
    | _ => " Did you mean: " +:+ join ", " suggestions +:+ "?"
    end in
  "Unknown field '" +:+ user_field +:+ "'." +:+ suggestion_text
    +:+ " Available columns include: " +:+ join ", " (take 10 available)
    +:+ (if (10 <? List.length available)%nat then "..." else "").

(** Step 1 of [_resolve_single_column]: the alias table.  [None] means
    that control falls through to step 2. *)
Definition alias_step (available : list string) (user_field : string)
    : option resolution :=
  let user_field_lower := strip (lower user_field) in
  match COLUMN_ALIASES !! user_field_lower with
  | Some target_column =>
      if bool_decide (target_column ∈ available)
      then Some (Resolved target_column None)
      else
        match _fuzzy_match target_column available with
        | Some fuzzy_result =>
            Some (Resolved fuzzy_result
                    (Some ("Mapped '" +:+ user_field +:+ "' to '"
                             +:+ fuzzy_result +:+ "' (via alias)")))
        | None => None
        end
  | None => None
  end.

(** Step 2: the first column equal to the term when both are
    lower-cased. *)
Definition direct_step (available : list string) (user_field : string)
    : option string :=
  let user_field_lower := strip (lower user_field) in
  find (fun col => String.eqb (lower col) user_field_lower) available.

(** [_resolve_single_column(user_field)], with [self._available_columns]
    as [available]. *)
Definition _resolve_single_column (available : list string)
    (user_field : string) : resolution :=
  match alias_step available user_field with
  | Some r => r
  | None =>
      match direct_step available user_field with
      | Some col => Resolved col None
      | None =>
          match _fuzzy_match user_field available with
          | Some fuzzy_result =>
              Resolved fuzzy_result
                (Some ("Interpreted '" +:+ user_field +:+ "' as '"
                         +:+ fuzzy_result +:+ "' (fuzzy match)"))
          | None =>
              let suggestions := _get_suggestions user_field available 3 in
              Failed (unknown_field_error user_field suggestions available)
          end
      end
  end.

End SEOResolver.

(** ** Python values and exceptions *)

Module Py.

(** JSON-like values as the program handles them: the payloads of the
    responses, the replies of the language model in JSON mode, the rows of
    a report.  A dict keeps its items in insertion order. *)
#[local] Unset Elimination Schemes.
Inductive pyval : Type :=
| PNone
| PBool (b : bool)
| PInt (z : Z)
| PFloat (q : Qc)
| PStr (s : string)
| PList (l : list pyval)
| PDict (d : list (string * pyval)).
#[local] Set Elimination Schemes.

Definition pydict : Type := list (string * pyval).

(** Exceptions that cross function boundaries in the modelled code, each
    with the text of [str(e)]. *)
Inductive exn : Type :=
| GA4PropertyError (msg : string)
| ValidationError (msg : string)
| GA4APIError (msg : string)
| TypeError (msg : string)
| AttributeError (msg : string)
| OtherException (msg : string).

Definition exn_text (e : exn) : string :=
  match e with
  | GA4PropertyError m | ValidationError m | GA4APIError m
  | TypeError m | AttributeError m | OtherException m => m
  end.

(** A computation that returns or raises. *)
Inductive result (A : Type) : Type :=
| Ok (a : A)
| Raise (e : exn).
Arguments Ok {A} a.
Arguments Raise {A} e.

Definition bind {A B : Type} (m : result A) (k : A → result B) : result B :=
  match m with
  | Ok a => k a
  | Raise e => Raise e
  end.

(** [bool(v)] *)
Definition truthy (v : pyval) : bool :=
  match v with
  | PNone => false
  | PBool b => b
  | PInt z => negb (z =? 0)%Z
  | PFloat q => negb (bool_decide (q = 0%Qc))
  | PStr s => PyStr.truthy s
  | PList l => match l with [] => false | _ => true end
  | PDict d => match d with [] => false | _ => true end
  end.

(** [type(v).__name__] *)
Definition type_name (v : pyval) : string :=
  match v with
  | PNone => "NoneType"
  | PBool _ => "bool"
  | PInt _ => "int"
  | PFloat _ => "float"
  | PStr _ => "str"
  | PList _ => "list"
  | PDict _ => "dict"
  end.

(** [d.get(key)]: [None] of the option stands for an absent key. *)
Fixpoint lookup (d : pydict) (key : string) : option pyval :=
  match d with
  | [] => None
  | (k, v) :: d' => if String.eqb k key then Some v else lookup d' key
  end.

(** [d.get(key)] as a value: an absent key reads as [None]. *)
Definition get (d : pydict) (key : string) : pyval :=
  default PNone (lookup d key).

(** [d.get(key, dflt)] *)
Definition get_default (d : pydict) (key : string) (dflt : pyval) : pyval :=
  default dflt (lookup d key).

(** [key in d] *)
Definition has_key (d : pydict) (key : string) : bool :=
  bool_decide (is_Some (lookup d key)).

(** [d[key] = v]: an existing key keeps its position. *)
Fixpoint set (d : pydict) (key : string) (v : pyval) : pydict :=
  match d with
  | [] => [(key, v)]
  | (k, w) :: d' =>
      if String.eqb k key then (k, v) :: d' else (k, w) :: set d' key v
  end.

(** [len(v)]; raises [TypeError] for a value without length. *)
Definition len (v : pyval) : result nat :=
  match v with
  | PStr s => Ok (String.length s)
  | PList l => Ok (List.length l)
  | PDict d => Ok (List.length d)
  | _ => Raise (TypeError ("object of type '" +:+ type_name v
                             +:+ "' has no len()"))
  end.

(** [max(xs)] for a non-empty sequence of levels. *)
Definition max_of (xs : list nat) : nat := foldr Nat.max 0%nat xs.

(** Structural induction on values, with the induction hypothesis for
    every item of a list and every value of a dict. *)
Section pyval_induction.
Variable P : pyval → Prop.
Hypothesis HNone : P PNone.
Hypothesis HBool : ∀ b, P (PBool b).
Hypothesis HInt : ∀ z, P (PInt z).
Hypothesis HFloat : ∀ q, P (PFloat q).
Hypothesis HStr : ∀ s, P (PStr s).
Hypothesis HList : ∀ l, Forall P l → P (PList l).
Hypothesis HDict : ∀ d, Forall (fun kv => P kv.2) d → P (PDict d).

Fixpoint pyval_induction (v : pyval) : P v :=
  match v with
  | PNone => HNone
  | PBool b => HBool b
  | PInt z => HInt z
  | PFloat q => HFloat q
  | PStr s => HStr s
  | PList l =>
      HList l ((fix items (l : list pyval) : Forall P l :=
                  match l with
                  | [] => @List.Forall_nil _ P
                  | x :: l' =>
                      @List.Forall_cons _ P x l' (pyval_induction x) (items l')
                  end) l)
  | PDict d =>
      HDict d ((fix items (d : list (string * pyval))
                  : Forall (fun kv => P kv.2) d :=
                  match d with
                  | [] => @List.Forall_nil _ _
                  | kv :: d' =>
                      @List.Forall_cons _ (fun kv => P kv.2) kv d'
                                  (pyval_induction kv.2) (items d')
                  end) d)
  end.
End pyval_induction.

End Py.

(** ** Response formatter (src/src/response_formatter.py) *)

Module ResponseFormatter.
Import Py.

(** The response dict [{answer, data, agent_used}]; [data = None] is
    JSON [null]. *)
Record AgentResponse : Type := mkResponse {
  answer : string;
  data : option pydict;
  agent_used : string
}.

Definition HYBRID_THRESHOLD_ROWS : nat := 10.
Definition HYBRID_THRESHOLD_COMPLEXITY : nat := 5.

Definition _format_natural_language (answer agent_used : string)
    : AgentResponse :=
  mkResponse answer None agent_used.

(** [data or {}] *)
Definition _format_json (data : option pydict) (agent_used : string)
    : AgentResponse :=
  mkResponse "Results returned in JSON format"
             (Some (match data with
                    | Some ((_ :: _) as d) => d
                    | _ => []
                    end))
             agent_used.

Definition _format_hybrid (answer : string) (data : pydict)
    (agent_used : string) : AgentResponse :=
  mkResponse answer (Some data) agent_used.

(** The local function [count_nesting(obj, level=0)] of
    [_is_complex_structure]. *)
Fixpoint count_nesting (obj : pyval) (level : nat) {struct obj} : nat :=
  if (HYBRID_THRESHOLD_COMPLEXITY <? level)%nat then level
  else
    match obj with
    | PDict d =>
        match d with
        | [] => level
        | _ => max_of (map (fun kv => count_nesting kv.2 (S level)) d)
        end
    | PList l =>
        match l with
        | [] => level
        | _ => max_of (map (fun item => count_nesting item (S level)) l)
        end
    | _ => level
    end.

(** [_is_complex_structure(data)] for a dict [data]. *)
Definition _is_complex_structure (data : pydict) : bool :=
  let nesting_level := count_nesting (PDict data) 0 in
  (3 <? nesting_level)%nat.

(** [[k for k in data.keys() if k.startswith('source_')]] *)
Definition source_keys (data : pydict) : list string :=
  filter (fun k => PyStr.startswith "source_" k = true) data.*1.

(** [_should_use_hybrid(data)] *)
Definition _should_use_hybrid (data : option pydict) : result bool :=
  match data with
  | None | Some [] => Ok false
  | Some d =>
      bind (if has_key d "rows"
            then bind (len (get_default d "rows" (PList [])))
                      (fun row_count =>
                         Ok (HYBRID_THRESHOLD_ROWS <? row_count)%nat)
            else Ok false)
           (fun many_rows =>
              if many_rows then Ok true
              else if (2 <=? List.length (source_keys d))%nat then Ok true
              else if _is_complex_structure d then Ok true
              else Ok false)
  end.

(** *** The selection rule of the specification

    The quantities of the rule are defined here by the words of the
    specification, without the helpers of the code. *)

(** Nesting depth of a payload: one more than the deepest item of a
    non-empty dict or list, 0 for a scalar or an empty container. *)
Fixpoint nesting_depth (obj : pyval) : nat :=
  match obj with
  | PDict d =>
      match d with
      | [] => 0%nat
      | _ => S (max_of (map (fun kv => nesting_depth kv.2) d))
      end
  | PList l =>
      match l with
      | [] => 0%nat
      | _ => S (max_of (map nesting_depth l))
      end
  | _ => 0%nat
  end.

(** Row count of a payload: the number of items of its ['rows'] entry, 0
    without one; a ['rows'] entry that is a number, a truth value or
    [null] has no row count. *)
Definition row_count (data : option pydict) : option nat :=
  match data with
  | None => Some 0%nat
  | Some d =>
      match lookup d "rows" with
      | None => Some 0%nat
      | Some (PList rows) => Some (List.length rows)
      | Some (PDict rows) => Some (List.length rows)
      | Some (PStr rows) => Some (String.length rows)
      | Some _ => None
      end
  end.

(** Number of aggregated sources: the keys whose first seven characters
    are [source_]. *)
Definition source_count (data : option pydict) : nat :=
  List.length
    (filter (fun kv : string * pyval => substring 0 7 kv.1 = "source_")
            (default [] data)).

(** The three formats and the selection rule of the specification. *)
Inductive format : Type := NL | JSON | Hybrid.

Definition is_empty_payload (data : option pydict) : bool :=
  match data with
  | None | Some [] => true
  | _ => false
  end.

Definition select (explicit_json_requested : bool) (data : option pydict)
    (rows : nat) : format :=
  if explicit_json_requested then JSON
  else if is_empty_payload data then NL
  else if (10 <? rows)%nat
          || (2 <=? source_count data)%nat
          || (3 <? nesting_depth (PDict (default [] data)))%nat
  then Hybrid
  else NL.

(** The response of each format. *)
Definition render (f : format) (answer : string) (data : option pydict)
    (agent_used : string) : AgentResponse :=
  match f with
  | JSON => mkResponse "Results returned in JSON format"
                       (Some (default [] data)) agent_used
  | Hybrid => mkResponse answer data agent_used
  | NL => mkResponse answer None agent_used
  end.

(** [format_response(answer, data, agent_used, json_requested)] *)
Definition format_response (answer : string) (data : option pydict)
    (agent_used : string) (json_requested : bool) : result AgentResponse :=
  if json_requested then Ok (_format_json data agent_used)
  else
    bind (_should_use_hybrid data)
         (fun hybrid =>
            if hybrid
            then Ok (_format_hybrid answer (default [] data) agent_used)
            else Ok (_format_natural_language answer agent_used)).

End ResponseFormatter.

(** ** Analytics agent (src/src/analytics_agent.py) *)

Module AnalyticsAgent.
Import Py PyStr ResponseFormatter.

(** *** Allowlists *)

Definition CORE_METRICS : list (string * string) :=
  [ ("activeUsers", "Users who had an engaged session");
    ("newUsers", "Number of first-time users");
    ("sessions", "Total number of sessions");
    ("screenPageViews", "Total page/screen views");
    ("bounceRate", "Percentage of single-page sessions");
    ("averageSessionDuration", "Average session length in seconds");
    ("sessionsPerUser", "Average sessions per user");
    ("engagedSessions", "Sessions with engagement");
    ("engagementRate", "Percentage of engaged sessions") ].

Definition EXTENDED_METRICS : list (string * string) :=
  [ ("eventCount", "Total number of events");
    ("conversions", "Total conversions");
    ("totalRevenue", "Total revenue from purchases");
    ("ecommercePurchases", "Number of purchases");
    ("transactions", "Total transactions");
    ("itemRevenue", "Revenue from items");
    ("addToCarts", "Add to cart events");
    ("checkouts", "Checkout events");
    ("itemsViewed", "Items viewed");
    ("itemsPurchased", "Items purchased") ].

Definition EXTENDED_TRIGGERS : list string :=
  [ "revenue"; "sales"; "transactions"; "purchase"; "ecommerce";
    "e-commerce"; "conversions"; "convert"; "events"; "event count";
    "cart"; "checkout"; "order"; "buy"; "bought"; "sold"; "money";
    "income"; "earnings"; "item" ].

Definition CORE_DIMENSIONS : list (string * string) :=
  [ ("pagePath", "Page URL path");
    ("pageTitle", "Page title");
    ("deviceCategory", "Device type (desktop/mobile/tablet)");
    ("country", "User country");
    ("city", "User city");
    ("date", "Date (YYYYMMDD format)");
    ("sessionSource", "Traffic source");
    ("sessionMedium", "Traffic medium");
    ("sessionCampaignName", "Campaign name");
    ("browser", "Browser name");
    ("operatingSystem", "Operating system");
    ("language", "User language");
    ("landingPage", "First page in session") ].

Definition EXTENDED_DIMENSIONS : list (string * string) :=
  [ ("eventName", "Event name");
    ("transactionId", "Transaction ID");
    ("itemName", "Product/item name");
    ("itemCategory", "Product category");
    ("itemBrand", "Product brand") ].

Definition DEFAULT_DATE_RANGE : string * string := ("7daysAgo", "today").

(** [set(TABLE.keys())] *)
Definition keys (table : list (string * string)) : gset string :=
  list_to_set table.*1.

(** *** The collaborators and the interpreter's choices

    [chat_extract] is [llm_client.chat(..., json_mode=True)] of
    [_parse_query]; [run_report] is [ga4_client.run_report];
    [explain] is [_generate_nl_response] (the no-data template, the
    language model's text or the fallback text); [set_order] is the
    order in which [list(s)] enumerates a set. *)
Record report_request : Type := mkRequest {
  req_property_id : string;
  req_metrics : list string;
  req_dimensions : list string;
  req_start_date : pyval;
  req_end_date : pyval;
  req_limit : pyval
}.

Record world : Type := mkWorld {
  chat_extract : string → result pyval;
  run_report : report_request → result pydict;
  explain : string → pydict → pydict → result string;
  set_order : gset string → list string
}.

(** [list(s)] enumerates exactly the elements of [s]. *)
Definition set_order_ok (W : world) : Prop :=
  ∀ s : gset string, set_order W s ≡ₚ elements s.

(** *** Stage 1: parser *)

Definition default_parsed : pydict :=
  [ ("metrics", PList [PStr "users"]);
    ("dimensions", PList []);
    ("start_date", PStr DEFAULT_DATE_RANGE.1);
    ("end_date", PStr DEFAULT_DATE_RANGE.2);
    ("limit", PInt 10) ].

(** [if not result.get(key): result[key] = v] *)
Definition ensure (key : string) (v : pyval) (result : pydict) : pydict :=
  if negb (Py.truthy (Py.get result key)) then Py.set result key v else result.

(** [_parse_query(query)], given the outcome of the [chat] call.  A reply
    that is not a dict has no [get] method: the [AttributeError] is
    caught by the same [except Exception]. *)
Definition _parse_query (chat : result pyval) : pydict :=
  match chat with
  | Ok (PDict result) =>
      let result := ensure "metrics" (PList [PStr "users"]) result in
      let result := ensure "start_date" (PStr DEFAULT_DATE_RANGE.1) result in
      let result := ensure "end_date" (PStr DEFAULT_DATE_RANGE.2) result in
      let result := ensure "limit" (PInt 10) result in
      result
  | _ => default_parsed
  end.

(** *** Agent state and the pipeline monad *)

Record agent_state : Type := mkState {
  _extended_enabled : bool;
  _extended_reason : string;
  run_report_calls : list report_request
}.

(** A stage reads and writes the agent's fields and returns or raises. *)
Definition M (A : Type) : Type := agent_state → agent_state * result A.

Definition ret {A : Type} (a : A) : M A := fun st => (st, Ok a).
Definition raise {A : Type} (e : exn) : M A := fun st => (st, Raise e).
Definition lift {A : Type} (r : result A) : M A := fun st => (st, r).
Definition andthen {A B : Type} (m : M A) (k : A → M B) : M B :=
  fun st =>
    match m st with
    | (st', Ok a) => k a st'
    | (st', Raise e) => (st', Raise e)
    end.

#[global] Instance M_ret : MRet M := @ret.
#[global] Instance M_bind : MBind M := fun A B k m => andthen m k.

(** [self._extended_enabled = True; self._extended_reason = reason] *)
Definition enable_extended (reason : string) : M unit :=
  fun st => (mkState true reason (run_report_calls st), Ok tt).

(** [self._extended_enabled = False; self._extended_reason = ""] *)
Definition reset_extended : M unit :=
  fun st => (mkState false "" (run_report_calls st), Ok tt).

Definition read_state : M agent_state := fun st => (st, Ok st).

(** *** Stage 2: tier resolution and validation *)

(** [for x in v] *)
Definition iterate (v : pyval) : result (list pyval) :=
  match v with
  | PList l => Ok l
  | PStr s => Ok ((fun c => PStr (String c "")) <$> list_ascii_of_string s)
  | PDict d => Ok ((fun kv => PStr kv.1) <$> d)
  | _ => Raise (TypeError ("'" +:+ type_name v +:+ "' object is not iterable"))
  end.

(** The first element of [l] that belongs to [names]. *)
Fixpoint first_in (names : gset string) (l : list pyval)
    : result (option string) :=
  match l with
  | [] => Ok None
  | v :: l' =>
      match v with
      | PStr s => if bool_decide (s ∈ names) then Ok (Some s)
                  else first_in names l'
      | PList _ | PDict _ =>
          Raise (TypeError ("unhashable type: '" +:+ type_name v +:+ "'"))
      | _ => first_in names l'
      end
  end.

(** [_check_extended_triggers(query, metrics, dimensions)] *)
Definition _check_extended_triggers (query : string)
    (metrics dimensions : pyval) : M unit :=
  let query_lower := lower query in
  match find (fun trigger => contains trigger query_lower)
             EXTENDED_TRIGGERS with
  | Some trigger => enable_extended ("query mentions '" +:+ trigger +:+ "'")
  | None =>
      ms ← lift (iterate metrics);
      hit ← lift (first_in (keys EXTENDED_METRICS) ms);
      match hit with
      | Some metric =>
          enable_extended ("metric '" +:+ metric
                             +:+ "' requires extended tier")
      | None =>
          ds ← lift (iterate dimensions);
          hit ← lift (first_in (keys EXTENDED_DIMENSIONS) ds);
          match hit with
          | Some dimension =>
              enable_extended ("dimension '" +:+ dimension
                                 +:+ "' requires extended tier")
          | None => ret tt
          end
      end
  end.

(** The loop of [_validate_field] that maps the lower-cased matches back
    to the original names. *)
Definition original_case (all_fields : list string) (close_matches : list string)
    : list string :=
  m ← close_matches;
  option_list (find (fun original => String.eqb (lower original) m) all_fields).

(** The suggestions of [_validate_field]: [difflib.get_close_matches]
    with [n = 3] and [cutoff = 0.5]. *)
Definition VALIDATION_CUTOFF : Qc := Q2Qc (1 # 2).

Definition close_matches (field : string) (all_fields : list string)
    : list string :=
  Difflib.get_close_matches (lower field) (lower <$> all_fields) 3
                            VALIDATION_CUTOFF.

Definition quoted (s : string) : string := "'" +:+ s +:+ "'".

Definition validation_message (field field_type : string)
    (all_fields : list string) : string :=
  match close_matches field all_fields with
  | [] =>
      let sample_str := join ", " (quoted <$> take 5 all_fields) in
      field_type +:+ " '" +:+ field +:+ "' is not recognized. Valid "
        +:+ lower field_type +:+ "s include: " +:+ sample_str
        +:+ ", and more. Please check GA4 documentation for exact field names."
  | ms =>
      let suggestion_str :=
        join ", " (quoted <$> original_case all_fields ms) in
      field_type +:+ " '" +:+ field +:+ "' is not valid. Did you mean: "
        +:+ suggestion_str +:+ "? Please use exact GA4 field names."
  end.

(** [_validate_field(field, valid_fields, field_type)] *)
Definition _validate_field (W : world) (field : pyval)
    (valid_fields : gset string) (field_type : string) : result string :=
  match field with
  | PStr f =>
      if bool_decide (f ∈ valid_fields) then Ok f
      else Raise (ValidationError
                    (validation_message f field_type
                       (set_order W valid_fields)))
  | PList _ | PDict _ =>
      Raise (TypeError ("unhashable type: '" +:+ type_name field +:+ "'"))
  | _ =>
      Raise (AttributeError ("'" +:+ type_name field
                               +:+ "' object has no attribute 'lower'"))
  end.

(** The validation loops: the first invalid field raises. *)
Fixpoint validate_all (W : world) (fields : list pyval)
    (valid_fields : gset string) (field_type : string)
    : result (list string) :=
  match fields with
  | [] => Ok []
  | f :: fields' =>
      bind (_validate_field W f valid_fields field_type) (fun v =>
      bind (validate_all W fields' valid_fields field_type) (fun vs =>
      Ok (v :: vs)))
  end.

(** [_resolve_and_validate(query, parsed_metrics, parsed_dimensions)] *)
Definition _resolve_and_validate (W : world) (query : string)
    (parsed_metrics parsed_dimensions : pyval)
    : M (list string * list string) :=
  _check_extended_triggers query parsed_metrics parsed_dimensions ;;
  st ← read_state;
  let valid_metrics :=
    if _extended_enabled st
    then keys CORE_METRICS ∪ keys EXTENDED_METRICS else keys CORE_METRICS in
  let valid_dimensions :=
    if _extended_enabled st
    then keys CORE_DIMENSIONS ∪ keys EXTENDED_DIMENSIONS
    else keys CORE_DIMENSIONS in
  ms ← lift (iterate parsed_metrics);
  validated_metrics ← lift (validate_all W ms valid_metrics "Metric");
  ds ← lift (iterate parsed_dimensions);
  validated_dimensions ←
    lift (validate_all W ds valid_dimensions "Dimension");
  ret (validated_metrics, validated_dimensions).

(** *** Stage 3: execution *)

(** [self.ga4_client.run_report(...)]: the call is recorded in the
    agent's log, then the collaborator answers. *)
Definition execute (W : world) (req : report_request) : M pydict :=
  fun st =>
    (mkState (_extended_enabled st) (_extended_reason st)
             (run_report_calls st ++ [req]),
     run_report W req).

(** *** Stage 4: synthesis *)

(** [v > n] for an integer literal [n]. *)
Definition gt_int (v : pyval) (n : Z) : result bool :=
  match v with
  | PInt z => Ok (n <? z)%Z
  | PBool b => Ok (n <? (if b then 1 else 0))%Z
  | PFloat q => Ok (bool_decide (Qc_of_Z n < q)%Qc)
  | _ => Raise (TypeError ("'>' not supported between instances of '"
                             +:+ type_name v +:+ "' and 'int'"))
  end.

(** [_synthesize_response(query, data, json_requested, parsed)] *)
Definition _synthesize_response (W : world) (query : string)
    (data : pydict) (json_requested : bool) (parsed : pydict)
    : M AgentResponse :=
  st ← read_state;
  let row_count := get_default data "row_count" (PInt 0) in
  let acknowledgment :=
    if _extended_enabled st
    then "(Note: Including extended metrics to answer your "
           +:+ _extended_reason st +:+ ".) "
    else "" in
  if json_requested
  then ret (mkResponse (acknowledgment +:+ "Results returned in JSON format.")
                       (Some data) "analytics")
  else
    nl_response ← lift (explain W query data parsed);
    lift (gt_int row_count 10) ≫= λ many : bool,
    if many
    then ret (mkResponse (acknowledgment +:+ nl_response)
                         (Some data) "analytics")
    else ret (mkResponse (acknowledgment +:+ nl_response)
                         None "analytics").

(** *** The pipeline *)

(** [a or b] on optional strings. *)
Definition py_or (a b : option string) : option string :=
  match a with
  | Some (String _ _) => a
  | _ => b
  end.

Definition property_id_required : string :=
  "GA4 Property ID is required. Please provide 'propertyId' in your request "
  +:+ "(e.g., '123456789'). You can find this in Google Analytics under "
  +:+ "Admin > Property Settings.".

(** The [try] block of [process]. *)
Definition process_body (W : world) (default_property_id : option string)
    (query : string) (property_id : option string) (json_requested : bool)
    : M AgentResponse :=
  reset_extended ;;
  match py_or property_id default_property_id with
  | Some ((String _ _) as resolved_property_id) =>
      let parsed := _parse_query (chat_extract W query) in
      checked ← _resolve_and_validate W query
                  (get_default parsed "metrics" (PList []))
                  (get_default parsed "dimensions" (PList []));
      data ← execute W
               (mkRequest resolved_property_id checked.1 checked.2
                  (get_default parsed "start_date" (PStr DEFAULT_DATE_RANGE.1))
                  (get_default parsed "end_date" (PStr DEFAULT_DATE_RANGE.2))
                  (get_default parsed "limit" (PInt 100)));
      _synthesize_response W query data json_requested parsed
  | _ => raise (GA4PropertyError property_id_required)
  end.

(** The [except] clauses of [process]. *)
Definition handle (e : exn) : AgentResponse :=
  match e with
  | GA4PropertyError msg => mkResponse msg None "analytics"
  | ValidationError msg => mkResponse msg None "analytics"
  | GA4APIError msg =>
      mkResponse ("Error querying Google Analytics: " +:+ msg)
                 None "analytics"
  | _ =>
      mkResponse ("An error occurred processing your analytics query: "
                    +:+ exn_text e)
                 None "analytics"
  end.

(** [process(query, property_id, json_requested)] on an agent built with
    [default_property_id]: the final agent state and the response. *)
Definition process (W : world) (default_property_id : option string)
    (query : string) (property_id : option string) (json_requested : bool)
    (st : agent_state) : agent_state * AgentResponse :=
  match process_body W default_property_id query property_id
                     json_requested st with
  | (st', Ok response) => (st', response)
  | (st', Raise e) => (st', handle e)
  end.

(** *** Vocabulary of the statements *)

(** A property id that is not supplied: [None] or the empty string, the
    two values that [not resolved_property_id] accepts. *)
Definition absent (property_id : option string) : Prop :=
  property_id = None ∨ property_id = Some "".

(** The tier fields of the agent. *)
Definition tier (st : agent_state) : bool * string :=
  (_extended_enabled st, _extended_reason st).

(** The reason that the tier stage records for a query and the parsed
    field names, [None] when it records nothing. *)
Definition tier_reason (query : string) (metrics dimensions : list string)
    : option string :=
  match find (fun trigger => contains trigger (lower query))
             EXTENDED_TRIGGERS with
  | Some trigger => Some ("query mentions '" +:+ trigger +:+ "'")
  | None =>
      match find (fun m => bool_decide (m ∈ keys EXTENDED_METRICS)) metrics with
      | Some metric =>
          Some ("metric '" +:+ metric +:+ "' requires extended tier")
      | None =>
          match find (fun d => bool_decide (d ∈ keys EXTENDED_DIMENSIONS))
                     dimensions with
          | Some dimension =>
              Some ("dimension '" +:+ dimension +:+ "' requires extended tier")
          | None => None
          end
      end
  end.

(** The extraction gave no metric list: the call raised, or answered with
    JSON that is not an object, or with an object whose ['metrics'] entry
    is missing or falsy. *)
Definition no_metrics_extracted (chat : result pyval) : Prop :=
  match chat with
  | Ok (PDict result) => Py.truthy (Py.get result "metrics") = false
  | _ => True
  end.

(** A stage that leaves the tier fields as they are. *)
Definition keeps_tier {A : Type} (stage : M A) : Prop :=
  ∀ st, tier (stage st).1 = tier st.

(** A world for examples: the language model's extraction fails, the report
    has no rows, the explanation is a fixed text, and [list(s)] enumerates
    a set as [elements] does. *)
Definition sample_world : world :=
  mkWorld (fun _ => Raise (OtherException "LLM did not return valid JSON"))
          (fun _ => Ok [("rows", PList []); ("row_count", PInt 0)])
          (fun _ _ _ => Ok "No data found for the specified query.")
          elements.

(** A second world: the extraction names an extended metric, the report
    has twelve rows. *)
Definition revenue_world : world :=
  mkWorld (fun _ => Ok (PDict [ ("metrics", PList [PStr "sessions";
                                                   PStr "totalRevenue"]);
                                ("dimensions", PList [PStr "country"]);
                                ("limit", PInt 5) ]))
          (fun _ => Ok [("rows", PList []); ("row_count", PInt 12)])
          (fun _ _ _ => Ok "Sessions and revenue by country.")
          elements.

(** A third world: the extraction names no metric and answers
    ["dimensions": null]. *)
Definition null_dimensions_world : world :=
  mkWorld (fun _ => Ok (PDict [("dimensions", PNone)]))
          (fun _ => Ok [("rows", PList []); ("row_count", PInt 0)])
          (fun _ _ _ => Ok "No data found for the specified query.")
          elements.

(** The loop of the tier stage over the parsed dimensions: the first
    extended dimension, if the loop gets that far. *)
Definition scan_dimensions (dimensions : pyval) : result (option string) :=
  bind (iterate dimensions) (first_in (keys EXTENDED_DIMENSIONS)).

(** The answer of a request whose only metric is the default ['users']. *)
Definition users_not_valid : string :=
  "Metric 'users' is not valid. Did you mean: 'newUsers', 'activeUsers'? "
  +:+ "Please use exact GA4 field names.".

End AnalyticsAgent.

(** ** SEO agent: data processor and synthesizer (src/src/seo_agent.py) *)

Module SEOAgent.
Import Py ResponseFormatter.

(** *** pandas frames

    A frame is a list of named, typed columns over a list of rows.
    Frames fetched by [SheetsClient.fetch_sheet] are built from
    [get_all_values()]: every cell is a string and every column has
    dtype [object]; an empty sheet cell is the empty string.  Numeric
    cells appear in the columns that the aggregations add.  A cell is
    never missing.  Numbers are exact rationals.  A numeric column is a
    column of floats ([DNumber], pandas' [float64]) or a column of
    integers ([DInteger], pandas' [int64], whose cells hold whole
    numbers); [dtypes] has one entry per column. *)
Inductive cell : Type :=
| CStr (s : string)
| CNum (q : Qc).

Inductive dtype : Type := DObject | DNumber | DInteger.

Record DataFrame : Type := mkFrame {
  columns : list string;
  dtypes : list dtype;
  rows : list (list cell)
}.

#[global] Instance cell_eq_dec : EqDecision cell.
Proof. solve_decision. Defined.
#[global] Instance dtype_eq_dec : EqDecision dtype.
Proof. solve_decision. Defined.

(** [len(df)] *)
Definition nrows (df : DataFrame) : nat := List.length (rows df).

(** [df.empty]: an axis of length 0. *)
Definition empty (df : DataFrame) : bool :=
  (nrows df =? 0)%nat || (List.length (columns df) =? 0)%nat.

(** Position of the first column called [name]. *)
Fixpoint position (name : string) (cols : list string) : nat :=
  match cols with
  | [] => 0%nat
  | c :: cols' => if String.eqb c name then 0%nat else S (position name cols')
  end.

(** The cells of [df[name]]. *)
Definition column (df : DataFrame) (name : string) : list cell :=
  let i := position name (columns df) in
  (fun row => nth i row (CStr "")) <$> rows df.

(** Order of the values of one column: numbers by value, strings by code
    point.  A column holds one kind of cell; across kinds the order is
    immaterial and fixed as "numbers first". *)
Definition cell_le (x y : cell) : Prop :=
  match x, y with
  | CNum p, CNum q => (p ≤ q)%Qc
  | CNum _, CStr _ => True
  | CStr _, CNum _ => False
  | CStr s, CStr t => String.leb s t = true
  end.

#[global] Instance cell_le_dec : RelDecision cell_le.
Proof. intros [s|p] [t|q]; unfold cell_le; apply _. Defined.

(** [df.groupby(name)]: the distinct keys in ascending order
    ([sort=True]). *)
Definition group_keys (keys : list cell) : list cell :=
  merge_sort cell_le (remove_dups keys).

(** [df.groupby(name).size()]: a count per key. *)
Definition groupby_size (keys : list cell) : list (cell * nat) :=
  (fun k => (k, List.length (filter (fun k' => k' = k) keys)))
    <$> group_keys keys.

(** [df.sort_values(by, ascending)].  pandas' default sort is not stable:
    the relative order of rows with equal values is unspecified; the
    model fixes one order. *)
Definition row_le (i : nat) (ascending : bool) (r1 r2 : list cell) : Prop :=
  if ascending
  then cell_le (nth i r1 (CStr "")) (nth i r2 (CStr ""))
  else cell_le (nth i r2 (CStr "")) (nth i r1 (CStr "")).

#[global] Instance row_le_dec i asc : RelDecision (row_le i asc).
Proof. intros r1 r2; unfold row_le; destruct asc; apply _. Defined.

Definition sort_values (df : DataFrame) (by_ : string) (ascending : bool)
    : DataFrame :=
  mkFrame (columns df) (dtypes df)
          (merge_sort (row_le (position by_ (columns df)) ascending)
                      (rows df)).

(** [df.select_dtypes(include=['number']).columns] *)
Definition numeric_columns (df : DataFrame) : list string :=
  (filter (fun cd => cd.2 ≠ DObject) (zip (columns df) (dtypes df))).*1.

Definition dtype_of (df : DataFrame) (name : string) : dtype :=
  nth (position name (columns df)) (dtypes df) DObject.

Definition num_of (c : cell) : Qc :=
  match c with CNum q => q | CStr _ => 0%Qc end.

Definition qc_of_nat (n : nat) : Qc := Qc_of_Z (Z.of_nat n).

(** The rows of the group [k]. *)
Definition group_rows (df : DataFrame) (gi : nat) (k : cell)
    : list (list cell) :=
  filter (fun row => nth gi row (CStr "") = k) (rows df).

Definition sum_of (rs : list (list cell)) (ci : nat) : Qc :=
  foldr (fun row acc => (num_of (nth ci row (CStr "")) + acc)%Qc) 0%Qc rs.

Definition mean_of (rs : list (list cell)) (ci : nat) : Qc :=
  (sum_of rs ci / qc_of_nat (List.length rs))%Qc.

(** [df.groupby(g).size().reset_index(name='count')]: the counts are
    integers. *)
Definition size_frame (df : DataFrame) (group_column : string) : DataFrame :=
  mkFrame [group_column; "count"] [dtype_of df group_column; DInteger]
          ((fun kc => [kc.1; CNum (qc_of_nat kc.2)])
             <$> groupby_size (column df group_column)).

(** [df.groupby(g)[numeric_cols].agg().reset_index()] for [sum] and
    [mean]; [kind c] is the dtype of the aggregate of column [c]: a sum
    has the dtype of its column, a mean is a float. *)
Definition agg_frame (agg : list (list cell) → nat → Qc)
    (kind : string → dtype) (df : DataFrame)
    (group_column : string) (numeric_cols : list string) : DataFrame :=
  let gi := position group_column (columns df) in
  mkFrame (group_column :: numeric_cols)
          (dtype_of df group_column :: (kind <$> numeric_cols))
          ((fun k =>
              k :: ((fun c => CNum (agg (group_rows df gi k)
                                        (position c (columns df))))
                      <$> numeric_cols))
             <$> group_keys (column df group_column)).

(** [pd.DataFrame({group_column: counts.index, 'count': counts.values,
    'percentage': percentages.values})]: the dict literal keeps one
    entry per key, a repeated key keeps its first position and its last
    value. *)
Definition percentage_frame (percent : nat → nat → Qc) (df : DataFrame)
    (group_column : string) : DataFrame :=
  let counts := groupby_size (column df group_column) in
  let total := nrows df in
  let entry (kc : cell * nat) (name : string) : cell :=
    if String.eqb name "percentage" then CNum (percent kc.2 total)
    else if String.eqb name "count" then CNum (qc_of_nat kc.2)
    else kc.1 in
  let spec :=
    Py.set (Py.set [(group_column, PNone)] "count" PNone) "percentage" PNone in
  let names := spec.*1 in
  mkFrame names
          ((fun name =>
              if String.eqb name "percentage" then DNumber
              else if String.eqb name "count" then DInteger
              else dtype_of df group_column) <$> names)
          ((fun kc => entry kc <$> names) <$> counts).

(** [_apply_grouping(df, group_column, aggregation)].

    [percent c n] stands for the float [(c / n * 100).round(2)].
    The [except] branch returns [df]; the modelled exceptions are: the
    group column is not a single column of [df] ([KeyError] or
    [ValueError] of [groupby]); [reset_index] would insert a column
    whose name exists already ([ValueError]): the column ['count'] when
    the group column is called ['count'], the group column when it is
    itself one of the aggregated numeric columns. *)
Definition _apply_grouping (percent : nat → nat → Qc) (df : DataFrame)
    (group_column : string) (aggregation : string) : DataFrame :=
  if negb (count_occ string_dec (columns df) group_column =? 1)%nat then df
  else
    let size_branch :=
      if String.eqb group_column "count" then df
      else size_frame df group_column in
    if String.eqb aggregation "count" then
      if String.eqb group_column "count" then df
      else sort_values (size_frame df group_column) "count" false
    else if String.eqb aggregation "percentage" then
      sort_values (percentage_frame percent df group_column)
                  "percentage" false
    else if String.eqb aggregation "sum" then
      let numeric_cols := numeric_columns df in
      if (0 <? List.length numeric_cols)%nat then
        if bool_decide (group_column ∈ numeric_cols) then df
        else agg_frame sum_of (dtype_of df) df group_column numeric_cols
      else size_branch
    else if String.eqb aggregation "average" then
      let numeric_cols := numeric_columns df in
      if (0 <? List.length numeric_cols)%nat then
        if bool_decide (group_column ∈ numeric_cols) then df
        else agg_frame mean_of (fun _ => DNumber) df group_column
                       numeric_cols
      else size_branch
    else size_branch.

(** *** Synthesizer *)

(** The Python value that [to_dict] gives for a cell of a column of the
    given dtype: the string itself for a string, an [int] for a number
    of a column of integers ([int64], whose cells are whole: the
    quotient is exact), a [float] for a number of a column of floats.
    The numbers of the frames of this agent stand in columns of these
    two kinds: the counts of [size()] are integers, a sum has the dtype
    of the column it sums, percentages and means are floats. *)
Definition pyval_of_cell (kind : dtype) (c : cell) : pyval :=
  match c with
  | CStr s => PStr s
  | CNum q =>
      match kind with
      | DInteger => PInt (Qnum q / Z.pos (Qden q))
      | _ => PFloat q
      end
  end.

(** [df.to_dict('records')]: one dict per row; a repeated column name
    keeps its last value. *)
Definition record_of (cols : list string) (kinds : list dtype)
    (row : list cell) : pydict :=
  foldl (fun d '(c, (kind, v)) => Py.set d c (pyval_of_cell kind v)) []
        (zip cols (zip kinds row)).

Definition to_dict_records (df : DataFrame) : list pyval :=
  (fun row => PDict (record_of (columns df) (dtypes df) row)) <$> rows df.

(** The [data_dict] of [_synthesize_response]. *)
Definition data_dict (df : DataFrame) : pydict :=
  if empty df
  then [("rows", PList []); ("columns", PList [])]
  else [("rows", PList (to_dict_records df));
        ("columns", PList (PStr <$> columns df));
        ("total_rows", PInt (Z.of_nat (nrows df)))].

(** [SEOAgent._should_use_hybrid(result_df)] *)
Definition _should_use_hybrid (result_df : DataFrame) : bool :=
  if empty result_df then false
  else
    let row_count := nrows result_df in
    (10 <=? row_count)%nat && (row_count <=? 100)%nat.

(** [_synthesize_response(...)]; [nl_answer] is the text returned by
    [_generate_nl_summary] (the fixed template, the language model's
    summary or the fallback sentence). *)
Definition _synthesize_response (nl_answer : string)
    (result_df : DataFrame) (json_requested : bool)
    : result AgentResponse :=
  let data_dict := data_dict result_df in
  if json_requested
  then format_response "Results returned in JSON format"
                       (Some data_dict) "seo" true
  else if _should_use_hybrid result_df
  then format_response nl_answer (Some data_dict) "seo" false
  else format_response nl_answer None "seo" false.

(** *** Frames for examples *)

(** Three crawled pages, as [fetch_sheet] delivers them. *)
Definition crawl_frame : DataFrame :=
  mkFrame ["Address"; "Indexability"] [DObject; DObject]
    [ [CStr "/a"; CStr "Indexable"];
      [CStr "/b"; CStr "Non-Indexable"];
      [CStr "/c"; CStr "Non-Indexable"] ].

(** A frame with a numeric column. *)
Definition words_frame : DataFrame :=
  mkFrame ["Content Type"; "Word Count"] [DObject; DNumber]
    [ [CStr "html"; CNum (qc_of_nat 10)];
      [CStr "pdf"; CNum (qc_of_nat 50)] ].

(** An exact stand-in for [(c / n * 100).round(2)] in examples. *)
Definition exact_percent (c n : nat) : Qc :=
  (qc_of_nat (100 * c) / qc_of_nat n)%Qc.

(** Descending order of the cells of an aggregated column. *)
Definition descending (cells : list cell) : Prop :=
  Sorted (fun x y => cell_le y x) cells.

(** Ascending order of the cells of a column. *)
Definition ascending (cells : list cell) : Prop :=
  Sorted cell_le cells.

End SEOAgent.

(** ** Orchestrator (src/src/orchestrator.py) *)

Module Orchestrator.
Import Py ResponseFormatter.

(** The agents and the language model as the orchestrator calls them:
    [analytics] is [analytics_agent.process], [seo] is
    [seo_agent.process] (each takes the sub-query and returns a response
    or raises); [unify] is the [chat] call that writes the unified
    answer from the collected answers. *)
Record agents : Type := mkAgents {
  analytics : pyval → result AgentResponse;
  seo : pyval → result AgentResponse;
  unify : string → list string → result string
}.

Definition INTENT_ANALYTICS : string := "analytics".
Definition INTENT_SEO : string := "seo".
Definition INTENT_MULTI : string := "multi-agent".

(** [result['agent_used'] = label] *)
Definition with_agent (label : string) (r : AgentResponse) : AgentResponse :=
  mkResponse (answer r) (data r) label.

Definition _route_to_analytics (A : agents) (query : pyval)
    : result AgentResponse :=
  bind (analytics A query) (fun r => Ok (with_agent INTENT_ANALYTICS r)).

Definition _route_to_seo (A : agents) (query : pyval)
    : result AgentResponse :=
  bind (seo A query) (fun r => Ok (with_agent INTENT_SEO r)).

(** [_decompose_query(query)], given the outcome of the [chat] call. *)
Definition _decompose_query (chat : result pyval) (query : string)
    : result (list pyval) :=
  bind chat (fun tasks =>
    match tasks with
    | PList ts => Ok ts
    | _ => Ok [ PDict [("agent", PStr "analytics"); ("sub_query", PStr query)];
                PDict [("agent", PStr "seo"); ("sub_query", PStr query)] ]
    end).

(** The coroutine [execute_task(task)] of [_execute_tasks_parallel]:
    it returns a response, returns [None], or raises. *)
Definition execute_task (A : agents) (task : pyval)
    : result (option AgentResponse) :=
  match task with
  | PDict t =>
      let agent_type := Py.get t "agent" in
      let sub_query := Py.get t "sub_query" in
      match agent_type with
      | PStr "analytics" =>
          bind (_route_to_analytics A sub_query) (fun r => Ok (Some r))
      | PStr "seo" =>
          bind (_route_to_seo A sub_query) (fun r => Ok (Some r))
      | _ => Ok None
      end
  | _ => Raise (AttributeError ("'" +:+ type_name task
                                  +:+ "' object has no attribute 'get'"))
  end.

(** [asyncio.gather] with [return_exceptions=True].  The awaitables
    finish in the order [schedule] (indices into [tasks]); each outcome
    is stored in the slot of its awaitable, and the list of slots is the
    result. *)
Definition gather (A : agents) (schedule : list nat) (tasks : list pyval)
    : list (option (result (option AgentResponse))) :=
  foldl (fun slots i =>
           match tasks !! i with
           | Some task => <[i := Some (execute_task A task)]> slots
           | None => slots
           end)
        (replicate (List.length tasks) None) schedule.

(** [[r for r in results if r is not None and not isinstance(r, Exception)]] *)
Definition valid_results
    (results : list (option (result (option AgentResponse))))
    : list AgentResponse :=
  slot ← results;
  match slot with
  | Some (Ok (Some r)) => [r]
  | _ => []
  end.

(** [_execute_tasks_parallel(tasks, property_id, json_requested)] *)
Definition _execute_tasks_parallel (A : agents) (schedule : list nat)
    (tasks : list pyval) : list AgentResponse :=
  valid_results (gather A schedule tasks).

(** The loop of [_aggregate_results] over [enumerate(results)]:
    [all_data[f"source_{i+1}"] = result['data']] when the data is
    truthy. *)
Definition collect_data (results : list AgentResponse) : pydict :=
  foldl (fun all_data '(i, r) =>
           match data r with
           | Some ((_ :: _) as d) =>
               Py.set all_data ("source_" +:+ pretty (S i)) (PDict d)
           | _ => all_data
           end)
        [] (imap pair results).

Definition collect_answers (results : list AgentResponse) : list string :=
  filter (fun a => PyStr.truthy a = true) (answer <$> results).

(** [Orchestrator._should_use_hybrid(data)] *)
Fixpoint total_rows (sources : list pyval) : result nat :=
  match sources with
  | [] => Ok 0%nat
  | source_data :: rest =>
      bind (match source_data with
            | PDict d =>
                if has_key d "rows"
                then len (get_default d "rows" (PList []))
                else Ok 0%nat
            | _ => Ok 0%nat
            end) (fun n =>
      bind (total_rows rest) (fun m => Ok (n + m)%nat))
  end.

Definition _should_use_hybrid (data : pydict) : result bool :=
  match data with
  | [] => Ok false
  | _ => bind (total_rows data.*2) (fun n => Ok (5 <? n)%nat)
  end.

(** [_aggregate_results(original_query, results, json_requested)]: the
    answer and the data of the returned dict. *)
Definition _aggregate_results (A : agents) (original_query : string)
    (results : list AgentResponse) (json_requested : bool)
    : result (string * option pydict) :=
  match results with
  | [] => Ok ("Unable to process query with available agents.", None)
  | _ =>
      let all_data := collect_data results in
      let all_answers := collect_answers results in
      if json_requested
      then Ok ("Combined results from analytics and SEO data returned in JSON format",
               match all_data with [] => None | _ => Some all_data end)
      else
        bind (unify A original_query all_answers) (fun unified_answer =>
        bind (match all_data with
              | [] => Ok false
              | _ => _should_use_hybrid all_data
              end) (fun include_data =>
        Ok (unified_answer, if include_data then Some all_data else None)))
  end.

(** [_route_to_multi_agent(query, property_id, json_requested)] *)
Definition _route_to_multi_agent (A : agents) (decompose_chat : result pyval)
    (schedule : list nat) (query : string) (json_requested : bool)
    : result AgentResponse :=
  bind (_decompose_query decompose_chat query) (fun tasks =>
  let results := _execute_tasks_parallel A schedule tasks in
  bind (_aggregate_results A query results json_requested) (fun aggregated =>
  Ok (mkResponse aggregated.1 aggregated.2 INTENT_MULTI))).

(** Agents for examples: each pipeline answers with one small payload. *)
Definition sample_agents : agents :=
  mkAgents
    (fun _ => Ok (mkResponse "42 sessions." (Some [("row_count", PInt 1)])
                             "analytics"))
    (fun _ => Ok (mkResponse "3 pages lack a title."
                             (Some [("total_rows", PInt 3)]) "seo"))
    (fun _ _ => Ok "Traffic is steady; three pages need titles.").

Definition analytics_task : pyval :=
  PDict [("agent", PStr "analytics"); ("sub_query", PStr "sessions last week")].

Definition seo_task : pyval :=
  PDict [("agent", PStr "seo"); ("sub_query", PStr "pages without title")].

End Orchestrator.

(** ** Further string methods *)

Module PyText.
Import PyStr.

(** [c.isdigit()] for ASCII: '0'..'9'. *)
Definition is_digit (c : ascii) : bool :=
  let n := nat_of_ascii c in
  (48 <=? n)%nat && (n <=? 57)%nat.

Fixpoint all_digits (s : string) : bool :=
  match s with
  | EmptyString => true
  | String c s' => is_digit c && all_digits s'
  end.

(** [s.isdigit()]: at least one character, and every character a digit. *)
Definition isdigit (s : string) : bool := truthy s && all_digits s.

(** [s[n:]] for [n >= 0] *)
Fixpoint drop (n : nat) (s : string) : string :=
  match n, s with
  | S n', String _ s' => drop n' s'
  | _, _ => s
  end.

(** [s[:n]] for [n >= 0] *)
Fixpoint take (n : nat) (s : string) : string :=
  match n, s with
  | S n', String c s' => String c (take n' s')
  | _, _ => EmptyString
  end.

(** [s.endswith(p)] *)
Definition endswith (p s : string) : bool :=
  (String.length p <=? String.length s)%nat
  && String.eqb (drop (String.length s - String.length p) s) p.

(** [s.replace(old, '')] for a non-empty [old]: the occurrences of [old]
    are removed from left to right, without overlap.  [skip] counts the
    characters of the occurrence being removed that are still ahead. *)
Fixpoint remove_from (old : string) (skip : nat) (s : string) : string :=
  match s with
  | EmptyString => EmptyString
  | String c s' =>
      match skip with
      | S k => remove_from old k s'
      | O =>
          if startswith old s
          then remove_from old (String.length old - 1) s'
          else String c (remove_from old 0 s')
      end
  end.

Definition remove (old s : string) : string := remove_from old 0 s.

(** No character of [s] is white space. *)
Fixpoint no_space (s : string) : bool :=
  match s with
  | EmptyString => true
  | String c s' => negb (is_space c) && no_space s'
  end.

End PyText.

(** ** API gateway: request validators (src/main.py) *)

Module Gateway.
Import PyStr PyText.

(** A pydantic validator returns the value to store or raises
    [ValueError]. *)
Inductive validated (A : Type) : Type :=
| Accepted (a : A)
| ValueError (msg : string).
Arguments Accepted {A} a.
Arguments ValueError {A} msg.

(** [QueryRequest.query_not_empty(v)] *)
Definition query_not_empty (v : string) : validated string :=
  if negb (truthy v) || String.eqb (strip v) ""
  then ValueError "Query cannot be empty or whitespace"
  else Accepted (strip v).

(** [QueryRequest.validate_property_id(v)] *)
Definition validate_property_id (v : option string)
    : validated (option string) :=
  match v with
  | Some v =>
      let v := strip v in
      if negb (isdigit v) then ValueError "propertyId must be numeric"
      else Accepted (Some v)
  | None => Accepted None
  end.

End Gateway.

(** ** GA4 client (src/src/ga4_client.py) *)

Module GA4Client.
Import Py PyStr PyText.

Definition MAX_RETRIES : nat := 3.
Definition BASE_DELAY : nat := 1.

Definition property_id_required : string :=
  "GA4 Property ID is required. Please provide 'propertyId' in your request "
  +:+ "(e.g., '123456789'). You can find this in Google Analytics under "
  +:+ "Admin > Property Settings.".

(** [validate_property_id(property_id)] *)
Definition validate_property_id (property_id : option string)
    : result string :=
  match property_id with
  | Some ((String _ _) as property_id) =>
      let clean_id := strip (remove "properties/" property_id) in
      if negb (isdigit clean_id)
      then Raise (GA4PropertyError
                    ("Invalid Property ID format: '" +:+ property_id +:+ "'. "
                     +:+ "Property ID should be a numeric value (e.g., '123456789')."))
      else Ok ("properties/" +:+ clean_id)
  | _ => Raise (GA4PropertyError property_id_required)
  end.

(** The report as the API returns it: header names, and for every row the
    dimension values and the metric values, all strings. *)
Record Row : Type := mkRow {
  dimension_values : list string;
  metric_values : list string
}.

Record RunReportResponse : Type := mkReport {
  dimension_headers : list string;
  metric_headers : list string;
  rows : list Row
}.

(** What one call [self.client.run_report(request, timeout=...)] does:
    it returns a report or raises [ResourceExhausted], another
    [GoogleAPIError] (with its [code] attribute, when it has one, and
    the text of [str(e)]), or any other exception. *)
Inductive call_outcome : Type :=
| Returned (response : RunReportResponse)
| ResourceExhausted (text : string)
| GoogleAPIError (code : option Z) (text : string)
| OtherError (text : string).

(** [_is_transient_error(error)] *)
Definition _is_transient_error (code : option Z) (text : string) : bool :=
  match code with
  | Some c => bool_decide (c ∈ [500; 502; 503; 504]%Z)
  | None => false
  end
  || existsb (fun pattern => contains pattern (lower text))
             ["timeout"; "unavailable"; "internal"; "connection"].

Definition unavailable : string :=
  "GA4 API temporarily unavailable after multiple retries. "
  +:+ "Please try again in a moment.".

(** What a run of [_execute_with_retry] leaves behind: the waits passed to
    [time.sleep], in order, the number of calls made, and the report
    returned or the exception raised. *)
Record retry_run : Type := mkRun {
  slept : list nat;
  calls : nat;
  outcome : result RunReportResponse
}.

(** The loop [for attempt in range(MAX_RETRIES)], from [attempt] on with
    [n] turns left; [api attempt] is the outcome of the call made in turn
    [attempt]. *)
Fixpoint retry_from (api : nat → call_outcome) (attempt n : nat)
    (slept : list nat) : retry_run :=
  match n with
  | O => mkRun slept attempt (Raise (GA4APIError unavailable))
  | S n' =>
      let wait_time := (BASE_DELAY * 2 ^ attempt)%nat in
      match api attempt with
      | Returned response => mkRun slept (S attempt) (Ok response)
      | ResourceExhausted _ =>
          retry_from api (S attempt) n' (slept ++ [wait_time])
      | GoogleAPIError code text =>
          if _is_transient_error code text
          then retry_from api (S attempt) n' (slept ++ [wait_time])
          else mkRun slept (S attempt)
                     (Raise (GA4APIError ("GA4 API error: " +:+ text)))
      | OtherError text =>
          mkRun slept (S attempt)
                (Raise (GA4APIError
                          ("Unexpected error calling GA4 API: " +:+ text)))
      end
  end.

(** [_execute_with_retry(request)] *)
Definition _execute_with_retry (api : nat → call_outcome) : retry_run :=
  retry_from api 0 MAX_RETRIES [].

(** An outcome after which the loop goes on. *)
Definition retried (o : call_outcome) : bool :=
  match o with
  | ResourceExhausted _ => true
  | GoogleAPIError code text => _is_transient_error code text
  | _ => false
  end.

(** The loops over [enumerate(row.dimension_values)] and
    [enumerate(row.metric_values)] that fill [row_dict]: the value at
    position [i] is stored under header [i], when there is one. *)
Definition fill (headers : list string) (convert : string → string → pyval)
    (values : list string) (row_dict : pydict) : pydict :=
  foldl (fun d '(i, v) =>
           match headers !! i with
           | Some h => Py.set d h (convert v h)
           | None => d
           end)
        row_dict (imap pair values).

Section parse_response.

(** [_parse_metric_value(value, metric_name)] converts the text of a
    metric with Python's [float], [int] and [round]. *)
Variable _parse_metric_value : string → string → pyval.

Definition row_dict (response : RunReportResponse) (row : Row) : pydict :=
  let d := fill (dimension_headers response) (fun v _ => PStr v)
                (dimension_values row) [] in
  fill (metric_headers response) _parse_metric_value (metric_values row) d.

(** [_parse_response(response, property_id, metrics, dimensions,
    start_date, end_date, dimension_filter, metric_filter, order_bys)];
    the last three are [None] or the caller's configuration. *)
Definition _parse_response (response : RunReportResponse)
    (property_id : string) (metrics dimensions : list string)
    (start_date end_date : string)
    (dimension_filter metric_filter order_bys : pyval) : pydict :=
  let rows := (fun row => PDict (row_dict response row)) <$> rows response in
  [ ("rows", PList rows);
    ("row_count", PInt (Z.of_nat (List.length rows)));
    ("metadata",
     PDict [ ("property_id", PStr property_id);
             ("metrics", PList (PStr <$> metrics));
             ("dimensions", PList (PStr <$> dimensions));
             ("date_range", PDict [ ("start", PStr start_date);
                                    ("end", PStr end_date) ]);
             ("filters",
              if Py.truthy dimension_filter || Py.truthy metric_filter
              then PDict [ ("dimension_filter", dimension_filter);
                           ("metric_filter", metric_filter) ]
              else PNone);
             ("order_by", order_bys) ]) ].

End parse_response.

End GA4Client.

(** ** Orchestrator: entry point (src/src/orchestrator.py) *)

Module OrchestratorEntry.
Import Py PyStr ResponseFormatter Orchestrator.

Definition json_keywords : list string :=
  [ "json"; "json format"; "return as json"; "give me json"; "output json";
    "in json"; "as json"; "return json"; "format json"; "structured data" ].

(** [_detect_json_request(query)] *)
Definition _detect_json_request (query : string) : bool :=
  let query_lower := lower query in
  existsb (fun keyword => contains keyword query_lower) json_keywords.

Definition intents : list string :=
  [INTENT_ANALYTICS; INTENT_SEO; INTENT_MULTI].

(** [_detect_intent(query)], given the outcome of the [chat] call (the
    text of the reply, or an exception). *)
Definition _detect_intent (chat : result string) : result string :=
  bind chat (fun response =>
    let intent := lower (strip response) in
    if bool_decide (intent ∈ intents) then Ok intent
    else Ok INTENT_ANALYTICS).

(** [process_query(query, property_id)].  [A json_requested] are the two
    agents and the language model as they answer a request with that
    format flag; the [except] clause logs and re-raises. *)
Definition process_query (A : bool → agents) (intent_chat : result string)
    (decompose_chat : result pyval) (schedule : list nat) (query : string)
    : result AgentResponse :=
  let json_requested := _detect_json_request query in
  bind (_detect_intent intent_chat) (fun intent =>
    if String.eqb intent INTENT_ANALYTICS
    then _route_to_analytics (A json_requested) (PStr query)
    else if String.eqb intent INTENT_SEO
    then _route_to_seo (A json_requested) (PStr query)
    else if String.eqb intent INTENT_MULTI
    then _route_to_multi_agent (A json_requested) decompose_chat schedule
                               query json_requested
    else Raise (OtherException ("Unknown intent: " +:+ intent))).

(** The data of the result at position [i], when it is a non-empty
    dict. *)
Definition data_at (results : list AgentResponse) (i : nat)
    : option pyval :=
  r ← results !! i;
  match data r with
  | Some ((_ :: _) as d) => Some (PDict d)
  | _ => None
  end.

End OrchestratorEntry.

(** ** Response validator and data formatter
       (src/src/response_formatter.py) *)

Module ResponseValidator.
Import Py PyStr ResponseFormatter.

(** [validate(response)] returns [True], possibly after logging the
    warning about the agent name, or raises [ValueError]. *)
Inductive verdict : Type :=
| Valid (warned : bool)
| ValueError (msg : string).

Definition required_fields : list string := ["answer"; "data"; "agent_used"].

Definition valid_agents : list string :=
  ["analytics"; "seo"; "multi-agent"; "unknown"].

(** [response['agent_used'] not in valid_agents] *)
Definition unexpected_agent (v : pyval) : bool :=
  match v with
  | PStr s => negb (bool_decide (s ∈ valid_agents))
  | _ => true
  end.

(** [ResponseValidator.validate(response)] *)
Definition validate (response : pydict) : verdict :=
  match find (fun field => negb (has_key response field)) required_fields with
  | Some field => ValueError ("Missing required field: " +:+ field)
  | None =>
      match Py.get response "answer" with
      | PStr answer =>
          if negb (PyStr.truthy (strip answer))
          then ValueError "'answer' cannot be empty"
          else
            match Py.get response "data" with
            | PNone | PDict _ =>
                Valid (unexpected_agent (Py.get response "agent_used"))
            | _ => ValueError "'data' must be a dict or None"
            end
      | _ => ValueError "'answer' must be a string"
      end
  end.

(** The dict that the formatter returns for a response. *)
Definition to_dict (r : AgentResponse) : pydict :=
  [ ("answer", PStr (answer r));
    ("data", match data r with Some d => PDict d | None => PNone end);
    ("agent_used", PStr (agent_used r)) ].

End ResponseValidator.

Module DataFormatter.
Import Py PyStr.

(** [rows[:n]] for an integer [n]: a negative bound counts from the
    end. *)
Definition slice_to {A : Type} (n : Z) (l : list A) : list A :=
  if (0 <=? n)%Z then take (Z.to_nat n) l
  else take (List.length l - Z.to_nat (- n)) l.

(** [row_limit and len(rows) > row_limit] for [row_limit] an integer or
    [None]. *)
Definition over_limit {A : Type} (rows : list A) (row_limit : option Z)
    : bool :=
  match row_limit with
  | Some n => negb (n =? 0)%Z && (n <? Z.of_nat (List.length rows))%Z
  | None => false
  end.

(** [format_rows(rows, row_limit)] *)
Definition format_rows (rows : list pyval) (row_limit : option Z) : pydict :=
  let truncated := over_limit rows row_limit in
  let rows :=
    if truncated then slice_to (default 0%Z row_limit) rows else rows in
  let result :=
    [ ("rows", PList rows);
      ("row_count", PInt (Z.of_nat (List.length rows))) ] in
  if truncated
  then Py.set (Py.set result "truncated" (PBool true))
              "note" (PStr ("Results limited to "
                              +:+ pretty (default 0%Z row_limit) +:+ " rows"))
  else result.

End DataFormatter.

(** ** Language model client (src/src/llm_client.py) *)

Module LLMClient.
Import Py PyStr PyText.

Definition MAX_RETRIES : nat := 5.
Definition BASE_DELAY : nat := 1.
Definition MAX_DELAY : nat := 16.

(** The text that [_parse_json_response] hands to [json.loads]: the
    content without surrounding white space and without a markdown
    fence. *)
Definition unfence (content : string) : string :=
  let content := strip content in
  let content :=
    if startswith "```json" content then drop 7 content
    else if startswith "```" content then drop 3 content
    else content in
  let content :=
    if endswith "```" content
    then take (String.length content - 3) content
    else content in
  strip content.

(** Exceptions that leave [chat]. *)
Inductive failure : Type :=
| RateLimitError (text : string)
| APITimeoutError (text : string)
| APIError (status_code : option Z) (text : string)
| NoStatusCode
| ContentIsNone
| InvalidJSON (msg : string)
| Unexpected (text : string)
| MaxRetriesExceeded.

(** [_parse_json_response(content)]; [json_loads] is [json.loads]: the
    value, or the text of the [JSONDecodeError]. *)
Definition _parse_json_response (json_loads : string → pyval + string)
    (content : string) : pyval + failure :=
  match json_loads (unfence content) with
  | inl v => inl v
  | inr e =>
      inr (InvalidJSON ("LLM did not return valid JSON. Parse error: " +:+ e))
  end.

(** [self.token_usage] *)
Record token_usage : Type := mkUsage {
  input_tokens : nat;
  output_tokens : nat;
  total_tokens : nat;
  requests : nat
}.

(** The [usage] attribute of a completion. *)
Record usage : Type := mkTokens {
  prompt_tokens : nat;
  completion_tokens : nat;
  total : nat
}.

(** [_update_usage(response)] *)
Definition _update_usage (t : token_usage) (u : option usage) : token_usage :=
  match u with
  | Some u =>
      mkUsage (input_tokens t + prompt_tokens u)
              (output_tokens t + completion_tokens u)
              (total_tokens t + total u)
              (requests t + 1)
  | None => t
  end.

(** What one call of [self.client.chat.completions.create] does:
    it returns a completion (with its content, which may be [None], and
    its usage, which may be missing) or raises [RateLimitError],
    [APITimeoutError], another [APIError] (with its [status_code], when
    the exception has that attribute) or any other exception. *)
Inductive call_outcome : Type :=
| Completion (content : option string) (u : option usage)
| RateLimited (text : string)
| TimedOut (text : string)
| Failed (status_code : option Z) (text : string)
| Crashed (text : string).

(** What a run of [chat] leaves behind. *)
Record chat_run : Type := mkChat {
  tokens : token_usage;
  slept : list nat;
  calls : nat;
  outcome : pyval + failure
}.

(** The loop [for attempt in range(MAX_RETRIES)] of [chat], from
    [attempt] on with [n] turns left; falling out of the loop reaches
    [raise Exception("Max retries exceeded")]. *)
Fixpoint chat_from (api : nat → call_outcome)
    (json_loads : string → pyval + string) (json_mode : bool)
    (attempt n : nat) (t : token_usage) (waits : list nat) : chat_run :=
  match n with
  | O => mkChat t waits attempt (inr MaxRetriesExceeded)
  | S n' =>
      let more := (attempt <? MAX_RETRIES - 1)%nat in
      match api attempt with
      | Completion content u =>
          let t := _update_usage t u in
          mkChat t waits (S attempt)
            match content with
            | None => inr ContentIsNone
            | Some content =>
                if json_mode then _parse_json_response json_loads content
                else inl (PStr content)
            end
      | RateLimited text =>
          if more
          then chat_from api json_loads json_mode (S attempt) n' t
                 (waits ++ [Nat.min (BASE_DELAY * 2 ^ attempt) MAX_DELAY])
          else mkChat t waits (S attempt) (inr (RateLimitError text))
      | TimedOut text =>
          if more
          then chat_from api json_loads json_mode (S attempt) n' t
                 (waits ++ [BASE_DELAY])
          else mkChat t waits (S attempt) (inr (APITimeoutError text))
      | Failed status_code text =>
          if more
          then
            match status_code with
            | Some code =>
                if (500 <=? code)%Z
                then chat_from api json_loads json_mode (S attempt) n' t
                       (waits ++ [(BASE_DELAY * 2 ^ attempt)%nat])
                else mkChat t waits (S attempt)
                            (inr (APIError status_code text))
            | None => mkChat t waits (S attempt) (inr NoStatusCode)
            end
          else mkChat t waits (S attempt) (inr (APIError status_code text))
      | Crashed text => mkChat t waits (S attempt) (inr (Unexpected text))
      end
  end.

(** An outcome after which the loop goes on, except in its last turn. *)
Definition retried (o : call_outcome) : bool :=
  match o with
  | RateLimited _ | TimedOut _ => true
  | Failed (Some code) _ => (500 <=? code)%Z
  | _ => false
  end.

(** [chat(messages, model, temperature, max_tokens, json_mode)] *)
Definition chat (api : nat → call_outcome)
    (json_loads : string → pyval + string) (json_mode : bool)
    (t : token_usage) : chat_run :=
  chat_from api json_loads json_mode 0 MAX_RETRIES t [].

(** *** Messages

    A message is a dict with the keys ['role'] and ['content']; a list of
    messages holds references to such dicts. *)
Record message : Type := mkMessage {
  role : string;
  content : string
}.

(** The line feed. *)
Definition nl : string := String (ascii_of_nat 10) EmptyString.

Definition json_instruction : string :=
  nl +:+ nl +:+ "IMPORTANT: Respond with ONLY valid JSON. "
     +:+ "No markdown, no explanations, just the JSON object.".

(** [_add_json_instruction(messages)]: the new list, and the dicts after
    the call.  [messages.copy()] copies the list, not the dicts. *)
Definition _add_json_instruction (messages : list nat) (h : gmap nat message)
    : list nat * gmap nat message :=
  let copy := messages in
  match last copy with
  | Some l =>
      match h !! l with
      | Some m =>
          if String.eqb (role m) "user"
          then (copy, <[l := mkMessage (role m)
                               (content m +:+ json_instruction)]> h)
          else (copy, h)
      | None => (copy, h)
      end
  | None => (copy, h)
  end.

(** The messages that a list of references denotes. *)
Definition read (h : gmap nat message) (messages : list nat) : list (option message) :=
  (fun l => h !! l) <$> messages.

(** [LLMPromptBuilder.build_system_message(role, context)] *)
Definition build_system_message (role context : string) : message :=
  let content := "You are " +:+ role +:+ "." in
  mkMessage "system"
    (if PyStr.truthy context
     then content +:+ nl +:+ nl +:+ context
     else content).

(** [LLMPromptBuilder.build_user_message(query, data)] *)
Definition build_user_message (query : string) (data : option string)
    : message :=
  mkMessage "user"
    match data with
    | Some ((String _ _) as data) =>
        query +:+ nl +:+ nl +:+ "Data:" +:+ nl +:+ data
    | _ => query
    end.

End LLMClient.

(** ** Google Sheets client (src/src/sheets_client.py) *)

Module SheetsClient.
Import PyStr.

Definition DEFAULT_TAB_NAMES : list string :=
  ["Internal"; "All"; "internal"; "Sheet1"].

(** The exceptions of the client, each with the text of [str(e)]. *)
Inductive error : Type :=
| SheetsAuthenticationError (msg : string)
| SheetsNotFoundError (msg : string)
| SheetsAPIError (msg : string).

Definition error_text (e : error) : string :=
  match e with
  | SheetsAuthenticationError m | SheetsNotFoundError m | SheetsAPIError m => m
  end.

(** A method returns or raises. *)
Inductive outcome (A : Type) : Type :=
| Done (a : A)
| Fail (e : error).
Arguments Done {A} a.
Arguments Fail {A} e.

(** The calls that [fetch_sheet] makes on the objects of the Sheets
    library: [client.open_by_key(sheet_id)], [spreadsheet.worksheets()],
    [spreadsheet.worksheet(tab_name)] and [worksheet.get_all_values()].
    A worksheet is named by its title. *)
Inductive api_call : Type :=
| OpenByKey (sheet_id : string)
| Worksheets (sheet_id : string)
| Worksheet (sheet_id tab_name : string)
| GetAllValues (sheet_id tab_name : string).

(** An exception inside the [try] block of [fetch_sheet]: the two
    exceptions of the library that have their own [except] clause, an
    exception of the client itself, and any other exception with the
    text of [str(e)]. *)
Inductive exception : Type :=
| SpreadsheetNotFound
| APIError (text : string)
| Raised (e : error)
| OtherException (text : string).

(** The loop of [_find_worksheet] over the default tab names: the first
    default name that is the title of a worksheet. *)
Definition default_tab (worksheet_titles : list string) : option string :=
  find (fun tab_name => bool_decide (tab_name ∈ worksheet_titles))
       DEFAULT_TAB_NAMES.

Definition not_found (sheet_id : string) : string :=
  "Spreadsheet not found: " +:+ sheet_id +:+ ". "
  +:+ "Please verify the Sheet ID and ensure the service account has access.".

(** The three [except] clauses of [fetch_sheet]. *)
Definition handle (sheet_id : string) (x : exception) : error :=
  match x with
  | SpreadsheetNotFound => SheetsNotFoundError (not_found sheet_id)
  | APIError text => SheetsAPIError ("Google Sheets API error: " +:+ text)
  | Raised e =>
      SheetsAPIError ("Failed to fetch sheet data: " +:+ error_text e)
  | OtherException text =>
      SheetsAPIError ("Failed to fetch sheet data: " +:+ text)
  end.

Section client.

(** pandas.  [frame] is the type of data frames; [empty_frame] is
    [pd.DataFrame()]; [make_frame headers data] is
    [pd.DataFrame(data, columns=headers)] without the columns whose name
    is blank, or the text of the exception that pandas raises;
    [columns_of df] is [list(df.columns)]. *)
Variable frame : Type.
Variable empty_frame : frame.
Variable make_frame : list string → list (list string) → string + frame.
Variable columns_of : frame → list string.

(** The credentials file and the Sheets library.  [connect] is [None]
    when [connect()] succeeds and the text of its
    [SheetsAuthenticationError] otherwise.  The other four give the
    answer of a call; their first argument is the number of calls that
    the client has made before, so that two calls of the same method
    may be answered differently.  [open_by_key n sheet_id] is [None]
    when the call returns a spreadsheet; [worksheets n sheet_id] returns
    the titles of the worksheets in their order; [worksheet n sheet_id
    tab_name] is [None] when the call returns the worksheet with that
    title; [get_all_values n sheet_id tab_name] returns the rows of that
    worksheet. *)
Variable connect : option string.
Variable open_by_key : nat → string → option exception.
Variable worksheets : nat → string → exception + list string.
Variable worksheet : nat → string → string → option exception.
Variable get_all_values :
  nat → string → string → exception + list (list string).

(** The client: whether it is connected, its cache, and the calls it has
    made on the library, in order. *)
Record client : Type := mkClient {
  connected : bool;
  _cache : gmap string (frame * list string);
  api_calls : list api_call
}.

(** The client after one more call. *)
Definition log (what : api_call) (c : client) : client :=
  mkClient (connected c) (_cache c) (api_calls c ++ [what]).

(** The exception that the call number [n] raises when it is the call
    [what]. *)
Definition raised_by (n : nat) (what : api_call) : option exception :=
  match what with
  | OpenByKey sheet_id => open_by_key n sheet_id
  | Worksheets sheet_id =>
      match worksheets n sheet_id with
      | inl x => Some x
      | inr _ => None
      end
  | Worksheet sheet_id tab_name => worksheet n sheet_id tab_name
  | GetAllValues sheet_id tab_name =>
      match get_all_values n sheet_id tab_name with
      | inl x => Some x
      | inr _ => None
      end
  end.

(** [_ensure_connected()] *)
Definition _ensure_connected (c : client) : client * outcome unit :=
  if connected c then (c, Done tt)
  else
    match connect with
    | None => (mkClient true (_cache c) (api_calls c), Done tt)
    | Some msg => (c, Fail (SheetsAuthenticationError msg))
    end.

(** [_find_worksheet(spreadsheet)] for the spreadsheet opened under
    [sheet_id]: the title of the worksheet returned. *)
Definition _find_worksheet (sheet_id : string) (c : client)
    : client * (exception + string) :=
  let listed := worksheets (List.length (api_calls c)) sheet_id in
  let c := log (Worksheets sheet_id) c in
  match listed with
  | inl x => (c, inl x)
  | inr [] =>
      (c, inl (Raised (SheetsNotFoundError "Spreadsheet has no worksheets")))
  | inr worksheet_titles =>
      match default_tab worksheet_titles with
      | Some tab_name =>
          let found := worksheet (List.length (api_calls c)) sheet_id tab_name in
          let c := log (Worksheet sheet_id tab_name) c in
          match found with
          | None => (c, inr tab_name)
          | Some x => (c, inl x)
          end
      | None =>
          let listed := worksheets (List.length (api_calls c)) sheet_id in
          let c := log (Worksheets sheet_id) c in
          match listed with
          | inl x => (c, inl x)
          | inr [] => (c, inl (OtherException "list index out of range"))
          | inr (first_worksheet :: _) => (c, inr first_worksheet)
          end
      end
  end.

(** [self._cache[sheet_id] = {'df': df, 'columns': columns}] *)
Definition store (sheet_id : string) (entry : frame * list string)
    (c : client) : client :=
  mkClient (connected c) (<[sheet_id := entry]> (_cache c)) (api_calls c).

(** The [try] block of [fetch_sheet]. *)
Definition attempt (sheet_id : string) (c : client)
    : client * (exception + frame) :=
  let opened := open_by_key (List.length (api_calls c)) sheet_id in
  let c := log (OpenByKey sheet_id) c in
  match opened with
  | Some x => (c, inl x)
  | None =>
      match _find_worksheet sheet_id c with
      | (c, inl x) => (c, inl x)
      | (c, inr tab_name) =>
          let all_values :=
            get_all_values (List.length (api_calls c)) sheet_id tab_name in
          let c := log (GetAllValues sheet_id tab_name) c in
          match all_values with
          | inl x => (c, inl x)
          | inr [] => (store sheet_id (empty_frame, []) c, inr empty_frame)
          | inr (headers :: data) =>
              match make_frame headers data with
              | inr df => (store sheet_id (df, columns_of df) c, inr df)
              | inl text => (c, inl (OtherException text))
              end
          end
      end
  end.

(** The [try] block of [fetch_sheet] with its [except] clauses. *)
Definition fetch_from_api (sheet_id : string) (c : client)
    : client * outcome frame :=
  match attempt sheet_id c with
  | (c, inr df) => (c, Done df)
  | (c, inl x) => (c, Fail (handle sheet_id x))
  end.

(** [fetch_sheet(sheet_id, force_refresh)] *)
Definition fetch_sheet (sheet_id : string) (force_refresh : bool)
    (c : client) : client * outcome frame :=
  match _ensure_connected c with
  | (c, Done _) =>
      match (if force_refresh then None else _cache c !! sheet_id) with
      | Some entry => (c, Done entry.1)
      | None => fetch_from_api sheet_id c
      end
  | (c, Fail e) => (c, Fail e)
  end.

(** [get_columns(sheet_id)].  A fetch that returns has stored the entry
    of the sheet, so the lookup that follows cannot raise [KeyError];
    the last branch stands for it. *)
Definition get_columns (sheet_id : string) (c : client)
    : client * outcome (list string) :=
  let fetched :=
    match _cache c !! sheet_id with
    | Some _ => (c, Done tt)
    | None =>
        match fetch_sheet sheet_id false c with
        | (c, Done _) => (c, Done tt)
        | (c, Fail e) => (c, Fail e)
        end
    end in
  match fetched with
  | (c, Done _) =>
      match _cache c !! sheet_id with
      | Some entry => (c, Done entry.2)
      | None => (c, Fail (SheetsAPIError sheet_id))
      end
  | (c, Fail e) => (c, Fail e)
  end.

(** [is_cached(sheet_id)] *)
Definition is_cached (sheet_id : string) (c : client) : bool :=
  bool_decide (is_Some (_cache c !! sheet_id)).

(** Every cache entry stores, beside its frame, the column names of that
    frame. *)
Definition cache_consistent (c : client) : Prop :=
  ∀ sheet_id df cols,
    _cache c !! sheet_id = Some (df, cols) → cols = columns_of df.

(** The calls of a fetch that reads the worksheet [tab_name]: the
    worksheet is asked for by name when it has a default name, and taken
    from a second listing otherwise. *)
Definition calls_of_fetch (sheet_id tab_name : string) (named : bool)
    : list api_call :=
  [ OpenByKey sheet_id; Worksheets sheet_id;
    (if named then Worksheet sheet_id tab_name else Worksheets sheet_id);
    GetAllValues sheet_id tab_name ].

End client.

Arguments mkClient {frame} connected _cache api_calls.
Arguments connected {frame} c.
Arguments _cache {frame} c.
Arguments api_calls {frame} c.

(** *** A spreadsheet for examples

    The library answers every call; the spreadsheet has the worksheets
    "Summary" and "Internal", or none at all when [listing] is empty. *)
Definition example_open (n : nat) (sheet_id : string) : option exception :=
  None.

Definition example_worksheets (listing : list string) (n : nat)
    (sheet_id : string) : exception + list string :=
  inr listing.

Definition example_worksheet (n : nat) (sheet_id tab_name : string)
    : option exception :=
  None.

Definition example_values (n : nat) (sheet_id tab_name : string)
    : exception + list (list string) :=
  inr [["Address"]; ["/a"]].

End SheetsClient.

(** ** SEO agent: parser, column resolution and data processor
       (src/src/seo_agent.py) *)

Module SEOPipeline.
Import Py PyStr ResponseFormatter SEOResolver SEOAgent.

(** *** Stage 1: query parser *)

(** [d.setdefault(key, v)]: a key that is present keeps its value. *)
Definition setdefault (key : string) (v : pyval) (d : pydict) : pydict :=
  if has_key d key then d else Py.set d key v.

Definition default_query : pydict :=
  [ ("filters", PList []);
    ("select_columns", PList [PStr "Address"]);
    ("group_by", PNone);
    ("aggregation", PNone);
    ("limit", PInt 100);
    ("sort_by", PDict [("field", PNone); ("direction", PStr "asc")]) ].

(** [_parse_query(query, available_columns)], given the outcome of the
    [chat] call. *)
Definition _parse_query (chat : result pyval) : pydict :=
  match chat with
  | Ok reply =>
      let result := match reply with PDict d => d | _ => [] end in
      let result := setdefault "filters" (PList []) result in
      let result := setdefault "select_columns" (PList [PStr "Address"]) result in
      let result := setdefault "group_by" PNone result in
      let result := setdefault "aggregation" PNone result in
      let result := setdefault "limit" (PInt 100) result in
      let result :=
        setdefault "sort_by"
          (PDict [("field", PNone); ("direction", PStr "asc")]) result in
      result
  | Raise _ => default_query
  end.

(** *** Stage 2: schema resolver *)

(** [v or dflt] *)
Definition or_else (v dflt : pyval) : pyval :=
  if Py.truthy v then v else dflt.

(** [fields_to_resolve.add(v)]: a list or a dict cannot be hashed. *)
Definition hashed (v : pyval) : result pyval :=
  match v with
  | PList _ | PDict _ =>
      Raise (TypeError ("unhashable type: '" +:+ type_name v +:+ "'"))
  | _ => Ok v
  end.

(** The fields that the loop over [filters] adds. *)
Fixpoint filter_fields (filters : list pyval) : result (list pyval) :=
  match filters with
  | [] => Ok []
  | f :: rest =>
      bind (match f with
            | PDict spec =>
                if Py.truthy (Py.get spec "field")
                then bind (hashed (Py.get spec "field")) (fun v => Ok [v])
                else Ok []
            | _ => Ok []
            end) (fun here =>
      bind (filter_fields rest) (fun more => Ok (here ++ more)))
  end.

(** The fields that the loop over [select_columns] adds. *)
Fixpoint select_fields (select_columns : list pyval) : result (list pyval) :=
  match select_columns with
  | [] => Ok []
  | col :: rest =>
      bind (if Py.truthy col then bind (hashed col) (fun v => Ok [v])
            else Ok []) (fun here =>
      bind (select_fields rest) (fun more => Ok (here ++ more)))
  end.

(** [parsed.get('sort_by', {}).get('field')] *)
Definition sort_field (parsed : pydict) : result pyval :=
  match get_default parsed "sort_by" (PDict []) with
  | PDict sort_by => Ok (Py.get sort_by "field")
  | v => Raise (AttributeError ("'" +:+ type_name v
                                  +:+ "' object has no attribute 'get'"))
  end.

(** The values added to [fields_to_resolve], in the order of the
    additions. *)
Definition fields_to_resolve (parsed : pydict) : result (list pyval) :=
  bind (AnalyticsAgent.iterate (or_else (Py.get parsed "filters") (PList [])))
       (fun filters =>
  bind (filter_fields filters) (fun from_filters =>
  bind (AnalyticsAgent.iterate
          (or_else (Py.get parsed "select_columns") (PList [])))
       (fun select_columns =>
  bind (select_fields select_columns) (fun from_select =>
  bind (if Py.truthy (Py.get parsed "group_by")
        then bind (hashed (Py.get parsed "group_by")) (fun v => Ok [v])
        else Ok []) (fun from_group =>
  bind (sort_field parsed) (fun field =>
  bind (if Py.truthy field then bind (hashed field) (fun v => Ok [v])
        else Ok []) (fun from_sort =>
  Ok (from_filters ++ from_select ++ from_group ++ from_sort)))))))).

(** The dict returned by [_resolve_columns]. *)
Record resolution_result : Type := mkResolution {
  resolved : list (string * string);
  errors : list string;
  warnings : list string
}.

(** [resolved[field] = column] *)
Fixpoint assign (d : list (string * string)) (key v : string)
    : list (string * string) :=
  match d with
  | [] => [(key, v)]
  | (k, w) :: d' =>
      if String.eqb k key then (k, v) :: d' else (k, w) :: assign d' key v
  end.

(** [resolved_columns.get(field)] *)
Fixpoint column_for (d : list (string * string)) (key : string)
    : option string :=
  match d with
  | [] => None
  | (k, v) :: d' => if String.eqb k key then Some v else column_for d' key
  end.

(** The loop [for field in fields_to_resolve] over the fields in the
    order [fields]: a field that is not a string has no [lower]. *)
Fixpoint resolve_fields (available : list string) (fields : list pyval)
    (acc : resolution_result) : result resolution_result :=
  match fields with
  | [] => Ok acc
  | PStr field :: rest =>
      resolve_fields available rest
        match _resolve_single_column available field with
        | Resolved column warning =>
            mkResolution (assign (resolved acc) field column) (errors acc)
              (warnings acc
               ++ match warning with
                  | Some w => if PyStr.truthy w then [w] else []
                  | None => []
                  end)
        | Failed error =>
            mkResolution (resolved acc) (errors acc ++ [error]) (warnings acc)
        end
  | v :: _ =>
      Raise (AttributeError ("'" +:+ type_name v
                               +:+ "' object has no attribute 'lower'"))
  end.

(** What the loop has recorded after the fields [seen]: a field has a
    column exactly when it was seen and resolves to it; the errors are
    those of the fields seen that do not resolve. *)
Definition resolution_of (available : list string) (seen : list pyval)
    (acc : resolution_result) : Prop :=
  (∀ s c, column_for (resolved acc) s = Some c ↔
          PStr s ∈ seen ∧ ∃ w, _resolve_single_column available s = Resolved c w)
  ∧ (∀ e, e ∈ errors acc ↔
          ∃ s, PStr s ∈ seen ∧ _resolve_single_column available s = Failed e).

(** [_resolve_columns(parsed)].  [order] is the order in which Python
    enumerates the set built by the given additions. *)
Definition _resolve_columns (order : list pyval → list pyval)
    (available : list string) (parsed : pydict) : result resolution_result :=
  bind (fields_to_resolve parsed) (fun fields =>
  resolve_fields available (order fields) (mkResolution [] [] [])).

(** The bullet of the error list, U+2022 in UTF-8. *)
Definition bullet : string :=
  String (ascii_of_nat 226) (String (ascii_of_nat 128)
    (String (ascii_of_nat 162) EmptyString)).

(** [_format_resolution_errors(errors)] *)
Definition _format_resolution_errors (errors : list string) : string :=
  match errors with
  | [e] => e
  | _ =>
      "Could not resolve the following fields:" +:+ LLMClient.nl
        +:+ join LLMClient.nl ((fun e => bullet +:+ " " +:+ e) <$> errors)
  end.

(** *** Stage 3: data processor *)

(** [str(value)] for [None], a bool, an int or a string; [repr_] gives
    the text of a float and of a container. *)
Definition py_str (repr_ : pyval → string) (value : pyval) : string :=
  match value with
  | PStr s => s
  | PNone => "None"
  | PBool b => if b then "True" else "False"
  | PInt z => pretty z
  | _ => repr_ value
  end.

(** [df[mask]] for a mask computed from the cells of column [i]. *)
Definition keep_rows (df : DataFrame) (i : nat) (keep : cell → bool)
    : DataFrame :=
  mkFrame (columns df) (dtypes df)
          (filter (fun row => keep (nth i row (CStr "")) = true) (rows df)).

(** [df[names]]: for every name, in order, the columns with that
    name. *)
Definition positions_of (name : string) (cols : list string) : list nat :=
  (filter (fun ic => ic.2 = name) (imap pair cols)).*1.

Definition take_columns (df : DataFrame) (names : list string) : DataFrame :=
  let picked := names ≫= fun name => positions_of name (columns df) in
  mkFrame ((fun i => nth i (columns df) "") <$> picked)
          ((fun i => nth i (dtypes df) DObject) <$> picked)
          ((fun row => (fun i => nth i row (CStr "")) <$> picked) <$> rows df).

(** What [_process_data] records. *)
Record applied_filter : Type := mkApplied {
  f_field : string;
  f_column : string;
  f_operator : pyval;
  f_value : pyval;
  rows_before : nat;
  rows_after : nat
}.

Record processing_info : Type := mkInfo {
  original_rows : nat;
  filters_applied : list applied_filter;
  grouped_by : option string;
  aggregation : pyval;
  final_rows : nat;
  final_columns : list string
}.

Section pandas.

(** pandas and Python's conversions.  [num] is the type of floats;
    [to_numeric c] is [pd.to_numeric] with [errors='coerce'] on one
    cell; [float_ v] is [float(v)], [None] when it raises; [num_gt] and
    [num_lt] compare two floats; [repr_] is [str] on floats and
    containers; [repr_num] is the text of a numeric cell under
    [astype(str)]; [re_search pattern] is the search for a regular
    expression, [None] when the pattern does not compile;
    [percent c n] is [(c / n * 100).round(2)].  Three answers of pandas
    are left open: [repeated_label df column operator value] is what a
    filter returns when [column] names several columns of [df];
    [head_ limit df] is [df.head(limit)] for a limit that is not an
    int; [label_error] is the text of the [ValueError] of [sort_values]
    for a label that is not unique. *)
Variable num : Type.
Variable to_numeric : cell → num.
Variable float_ : pyval → option num.
Variable num_gt : num → num → bool.
Variable num_lt : num → num → bool.
Variable repr_ : pyval → string.
Variable repr_num : Qc → string.
Variable re_search : string → option (string → bool).
Variable percent : nat → nat → Qc.
Variable repeated_label : DataFrame → string → pyval → pyval → DataFrame.
Variable head_ : pyval → DataFrame → result DataFrame.
Variable label_error : string → string.

(** [df[column].astype(str)] on one cell. *)
Definition astype_str (c : cell) : string :=
  match c with
  | CStr s => s
  | CNum q => repr_num q
  end.

(** The [try] block of [_apply_filter] around a mask computed from the
    cells of [df[column]]: without such a column [df[column]] raises
    and the [except] branch returns [df]. *)
Definition on_column (df : DataFrame) (column : string)
    (operator value : pyval) (keep : cell → bool) : DataFrame :=
  match count_occ string_dec (columns df) column with
  | 0%nat => df
  | 1%nat => keep_rows df (position column (columns df)) keep
  | _ => repeated_label df column operator value
  end.

(** [v == 'text'] *)
Definition is_text (v : pyval) (text : string) : bool :=
  match v with
  | PStr s => String.eqb s text
  | _ => false
  end.

(** [_apply_filter(df, column, operator, value)] *)
Definition _apply_filter (df : DataFrame) (column : string)
    (operator value : pyval) : DataFrame :=
  let masked := on_column df column operator value in
  let text := lower (py_str repr_ value) in
  if is_text operator "equals" then
    masked (fun c => String.eqb (lower (astype_str c)) text)
  else if is_text operator "not_equals" then
    masked (fun c => negb (String.eqb (lower (astype_str c)) text))
  else if is_text operator "contains" then
    match re_search text with
    | Some found => masked (fun c => found (lower (astype_str c)))
    | None => df
    end
  else if is_text operator "not_contains" then
    match re_search text with
    | Some found => masked (fun c => negb (found (lower (astype_str c))))
    | None => df
    end
  else if is_text operator "greater_than" then
    match float_ value with
    | Some x => masked (fun c => num_gt (to_numeric c) x)
    | None =>
        masked (fun c => negb (String.leb (astype_str c) (py_str repr_ value)))
    end
  else if is_text operator "less_than" then
    match float_ value with
    | Some x => masked (fun c => num_lt (to_numeric c) x)
    | None =>
        masked (fun c => negb (String.leb (py_str repr_ value) (astype_str c)))
    end
  else if is_text operator "is_empty" then
    masked (fun c => String.eqb (strip (astype_str c)) "")
  else if is_text operator "is_not_empty" then
    masked (fun c => negb (String.eqb (strip (astype_str c)) ""))
  else df.

(** [field not in resolved_columns], for a truthy [field]: a list or a
    dict cannot be hashed. *)
Definition known (resolved_columns : list (string * string)) (field : pyval)
    : result (option string) :=
  match field with
  | PStr s => Ok (column_for resolved_columns s)
  | PList _ | PDict _ =>
      Raise (TypeError ("unhashable type: '" +:+ type_name field +:+ "'"))
  | _ => Ok None
  end.

(** The loop over [filters]. *)
Fixpoint apply_filters (resolved_columns : list (string * string))
    (filters : list pyval) (result_df : DataFrame)
    (applied : list applied_filter)
    : result (DataFrame * list applied_filter) :=
  match filters with
  | [] => Ok (result_df, applied)
  | PDict filter_spec :: rest =>
      let field := Py.get filter_spec "field" in
      let operator := get_default filter_spec "operator" (PStr "equals") in
      let value := Py.get filter_spec "value" in
      if negb (Py.truthy field)
      then apply_filters resolved_columns rest result_df applied
      else
        bind (known resolved_columns field) (fun actual =>
        match field, actual with
        | PStr field, Some actual_column =>
            if negb (bool_decide (actual_column ∈ columns result_df))
            then apply_filters resolved_columns rest result_df applied
            else
              let filtered :=
                _apply_filter result_df actual_column operator value in
              apply_filters resolved_columns rest filtered
                (applied ++ [mkApplied field actual_column operator value
                                       (nrows result_df) (nrows filtered)])
        | _, _ => apply_filters resolved_columns rest result_df applied
        end)
  | _ :: rest => apply_filters resolved_columns rest result_df applied
  end.

(** The name of an aggregation: a value that is not a string equals none
    of the four names. *)
Definition aggregation_name (v : pyval) : string :=
  match v with
  | PStr s => s
  | _ => ""
  end.

(** [if sort_column in result_df.columns:
         result_df = result_df.sort_values(by=sort_column, ...)] *)
Definition sort_frame (df : DataFrame) (sort_column : string)
    (ascending : bool) : result DataFrame :=
  if bool_decide (sort_column ∈ columns df)
  then
    if (count_occ string_dec (columns df) sort_column =? 1)%nat
    then Ok (sort_values df sort_column ascending)
    else Raise (OtherException (label_error sort_column))
  else Ok df.

(** [if limit and len(result_df) > limit:
         result_df = result_df.head(limit)] *)
Definition apply_limit (limit : pyval) (df : DataFrame) : result DataFrame :=
  if negb (Py.truthy limit) then Ok df
  else
    match limit with
    | PInt n =>
        if (n <? Z.of_nat (nrows df))%Z
        then Ok (mkFrame (columns df) (dtypes df)
                         (DataFormatter.slice_to n (rows df)))
        else Ok df
    | PBool _ =>
        if (1 <? nrows df)%nat then head_ limit df else Ok df
    | PFloat q =>
        if bool_decide (q < Qc_of_Z (Z.of_nat (nrows df)))%Qc
        then head_ limit df else Ok df
    | _ =>
        Raise (TypeError ("'>' not supported between instances of 'int' and '"
                            +:+ type_name limit +:+ "'"))
    end.

(** The loop that builds [actual_select]. *)
Fixpoint actual_select (resolved_columns : list (string * string))
    (available : list string) (select_columns : list pyval)
    : result (list string) :=
  match select_columns with
  | [] => Ok []
  | col :: rest =>
      bind (if Py.truthy col then known resolved_columns col else Ok None)
           (fun actual =>
      bind (actual_select resolved_columns available rest) (fun more =>
      match actual with
      | Some column =>
          if bool_decide (column ∈ available) then Ok (column :: more)
          else Ok more
      | None => Ok more
      end))
  end.

(** The columns added by a grouping that are kept besides the selected
    ones. *)
Definition with_aggregates (selected : list string) (cols : list string)
    : list string :=
  foldl (fun acc col =>
           if negb (bool_decide (col ∈ acc))
              && bool_decide (col ∈ ["count"; "sum"; "average"; "percentage"])
           then acc ++ [col] else acc)
        selected cols.

(** [_process_data(df, parsed, resolved_columns)] *)
Definition _process_data (df : DataFrame) (parsed : pydict)
    (resolved_columns : list (string * string))
    : result (DataFrame * processing_info) :=
  bind (AnalyticsAgent.iterate (or_else (Py.get parsed "filters") (PList [])))
       (fun filters =>
  bind (apply_filters resolved_columns filters df []) (fun filtered =>
  let result_df := filtered.1 in
  bind (if Py.truthy (Py.get parsed "group_by")
        then known resolved_columns (Py.get parsed "group_by")
        else Ok None) (fun group =>
  let aggregation := get_default parsed "aggregation" (PStr "count") in
  let grouped :=
    match group with
    | Some group_column =>
        if bool_decide (group_column ∈ columns result_df)
        then Some group_column else None
    | None => None
    end in
  let result_df :=
    match grouped with
    | Some group_column =>
        _apply_grouping percent result_df group_column
                        (aggregation_name aggregation)
    | None => result_df
    end in
  let sort_spec := or_else (Py.get parsed "sort_by") (PDict []) in
  bind (match sort_spec with
        | PDict spec =>
            if Py.truthy (Py.get spec "field")
            then
              bind (known resolved_columns (Py.get spec "field"))
                   (fun actual =>
              match actual with
              | Some sort_column =>
                  let ascending :=
                    is_text (get_default spec "direction" (PStr "asc")) "asc" in
                  sort_frame result_df sort_column ascending
              | None => Ok result_df
              end)
            else Ok result_df
        | _ => Ok result_df
        end) (fun result_df =>
  bind (apply_limit (get_default parsed "limit" (PInt 100)) result_df)
       (fun result_df =>
  let select_columns :=
    or_else (Py.get parsed "select_columns") (PList []) in
  bind (AnalyticsAgent.iterate select_columns) (fun cols =>
  bind (actual_select resolved_columns (columns result_df) cols)
       (fun selected =>
  let result_df :=
    match selected with
    | [] => result_df
    | _ => take_columns result_df (with_aggregates selected (columns result_df))
    end in
  Ok (result_df,
      mkInfo (nrows df) filtered.2 grouped
             (match grouped with Some _ => aggregation | None => PNone end)
             (nrows result_df) (columns result_df))))))))).

(** [_generate_nl_summary(...)], given the outcome of the [chat]
    call. *)
Definition _generate_nl_summary (chat : result string)
    (result_df : DataFrame) (info : processing_info) : string :=
  if empty result_df
  then "No results found for your query. Searched through "
         +:+ pretty (original_rows info) +:+ " rows with "
         +:+ pretty (List.length (filters_applied info))
         +:+ " filter(s) applied."
  else
    match chat with
    | Ok response => strip response
    | Raise _ =>
        "Found " +:+ pretty (nrows result_df)
          +:+ " results matching your query (filtered from "
          +:+ pretty (original_rows info) +:+ " total rows)."
    end.

(** What the agent works with: the default sheet id, the Sheets client,
    the replies of the language model to the parsing prompt and to the
    summary prompt, and the order in which a set is enumerated. *)
Record environment : Type := mkEnvironment {
  default_sheet_id : option string;
  fetch_sheet : string → SheetsClient.outcome DataFrame;
  parse_chat : string → list string → result pyval;
  summary_chat : string → DataFrame → processing_info → result string;
  set_order : list pyval → list pyval
}.

(** An exception on its way to the handlers of [process]. *)
Inductive raised : Type :=
| FromSheets (e : SheetsClient.error)
| FromPython (e : exn).

Definition lift {A : Type} (m : result A) : raised + A :=
  match m with
  | Ok a => inr a
  | Raise e => inl (FromPython e)
  end.

Definition no_sheet_id : string :=
  "SEO analysis requires a Google Sheet ID. "
  +:+ "Please configure SHEET_ID in your environment variables. "
  +:+ "The Sheet should contain Screaming Frog export data.".

Definition empty_sheet : string :=
  "The SEO data sheet is empty. Please ensure the Google Sheet contains Screaming Frog export data.".

(** The dict literals returned by [process] itself. *)
Definition plain (answer : string) : AgentResponse :=
  mkResponse answer None "seo".

(** The [try] block of [process]. *)
Definition attempt (E : environment) (query : string)
    (sheet_id : option string) (json_requested : bool)
    : raised + AgentResponse :=
  match AnalyticsAgent.py_or sheet_id (default_sheet_id E) with
  | None | Some "" => inr (plain no_sheet_id)
  | Some resolved_sheet_id =>
      match fetch_sheet E resolved_sheet_id with
      | SheetsClient.Fail e => inl (FromSheets e)
      | SheetsClient.Done df =>
          let available := columns df in
          if empty df then inr (plain empty_sheet)
          else
            let parsed := _parse_query (parse_chat E query available) in
            match _resolve_columns (set_order E) available parsed with
            | Raise e => inl (FromPython e)
            | Ok resolution_result =>
                match errors resolution_result with
                | _ :: _ =>
                    inr (plain (_format_resolution_errors
                                  (errors resolution_result)))
                | [] =>
                    match _process_data df parsed
                                        (resolved resolution_result) with
                    | Raise e => inl (FromPython e)
                    | Ok (result_df, info) =>
                        lift (_synthesize_response
                                (_generate_nl_summary
                                   (summary_chat E query result_df info)
                                   result_df info)
                                result_df json_requested)
                    end
                end
            end
      end
  end.

(** [process(query, sheet_id, json_requested)] *)
Definition process (E : environment) (query : string)
    (sheet_id : option string) (json_requested : bool) : AgentResponse :=
  match attempt E query sheet_id json_requested with
  | inr response => response
  | inl (FromSheets (SheetsClient.SheetsNotFoundError msg)) => plain msg
  | inl (FromSheets (SheetsClient.SheetsAPIError msg)) =>
      plain ("Error accessing SEO data: " +:+ msg)
  | inl (FromSheets (SheetsClient.SheetsAuthenticationError msg)) =>
      plain ("An error occurred processing your SEO query: " +:+ msg)
  | inl (FromPython e) =>
      plain ("An error occurred processing your SEO query: " +:+ exn_text e)
  end.

End pandas.

(** *** Stand-ins for examples

    The examples compare no numbers and search for plain words: a float
    is an exact rational or NaN, a text cell holds no number, a string is
    no numeral, and a pattern without special characters is found where
    it occurs. *)
Definition example_to_numeric (c : cell) : option Qc :=
  match c with
  | CNum q => Some q
  | CStr _ => None
  end.

Definition example_float (v : pyval) : option (option Qc) :=
  match v with
  | PInt z => Some (Some (Qc_of_Z z))
  | PFloat q => Some (Some q)
  | PBool b => Some (Some (if b then 1%Qc else 0%Qc))
  | _ => None
  end.

Definition example_gt (x y : option Qc) : bool :=
  match x, y with
  | Some p, Some q => bool_decide (q < p)%Qc
  | _, _ => false
  end.

Definition example_lt (x y : option Qc) : bool := example_gt y x.

Definition example_search (pattern : string) : option (string → bool) :=
  Some (fun text => contains pattern text).

(** [_apply_filter], [_process_data] and [process] with the stand-ins;
    the examples meet none of the three open answers of pandas. *)
Definition example_filter : DataFrame → string → pyval → pyval → DataFrame :=
  _apply_filter (option Qc) example_to_numeric example_float example_gt
                example_lt (fun _ => "") (fun _ => "") example_search
                (fun df _ _ _ => df).

Definition example_process_data
    : DataFrame → pydict → list (string * string)
      → result (DataFrame * processing_info) :=
  _process_data (option Qc) example_to_numeric example_float example_gt
                example_lt (fun _ => "") (fun _ => "") example_search
                exact_percent (fun df _ _ _ => df) (fun _ df => Ok df)
                (fun _ => "").

Definition example_process
    : environment → string → option string → bool → AgentResponse :=
  process (option Qc) example_to_numeric example_float example_gt
          example_lt (fun _ => "") (fun _ => "") example_search
          exact_percent (fun df _ _ _ => df) (fun _ df => Ok df)
          (fun _ => "").

(** A crawl export behind the sheet id "crawl", and a language model
    that answers the parsing prompt with [reply]. *)
Definition example_environment (reply : result pyval) : environment :=
  mkEnvironment (Some "crawl")
    (fun sheet_id =>
       if String.eqb sheet_id "crawl" then SheetsClient.Done crawl_frame
       else SheetsClient.Fail
              (SheetsClient.SheetsNotFoundError "Spreadsheet not found"))
    (fun _ _ => reply)
    (fun _ _ _ => Ok "Three pages were crawled.")
    (fun fields => fields).

End SEOPipeline.

(** * Properties *)

(** ** Order facts used by the ranking of [difflib] *)

Section string_order.

Lemma string_leb_trans (s t u : string) :
  String.leb s t = true → String.leb t u = true → String.leb s u = true.
Proof.
  unfold String.leb. revert t u.
  induction s as [|a s IH]; intros [|b t] [|c u]; simpl; try done.
  unfold Ascii.compare.
  destruct (N.compare_spec (N_of_ascii a) (N_of_ascii b));
    destruct (N.compare_spec (N_of_ascii b) (N_of_ascii c));
    destruct (N.compare_spec (N_of_ascii a) (N_of_ascii c));
    try done; try lia.
  apply IH.
Qed.

Lemma string_leb_refl (s : string) : String.leb s s = true.
Proof. destruct (String.leb_total s s); done. Qed.

End string_order.

Section difflib_facts.
Import Difflib.
Local Open Scope Qc_scope.

Lemma key_ge_score (p q : Qc * string) : key_ge p q → q.1 ≤ p.1.
Proof.
  intros [Hlt | [Heq _]].
  - by apply Qclt_le_weak.
  - rewrite Heq. apply Qcle_refl.
Qed.

#[local] Instance key_ge_total : Total key_ge.
Proof.
  intros p q. unfold key_ge.
  destruct (Qclt_le_dec q.1 p.1) as [H1 | H1]; [by left; left|].
  destruct (Qcle_lt_or_eq _ _ H1) as [H2 | H2]; [by right; left|].
  destruct (String.leb_total q.2 p.2) as [H3 | H3].
  - left; right; done.
  - right; right; done.
Qed.

#[local] Instance key_ge_trans : Transitive key_ge.
Proof.
  intros p q r [H1 | [H1 H1']] [H2 | [H2 H2']]; unfold key_ge.
  - left. by eapply Qclt_trans.
  - left. by rewrite <- H2.
  - left. by rewrite H1.
  - right. split; [congruence|]. by eapply string_leb_trans.
Qed.

#[local] Instance key_ge_antisym : AntiSymm (=) key_ge.
Proof.
  intros [s x] [t y] [H1 | [H1 H1']] [H2 | [H2 H2']]; simpl in *.
  - exfalso. eapply Qclt_not_le; [exact H1|]. by apply Qclt_le_weak.
  - exfalso. subst. by eapply Qclt_not_le, Qcle_refl.
  - exfalso. subst. by eapply Qclt_not_le, Qcle_refl.
  - f_equal; [done|]. by apply String.leb_antisym.
Qed.

Lemma elem_of_scored (word : string) (ps : list string) (cutoff : Qc)
    (p : Qc * string) :
  p ∈ scored word ps cutoff →
  p.2 ∈ ps ∧ p.1 = ratio p.2 word ∧ cutoff ≤ ratio p.2 word.
Proof.
  unfold scored. rewrite list_elem_of_bind. intros (x & Hp & Hx).
  destruct (bool_decide (cutoff ≤ real_quick_ratio x word)); simpl in Hp;
    [|by apply elem_of_nil in Hp].
  destruct (bool_decide (cutoff ≤ quick_ratio x word)); simpl in Hp;
    [|by apply elem_of_nil in Hp].
  destruct (bool_decide (cutoff ≤ ratio x word)) eqn:E; simpl in Hp;
    [|by apply elem_of_nil in Hp].
  apply list_elem_of_singleton in Hp. subst p. simpl.
  apply bool_decide_eq_true in E. done.
Qed.

Lemma nlargest_sublist (n : nat) (l : list (Qc * string)) :
  nlargest n l `sublist_of` merge_sort key_ge l.
Proof. apply sublist_take. Qed.

Lemma elem_of_nlargest (n : nat) (l : list (Qc * string)) p :
  p ∈ nlargest n l → p ∈ l.
Proof.
  intros H. eapply elem_of_sublist in H; [|apply nlargest_sublist].
  by rewrite merge_sort_Permutation in H.
Qed.

Lemma nlargest_sorted (n : nat) (l : list (Qc * string)) :
  StronglySorted key_ge (nlargest n l).
Proof.
  unfold nlargest.
  pose proof (StronglySorted_merge_sort key_ge l) as H.
  rewrite <- (take_drop n (merge_sort key_ge l)) in H.
  by apply StronglySorted_app_1_l in H.
Qed.

(** At most [n] matches are returned. *)
Lemma get_close_matches_length word ps n cutoff :
  (List.length (get_close_matches word ps n cutoff) ≤ n)%nat.
Proof.
  unfold get_close_matches, nlargest.
  rewrite length_fmap, length_take. lia.
Qed.

(** Every match is a possibility whose ratio reaches the cutoff. *)
Lemma elem_of_get_close_matches word ps n cutoff x :
  x ∈ get_close_matches word ps n cutoff →
  x ∈ ps ∧ cutoff ≤ ratio x word.
Proof.
  unfold get_close_matches. rewrite list_elem_of_fmap.
  intros ([s y] & -> & Hp). apply elem_of_nlargest in Hp.
  apply elem_of_scored in Hp as (? & ? & ?). done.
Qed.

(** The matches come in descending order of their ratio. *)
Lemma get_close_matches_sorted word ps n cutoff :
  StronglySorted (fun x y => ratio y word ≤ ratio x word)
                 (get_close_matches word ps n cutoff).
Proof.
  unfold get_close_matches.
  assert (Hall : Forall (fun p : Qc * string => p.1 = ratio p.2 word)
                        (nlargest n (scored word ps cutoff))).
  { apply Forall_forall. intros p Hp. apply elem_of_nlargest in Hp.
    by apply elem_of_scored in Hp as (? & ? & ?). }
  pose proof (nlargest_sorted n (scored word ps cutoff)) as Hs.
  induction Hs as [|p l Hs IH Hp]; simpl; [constructor|].
  apply Forall_cons in Hall as [Hp1 Hall].
  constructor; [by apply IH|].
  apply Forall_fmap, Forall_forall. intros q Hq. simpl.
  rewrite Forall_forall in Hall. rewrite Forall_forall in Hp.
  rewrite <- Hp1, <- (Hall q Hq). apply key_ge_score, Hp, Hq.
Qed.

(** The matches do not depend on the order in which the possibilities
    are enumerated. *)
Lemma get_close_matches_perm word ps ps' n cutoff :
  ps ≡ₚ ps' →
  get_close_matches word ps n cutoff = get_close_matches word ps' n cutoff.
Proof.
  intros Hperm. unfold get_close_matches, nlargest. do 2 f_equal.
  apply (Sorted_unique key_ge).
  - apply Sorted_merge_sort, _.
  - apply Sorted_merge_sort, _.
  - rewrite !merge_sort_Permutation. unfold scored. by rewrite Hperm.
Qed.

End difflib_facts.

(** ** The matching blocks are found within the given windows

    [find_longest_match] answers with a block inside the window of [a] it
    was asked about, so each recursive search of [blocks_size] works on a
    strictly narrower window and the fuel [S (len a)] of [matches] is
    never used up: more fuel gives the same count. *)

Section difflib_windows.
Import Difflib.
Local Open Scope nat_scope.

Lemma next_row_bound (b : list ascii) blo bhi ai (j2len : list nat) alo i :
  Forall (fun k => k + alo ≤ i) j2len →
  alo ≤ i →
  Forall (fun k => k + alo ≤ S i) (next_row b blo bhi ai j2len).
Proof.
  intros Hprev Hi. unfold next_row. apply Forall_forall. intros k Hk.
  apply elem_of_lookup_imap in Hk as (j & [bj p] & -> & Hlook).
  destruct (_ && _ && _ && _); [|lia].
  apply list_elem_of_lookup_2, elem_of_zip_r in Hlook.
  apply elem_of_cons in Hlook as [->|Hp]; [lia|].
  rewrite Forall_forall in Hprev. specialize (Hprev p Hp). lia.
Qed.

Lemma update_best_window alo ahi i (row : list nat) best :
  Forall (fun k => k + alo ≤ S i) row →
  i < ahi →
  in_window alo ahi best →
  in_window alo ahi (update_best i row best).
Proof.
  intros Hrow Hi. unfold update_best.
  assert (Hpairs : Forall (fun jk : nat * nat => jk.2 + alo ≤ S i)
                          (imap pair row)).
  { apply Forall_forall. intros [j k] Hjk.
    apply elem_of_lookup_imap in Hjk as (j' & k' & [= -> ->] & Hlook).
    rewrite Forall_forall in Hrow. apply Hrow.
    by eapply list_elem_of_lookup_2. }
  revert best. induction Hpairs as [|[j k] l Hk Hl IH]; intros best Hb; [done|].
  cbn [foldl]. apply IH. destruct (best.2 <? k) eqn:E; [|done].
  unfold in_window. simpl in *. lia.
Qed.

Lemma longest_loop_window (a b : list ascii) alo ahi blo bhi :
  alo ≤ ahi → in_window alo ahi (longest_loop a b alo ahi blo bhi).
Proof.
  intros Hle. unfold longest_loop.
  assert (H : ∀ n i (row : list nat) best,
            i + n = ahi → alo ≤ i →
            Forall (fun k => k + alo ≤ i) row →
            in_window alo ahi best →
            in_window alo ahi
              (foldl (fun '(j2len, best) i =>
                        let row := next_row b blo bhi (nth i a Ascii.zero) j2len in
                        (row, update_best i row best))
                     (row, best) (seq i n)).2).
  { induction n as [|n IH]; intros i row best Hn Hi Hrow Hbest; [done|].
    cbn [seq foldl]. apply IH; [lia | lia | |].
    - by apply next_row_bound.
    - apply update_best_window; [by apply next_row_bound | lia | done]. }
  apply H; [lia | done | | unfold in_window; simpl; lia].
  apply Forall_forall. intros k Hk. apply elem_of_replicate in Hk as [-> _]. lia.
Qed.

Lemma extend_left_window n (a b : list ascii) alo blo ahi best :
  in_window alo ahi best → in_window alo ahi (extend_left n a b alo blo best).
Proof.
  revert best. induction n as [|n IH]; intros [[bi bj] bk] Hb; [done|].
  cbn [extend_left]. destruct (_ && _ && _) eqn:E; [|done].
  apply IH. apply andb_prop in E as [E _]. apply andb_prop in E as [E _].
  apply Nat.ltb_lt in E. unfold in_window in *. simpl in *. lia.
Qed.

Lemma extend_right_window n (a b : list ascii) alo ahi bhi best :
  in_window alo ahi best → in_window alo ahi (extend_right n a b ahi bhi best).
Proof.
  revert best. induction n as [|n IH]; intros [[bi bj] bk] Hb; [done|].
  cbn [extend_right]. destruct (_ && _ && _) eqn:E; [|done].
  apply IH. apply andb_prop in E as [E _]. apply andb_prop in E as [E _].
  apply Nat.ltb_lt in E. unfold in_window in *. simpl in *. lia.
Qed.

Lemma find_longest_match_window (a b : list ascii) alo ahi blo bhi :
  alo ≤ ahi → in_window alo ahi (find_longest_match a b alo ahi blo bhi).
Proof.
  intros Hle. unfold find_longest_match.
  by apply extend_right_window, extend_left_window, longest_loop_window.
Qed.

(** Fuel above the width of the window is never exhausted. *)
Lemma blocks_size_fuel (a b : list ascii) : ∀ fuel1 fuel2 alo ahi blo bhi,
  alo ≤ ahi → ahi - alo < fuel1 → ahi - alo < fuel2 →
  blocks_size fuel1 a b alo ahi blo bhi = blocks_size fuel2 a b alo ahi blo bhi.
Proof.
  induction fuel1 as [|fuel1 IH]; intros fuel2 alo ahi blo bhi Hle H1 H2; [lia|].
  destruct fuel2 as [|fuel2]; [lia|]. cbn [blocks_size].
  pose proof (find_longest_match_window a b alo ahi blo bhi Hle) as Hw.
  destruct (find_longest_match a b alo ahi blo bhi) as [[i j] k].
  unfold in_window in Hw. simpl in Hw.
  destruct (k =? 0) eqn:Ek; [done|]. apply Nat.eqb_neq in Ek.
  f_equal; [f_equal|].
  - destruct ((alo <? i) && (blo <? j)) eqn:E; [|done].
    apply andb_prop in E as [E _]. apply Nat.ltb_lt in E.
    apply IH; lia.
  - destruct ((i + k <? ahi) && (j + k <? bhi)) eqn:E; [|done].
    apply andb_prop in E as [E _]. apply Nat.ltb_lt in E.
    apply IH; lia.
Qed.

(** [matches] is the count that any larger fuel gives. *)
Lemma matches_fuel (a b : string) (fuel : nat) :
  String.length a < fuel →
  blocks_size fuel (list_ascii_of_string a) (list_ascii_of_string b)
              0 (String.length a) 0 (String.length b)
  = matches a b.
Proof.
  intros Hfuel. unfold matches.
  assert (Hlen : ∀ s, List.length (list_ascii_of_string s) = String.length s).
  { induction s as [|c s IHs]; simpl; [done|]. by rewrite IHs. }
  rewrite !Hlen. apply blocks_size_fuel; lia.
Qed.

End difflib_windows.

(** ** Lists: sortedness along sublists and maps *)

Section sorted_lists.
Context {A B : Type}.

Lemma StronglySorted_sublist (R : relation A) (l k : list A) :
  l `sublist_of` k → StronglySorted R k → StronglySorted R l.
Proof.
  induction 1 as [|x l k Hsub IH|x l k Hsub IH]; intros Hk.
  - constructor.
  - apply StronglySorted_cons in Hk as [Hx Hk].
    apply StronglySorted_cons. split; [|by apply IH].
    apply Forall_forall. intros y Hy.
    rewrite Forall_forall in Hx. apply Hx. by eapply elem_of_sublist.
  - apply StronglySorted_cons in Hk as [_ Hk]. by apply IH.
Qed.

Lemma StronglySorted_fmap_inv (f : A → B) (R : relation B) (l : list A) :
  StronglySorted R (f <$> l) →
  StronglySorted (fun x y => R (f x) (f y)) l.
Proof.
  induction l as [|x l IH]; csimpl; intros H; [constructor|].
  apply StronglySorted_cons in H as [Hx Hl].
  constructor; [by apply IH|].
  by rewrite Forall_fmap in Hx.
Qed.

End sorted_lists.

(** ** SEO schema resolver *)

Section seo_resolver_facts.
Import PyStr SEOResolver.
Local Open Scope Qc_scope.

Lemma map_back_spec candidates result m :
  map_back candidates result m = result ∨
  ∃ c, c ∈ candidates ∧ lower c = m ∧
       map_back candidates result m = result ++ [c].
Proof.
  unfold map_back.
  destruct (find _ candidates) as [c|] eqn:E; [|by left].
  right. apply find_some in E as [Hin Hc].
  apply andb_prop in Hc as [Hc _]. apply String.eqb_eq in Hc.
  exists c. by rewrite list_elem_of_In.
Qed.

Lemma foldl_map_back candidates ms : ∀ acc,
  ∃ ext, foldl (map_back candidates) acc ms = acc ++ ext ∧
         (lower <$> ext) `sublist_of` ms ∧
         Forall (fun c => c ∈ candidates) ext.
Proof.
  induction ms as [|m ms IH]; intros acc; simpl.
  - exists []. by rewrite app_nil_r.
  - destruct (map_back_spec candidates acc m) as [-> | (c & Hc & Hm & ->)].
    + destruct (IH acc) as (ext & -> & Hsub & Hall).
      exists ext. split_and!; [done| by apply sublist_cons |done].
    + destruct (IH (acc ++ [c])) as (ext & -> & Hsub & Hall).
      exists (c :: ext). rewrite <- app_assoc. split_and!; [done| |].
      * csimpl. rewrite Hm. by apply sublist_skip.
      * by constructor.
Qed.

(** The suggestions: their lower-cased forms are, in order, some of the
    close matches of the lower-cased term among the lower-cased
    candidates. *)
Lemma _get_suggestions_sublist term candidates n :
  (lower <$> _get_suggestions term candidates n) `sublist_of`
    Difflib.get_close_matches (lower term) (lower <$> candidates) n
                              SUGGESTION_CUTOFF
  ∧ Forall (fun c => c ∈ candidates) (_get_suggestions term candidates n).
Proof.
  unfold _get_suggestions.
  destruct candidates as [|c0 cs]; [split; [apply sublist_nil_l|done]|].
  destruct (foldl_map_back (c0 :: cs)
              (Difflib.get_close_matches (lower term) (lower <$> c0 :: cs) n
                 SUGGESTION_CUTOFF) []) as (ext & -> & Hsub & Hall).
  done.
Qed.

Lemma _get_suggestions_length term candidates n :
  (List.length (_get_suggestions term candidates n) ≤ n)%nat.
Proof.
  destruct (_get_suggestions_sublist term candidates n) as [Hsub _].
  apply sublist_length in Hsub. rewrite length_fmap in Hsub.
  etrans; [exact Hsub|]. apply get_close_matches_length.
Qed.

Lemma _get_suggestions_cutoff term candidates n :
  Forall (fun s => s ∈ candidates ∧ SUGGESTION_CUTOFF ≤ Difflib.similarity term s)
         (_get_suggestions term candidates n).
Proof.
  destruct (_get_suggestions_sublist term candidates n) as [Hsub Hall].
  apply Forall_forall. intros s Hs. split.
  - rewrite Forall_forall in Hall. by apply Hall.
  - assert (lower s ∈ lower <$> _get_suggestions term candidates n) as Hl
      by by apply list_elem_of_fmap_2.
    eapply elem_of_sublist in Hl; [|exact Hsub].
    by apply elem_of_get_close_matches in Hl as [_ ?].
Qed.

Lemma _get_suggestions_sorted term candidates n :
  StronglySorted (fun x y => Difflib.similarity term y ≤ Difflib.similarity term x)
                 (_get_suggestions term candidates n).
Proof.
  destruct (_get_suggestions_sublist term candidates n) as [Hsub _].
  apply (StronglySorted_fmap_inv lower
           (fun x y => Difflib.ratio y (lower term)
                       ≤ Difflib.ratio x (lower term))).
  eapply StronglySorted_sublist; [exact Hsub|].
  apply get_close_matches_sorted.
Qed.

(** The loop of [_fuzzy_match]: the best ratio so far and the first
    candidate that reaches it. *)
Lemma fuzzy_fold (term_lower : string) (candidates : list string) :
  ∀ (seen : list string) (acc : option string * Qc),
  Forall (fun x => Difflib.ratio term_lower (lower x) ≤ acc.2) seen →
  match acc.1 with
  | None => acc.2 = 0
  | Some c =>
      acc.2 = Difflib.ratio term_lower (lower c)
      ∧ ∃ pre post, seen = pre ++ c :: post
          ∧ Forall (fun x => Difflib.ratio term_lower (lower x) < acc.2) pre
  end →
  let out := foldl (fuzzy_step term_lower) acc candidates in
  Forall (fun x => Difflib.ratio term_lower (lower x) ≤ out.2)
         (seen ++ candidates)
  ∧ match out.1 with
    | None => out.2 = 0
    | Some c =>
        out.2 = Difflib.ratio term_lower (lower c)
        ∧ ∃ pre post, seen ++ candidates = pre ++ c :: post
            ∧ Forall (fun x => Difflib.ratio term_lower (lower x) < out.2) pre
    end.
Proof.
  induction candidates as [|x candidates IH]; intros seen acc Hle Hacc.
  - cbn [foldl]. by rewrite app_nil_r.
  - cbn [foldl].
    replace (seen ++ x :: candidates) with ((seen ++ [x]) ++ candidates)
      by by rewrite <- app_assoc.
    apply IH.
    + unfold fuzzy_step.
      destruct (bool_decide (acc.2 < Difflib.ratio term_lower (lower x))) eqn:E.
      * apply bool_decide_eq_true in E. cbn [snd].
        apply Forall_app. split; [|by repeat constructor].
        eapply Forall_impl; [exact Hle|]. intros y Hy. cbv beta in Hy.
        eapply Qcle_trans; [exact Hy|]. by apply Qclt_le_weak.
      * apply bool_decide_eq_false in E. apply Qcnot_lt_le in E.
        apply Forall_app. split; [done|]. by repeat constructor.
    + unfold fuzzy_step.
      destruct (bool_decide (acc.2 < Difflib.ratio term_lower (lower x))) eqn:E.
      * apply bool_decide_eq_true in E. cbn [fst snd]. split; [done|].
        exists seen, []. split; [done|].
        eapply Forall_impl; [exact Hle|]. intros y Hy. cbv beta in Hy.
        by eapply Qcle_lt_trans.
      * destruct acc.1 as [c|]; [|done].
        destruct Hacc as (Hr & pre & post & -> & Hpre). split; [done|].
        exists pre, (post ++ [x]). by rewrite <- app_assoc.
Qed.

Lemma fuzzy_best (term : string) (candidates : list string) :
  let out := foldl (fuzzy_step (lower term)) (None, 0) candidates in
  Forall (fun x => Difflib.ratio (lower term) (lower x) ≤ out.2) candidates
  ∧ match out.1 with
    | None => out.2 = 0
    | Some c =>
        out.2 = Difflib.ratio (lower term) (lower c)
        ∧ ∃ pre post, candidates = pre ++ c :: post
            ∧ Forall (fun x => Difflib.ratio (lower term) (lower x) < out.2) pre
    end.
Proof. by apply (fuzzy_fold (lower term) candidates [] (None, 0)). Qed.

Lemma threshold_positive : 0 < FUZZY_THRESHOLD.
Proof. apply (bool_decide_unpack _). vm_compute. exact I. Qed.

Lemma _fuzzy_match_elem (term : string) (candidates : list string) c :
  _fuzzy_match term candidates = Some c → c ∈ candidates.
Proof.
  unfold _fuzzy_match. destruct candidates as [|x0 xs]; [done|].
  pose proof (fuzzy_best term (x0 :: xs)) as [_ Hbest]. cbv zeta in *.
  destruct (foldl (fuzzy_step (lower term)) (None, 0) (x0 :: xs))
    as [best_match best_ratio]. cbn [fst snd] in *.
  destruct (bool_decide (FUZZY_THRESHOLD ≤ best_ratio)); [|done].
  intros ->. destruct Hbest as (_ & pre & post & -> & _).
  apply elem_of_app. right. by left.
Qed.

(** A term that is not a key of the alias table passes step 1. *)
Lemma alias_step_not_key available user_field :
  COLUMN_ALIASES !! strip (lower user_field) = None →
  alias_step available user_field = None.
Proof. unfold alias_step. by intros ->. Qed.

(** When step 1 returns, its answer is the answer of the resolver. *)
Lemma resolve_alias_hit available user_field r :
  alias_step available user_field = Some r →
  _resolve_single_column available user_field = r.
Proof. unfold _resolve_single_column. by intros ->. Qed.

Lemma direct_step_some available user_field col :
  col ∈ available → lower col = strip (lower user_field) →
  ∃ c, direct_step available user_field = Some c ∧ c ∈ available ∧
       lower c = strip (lower user_field).
Proof.
  intros Hin Hcol. unfold direct_step.
  destruct (find _ available) as [c|] eqn:E.
  - apply find_some in E as [Hc Heq]. apply String.eqb_eq in Heq.
    exists c. by rewrite list_elem_of_In.
  - exfalso. eapply find_none in E; [|by apply list_elem_of_In].
    rewrite Hcol, String.eqb_refl in E. done.
Qed.

End seo_resolver_facts.

(** ** C1: a term that names a catalog column *)

Section exact_match.
Import PyStr SEOResolver.

(** C1, counterexample.  A Screaming Frog export has the columns "Status
    Code" and "Status".  The user asks for "Status", a column of the
    catalog, and the resolver answers "Status Code": the alias table maps
    "status" to "Status Code", and the alias step runs before the direct
    comparison.  Hence "a term present in the catalog resolves to that
    very column" does not hold for every term. *)
Lemma exact_match_preempted_by_alias :
  "Status" ∈ ["Address"; "Status Code"; "Status"]
  ∧ _resolve_single_column ["Address"; "Status Code"; "Status"] "Status"
    = Resolved "Status Code" None
  ∧ ¬ (∀ available term,
         term ∈ available →
         _resolve_single_column available term = Resolved term None).
Proof.
  assert (Hin : "Status" ∈ ["Address"; "Status Code"; "Status"])
    by (apply list_elem_of_In; simpl; tauto).
  assert (E : _resolve_single_column ["Address"; "Status Code"; "Status"]
                                     "Status"
              = Resolved "Status Code" None) by (vm_compute; reflexivity).
  split_and!; [exact Hin | exact E |].
  intros H. specialize (H _ _ Hin). rewrite E in H. discriminate H.
Qed.

(** C1, amended.  Let the term, lower-cased and stripped, equal the
    lower-cased name of a catalog column, and let [first] be the first
    catalog column equal to the term up to case.  The resolver never
    fails on such a term and always returns a column of the catalog.
    It returns [first] without a warning when the term is not a key of
    the alias table, and also when it is a key whose target is neither
    in the catalog nor fuzzy-matched there.  When the term is a key
    whose target is in the catalog it returns that target without a
    warning; for a key whose target is the key itself up to case, such
    as "address" or "status code", the target is again a column equal
    to the term up to case.  When the target is not in the catalog but is
    fuzzy-matched there, it returns the matched column with the
    "via alias" warning.  The fuzzy match on the term itself never
    decides. *)
Theorem resolve_exact_unless_alias (available : list string)
    (term col : string) :
  col ∈ available →
  lower col = strip (lower term) →
  ∃ first,
    direct_step available term = Some first
    ∧ first ∈ available
    ∧ lower first = strip (lower term)
    ∧ (∃ c w, _resolve_single_column available term = Resolved c w
              ∧ c ∈ available)
    ∧ (COLUMN_ALIASES !! strip (lower term) = None →
       _resolve_single_column available term = Resolved first None)
    ∧ (∀ target,
         COLUMN_ALIASES !! strip (lower term) = Some target →
         (target ∈ available →
          _resolve_single_column available term = Resolved target None)
         ∧ (target ∉ available →
            match _fuzzy_match target available with
            | Some fuzzy_result =>
                fuzzy_result ∈ available
                ∧ _resolve_single_column available term
                  = Resolved fuzzy_result
                      (Some ("Mapped '" +:+ term +:+ "' to '"
                               +:+ fuzzy_result +:+ "' (via alias)"))
            | None =>
                _resolve_single_column available term = Resolved first None
            end)).
Proof.
  intros Hin Hcol.
  destruct (direct_step_some available term col Hin Hcol)
    as (first & Hfirst & Hfin & Hflow).
  exists first. split_and!; try done.
  - unfold _resolve_single_column, alias_step.
    destruct (COLUMN_ALIASES !! strip (lower term)) as [target|].
    + destruct (bool_decide (target ∈ available)) eqn:Et.
      { apply bool_decide_eq_true in Et. by exists target, None. }
      destruct (_fuzzy_match target available) as [f|] eqn:Ef.
      { eexists f, _. split; [done|]. by eapply _fuzzy_match_elem. }
      rewrite Hfirst. by exists first, None.
    + rewrite Hfirst. by exists first, None.
  - intros Hnone. unfold _resolve_single_column, alias_step.
    by rewrite Hnone, Hfirst.
  - intros target Htarget. split.
    + intros Ht. unfold _resolve_single_column, alias_step.
      by rewrite Htarget, (bool_decide_eq_true_2 _ Ht).
    + intros Ht. unfold _resolve_single_column, alias_step.
      rewrite Htarget, (bool_decide_eq_false_2 _ Ht).
      destruct (_fuzzy_match target available) as [f|] eqn:Ef.
      * split; [by eapply _fuzzy_match_elem|done].
      * by rewrite Hfirst.
Qed.

(** The theorem at the catalog [Address, Word Count, Hash]: the term
    "HASH" is no alias key and resolves to "Hash"; the term "address"
    is an alias key whose target "Address" is in the catalog. *)
Lemma resolve_exact_unless_alias_witness :
  _resolve_single_column ["Address"; "Word Count"; "Hash"] "HASH"
    = Resolved "Hash" None
  ∧ _resolve_single_column ["Address"; "Word Count"; "Hash"] "address"
    = Resolved "Address" None.
Proof.
  assert (Hhash : "Hash" ∈ ["Address"; "Word Count"; "Hash"])
    by (apply list_elem_of_In; simpl; tauto).
  assert (Haddress : "Address" ∈ ["Address"; "Word Count"; "Hash"])
    by (apply list_elem_of_In; simpl; tauto).
  split.
  - destruct (resolve_exact_unless_alias _ "HASH" "Hash" Hhash eq_refl)
      as (first & Hfirst & _ & _ & _ & Hdirect & _).
    rewrite Hdirect by (vm_compute; reflexivity).
    f_equal. vm_compute in Hfirst. by injection Hfirst.
  - destruct (resolve_exact_unless_alias _ "address" "Address" Haddress
                eq_refl) as (first & _ & _ & _ & _ & _ & Halias).
    destruct (Halias "Address") as [Hhit _]; [vm_compute; reflexivity|].
    exact (Hhit Haddress).
Defined.

End exact_match.

(** ** Analytics validator: the "Did you mean" list *)

Section validator_facts.
Import PyStr AnalyticsAgent.
Local Open Scope Qc_scope.

Lemma original_case_sublist all_fields ms :
  (lower <$> original_case all_fields ms) `sublist_of` ms
  ∧ Forall (fun s => s ∈ all_fields) (original_case all_fields ms).
Proof.
  unfold original_case. induction ms as [|m ms [IH1 IH2]].
  - split; [apply sublist_nil|constructor].
  - rewrite bind_cons.
    destruct (find _ all_fields) as [c|] eqn:E; simpl.
    + apply find_some in E as [Hin Hc]. apply String.eqb_eq in Hc.
      split.
      * rewrite Hc. by apply sublist_skip.
      * constructor; [by apply list_elem_of_In | done].
    + split; [by apply sublist_cons | done].
Qed.

Lemma validator_suggestions_length field all_fields :
  (List.length (original_case all_fields (close_matches field all_fields)) ≤ 3)%nat.
Proof.
  destruct (original_case_sublist all_fields (close_matches field all_fields))
    as [Hsub _].
  apply sublist_length in Hsub. rewrite length_fmap in Hsub.
  etrans; [exact Hsub|]. apply get_close_matches_length.
Qed.

Lemma validator_suggestions_cutoff field all_fields :
  Forall (fun s => s ∈ all_fields
                   ∧ VALIDATION_CUTOFF ≤ Difflib.similarity field s)
         (original_case all_fields (close_matches field all_fields)).
Proof.
  destruct (original_case_sublist all_fields (close_matches field all_fields))
    as [Hsub Hall].
  apply Forall_forall. intros s Hs. split.
  - rewrite Forall_forall in Hall. by apply Hall.
  - assert (lower s ∈ lower <$> original_case all_fields
                                  (close_matches field all_fields)) as Hl
      by by apply list_elem_of_fmap_2.
    eapply elem_of_sublist in Hl; [|exact Hsub].
    by apply elem_of_get_close_matches in Hl as [_ ?].
Qed.

Lemma validator_suggestions_sorted field all_fields :
  StronglySorted
    (fun x y => Difflib.similarity field y ≤ Difflib.similarity field x)
    (original_case all_fields (close_matches field all_fields)).
Proof.
  destruct (original_case_sublist all_fields (close_matches field all_fields))
    as [Hsub _].
  apply (StronglySorted_fmap_inv lower
           (fun x y => Difflib.ratio y (lower field)
                       ≤ Difflib.ratio x (lower field))).
  eapply StronglySorted_sublist; [exact Hsub|].
  apply get_close_matches_sorted.
Qed.

End validator_facts.

(** ** C2: the suggestions of a failed resolution *)

Section failure_suggestions.
Import PyStr SEOResolver AnalyticsAgent.
Local Open Scope Qc_scope.

(** C2, counterexample.  The analytics validator does not use the cutoff
    0.4: for the field "users" and the core metrics, "sessions" has
    similarity 6/13 (above 0.4) and only two names are suggested, yet
    "sessions" is not among them; with the cutoff 0.4 the list would have
    three entries. *)
Lemma validator_cutoff_is_one_half :
  Py.Raise (Py.ValidationError
     "Metric 'users' is not valid. Did you mean: 'newUsers', 'activeUsers'? Please use exact GA4 field names.")
    = _validate_field sample_world (Py.PStr "users") (keys CORE_METRICS) "Metric"
  ∧ original_case CORE_METRICS.*1 (close_matches "users" CORE_METRICS.*1)
    = ["newUsers"; "activeUsers"]
  ∧ "sessions" ∈ CORE_METRICS.*1
  ∧ Q2Qc (2 # 5) ≤ Difflib.similarity "users" "sessions"
  ∧ original_case CORE_METRICS.*1
      (Difflib.get_close_matches (lower "users") (lower <$> CORE_METRICS.*1)
                                 3 (Q2Qc (2 # 5)))
    = ["newUsers"; "activeUsers"; "sessions"].
Proof.
  split_and!.
  - vm_compute. reflexivity.
  - vm_compute. reflexivity.
  - apply list_elem_of_In. vm_compute. tauto.
  - apply (bool_decide_unpack _). vm_compute. exact I.
  - vm_compute. reflexivity.
Qed.

(** C2, amended.  SEO resolver: when the alias step, the direct comparison
    and the fuzzy match all fail, the resolution fails with the message
    built from [_get_suggestions], which holds at most 3 catalog columns,
    each of similarity at least 0.4 to the term, in descending order of
    similarity.  Analytics validator: a field outside the allowlist raises
    [ValidationError] with the message built from the close matches, which
    are at most 3 allowed names, each of similarity at least 0.5 to the
    field (the validator's own cutoff), in descending order of
    similarity. *)
Theorem failed_resolution_suggestions
    (available : list string) (term : string)
    (W : world) (field field_type : string) (valid_fields : gset string) :
  (alias_step available term = None →
   direct_step available term = None →
   _fuzzy_match term available = None →
   let suggestions := _get_suggestions term available 3 in
   _resolve_single_column available term
     = Failed (unknown_field_error term suggestions available)
   ∧ (List.length suggestions ≤ 3)%nat
   ∧ Forall (fun s => s ∈ available
                      ∧ SUGGESTION_CUTOFF ≤ Difflib.similarity term s)
            suggestions
   ∧ StronglySorted
       (fun x y => Difflib.similarity term y ≤ Difflib.similarity term x)
       suggestions)
  ∧ (field ∉ valid_fields →
     let all_fields := set_order W valid_fields in
     let suggestions := original_case all_fields (close_matches field all_fields) in
     _validate_field W (Py.PStr field) valid_fields field_type
       = Py.Raise (Py.ValidationError
                     (validation_message field field_type all_fields))
     ∧ (List.length suggestions ≤ 3)%nat
     ∧ Forall (fun s => s ∈ all_fields
                        ∧ VALIDATION_CUTOFF ≤ Difflib.similarity field s)
              suggestions
     ∧ StronglySorted
         (fun x y => Difflib.similarity field y ≤ Difflib.similarity field x)
         suggestions).
Proof.
  split.
  - intros Halias Hdirect Hfuzzy suggestions. split_and!.
    + unfold _resolve_single_column. by rewrite Halias, Hdirect, Hfuzzy.
    + apply _get_suggestions_length.
    + apply _get_suggestions_cutoff.
    + apply _get_suggestions_sorted.
  - intros Hnot all_fields suggestions. split_and!.
    + unfold _validate_field. by rewrite bool_decide_eq_false_2.
    + apply validator_suggestions_length.
    + apply validator_suggestions_cutoff.
    + apply validator_suggestions_sorted.
Qed.

(** The theorem at the catalog [Address, Status Code, Statuz] with the term
    "stats", and at the core metrics with the field "users". *)
Lemma failed_resolution_suggestions_witness :
  _resolve_single_column ["Address"; "Status Code"; "Statuz"] "stats"
    = Failed "Unknown field 'stats'. Did you mean: Statuz, Status Code? Available columns include: Address, Status Code, Statuz"
  ∧ _validate_field sample_world (Py.PStr "users") (keys CORE_METRICS) "Metric"
    = Py.Raise (Py.ValidationError
        "Metric 'users' is not valid. Did you mean: 'newUsers', 'activeUsers'? Please use exact GA4 field names.").
Proof.
  destruct (failed_resolution_suggestions
              ["Address"; "Status Code"; "Statuz"] "stats"
              sample_world "users" "Metric" (keys CORE_METRICS)) as [Hseo Hga].
  split.
  - destruct Hseo as (-> & _); [vm_compute; reflexivity ..|].
    vm_compute. reflexivity.
  - destruct Hga as (-> & _).
    + intros H%(bool_decide_pack _). vm_compute in H. exact H.
    + vm_compute. reflexivity.
Defined.

End failure_suggestions.

(** ** C3: the format selector *)

Section format_selection.
Import Py ResponseFormatter.
Local Open Scope nat_scope.

Lemma max_of_const {X : Type} (f : X → nat) (c : nat) (l : list X) :
  l ≠ [] → Forall (fun x => f x = c) l → max_of (map f l) = c.
Proof.
  intros Hne Hall. induction Hall as [|x l Hx Hall IH]; [done|].
  simpl. destruct l as [|y l]; simpl in *; [lia|].
  rewrite Hx. rewrite IH by done. lia.
Qed.

Lemma max_of_capped {X : Type} (f g : X → nat) (a : nat) (l : list X) :
  l ≠ [] →
  Forall (fun x => f x = Nat.min (a + g x) 6) l →
  max_of (map f l) = Nat.min (a + max_of (map g l)) 6.
Proof.
  intros Hne Hall. induction Hall as [|x l Hx Hall IH]; [done|].
  simpl. destruct l as [|y l]; simpl in *; [lia|].
  rewrite Hx. rewrite IH by done. lia.
Qed.

(** The walk of [count_nesting] stops at the first level above
    [HYBRID_THRESHOLD_COMPLEXITY]: started at [level <= 5] it returns the
    true depth (counted from [level]) capped at 6. *)
Lemma count_nesting_spec (obj : pyval) : ∀ level,
  count_nesting obj level
  = if (HYBRID_THRESHOLD_COMPLEXITY <? level)%nat then level
    else Nat.min (level + nesting_depth obj) 6.
Proof.
  unfold HYBRID_THRESHOLD_COMPLEXITY.
  induction obj as [| | | | |l IH|d IH] using pyval_induction; intros level;
    try (simpl; unfold HYBRID_THRESHOLD_COMPLEXITY;
         destruct (5 <? level)%nat eqn:E; [done|];
         apply Nat.ltb_ge in E; lia).
  - simpl. unfold HYBRID_THRESHOLD_COMPLEXITY.
    destruct (5 <? level)%nat eqn:E; [done|]. apply Nat.ltb_ge in E.
    destruct l as [|x l]; [lia|].
    destruct (decide (level = 5)) as [->|Hlt].
    + rewrite (max_of_const _ 6); [simpl; lia | done |].
      eapply Forall_impl; [exact IH|]. intros v Hv. by rewrite Hv.
    + rewrite (max_of_capped _ nesting_depth (S level)); [simpl; lia | done |].
      eapply Forall_impl; [exact IH|]. intros v Hv. rewrite Hv.
      destruct (5 <? S level)%nat eqn:E'; [|done].
      apply Nat.ltb_lt in E'. lia.
  - simpl. unfold HYBRID_THRESHOLD_COMPLEXITY.
    destruct (5 <? level)%nat eqn:E; [done|]. apply Nat.ltb_ge in E.
    destruct d as [|x d]; [lia|].
    destruct (decide (level = 5)) as [->|Hlt].
    + rewrite (max_of_const _ 6); [simpl; lia | done |].
      eapply Forall_impl; [exact IH|]. intros v Hv. simpl in Hv. by rewrite Hv.
    + rewrite (max_of_capped _ (fun kv => nesting_depth kv.2) (S level));
        [simpl; lia | done |].
      eapply Forall_impl; [exact IH|]. intros v Hv. simpl in Hv. rewrite Hv.
      destruct (5 <? S level)%nat eqn:E'; [|done].
      apply Nat.ltb_lt in E'. lia.
Qed.

Lemma _is_complex_structure_depth (d : pydict) :
  _is_complex_structure d = (3 <? nesting_depth (PDict d))%nat.
Proof.
  unfold _is_complex_structure. rewrite count_nesting_spec.
  unfold HYBRID_THRESHOLD_COMPLEXITY.
  change (5 <? 0) with false. cbv iota.
  destruct (3 <? nesting_depth (PDict d))%nat eqn:E.
  - apply Nat.ltb_lt in E. apply Nat.ltb_lt. lia.
  - apply Nat.ltb_ge in E. apply Nat.ltb_ge. lia.
Qed.

(** The test of the code for a [source_] key is the test of the
    specification. *)
Lemma startswith_substring (p s : string) :
  PyStr.startswith p s = true ↔ substring 0 (String.length p) s = p.
Proof.
  revert s. induction p as [|a p IH]; intros s.
  - cbn. by destruct s.
  - destruct s as [|b s]; cbn; [done|].
    destruct (Ascii.eqb a b) eqn:E.
    + apply Ascii.eqb_eq in E. subst b. rewrite IH. split; [by intros ->|].
      by intros [= ->].
    + apply Ascii.eqb_neq in E. split; [done|]. intros [= <- _]. by destruct E.
Qed.

Lemma source_keys_count (d : pydict) :
  List.length (source_keys d) = source_count (Some d).
Proof.
  unfold source_keys, source_count. cbn [default from_option id].
  induction d as [|[k v] d IH]; [done|].
  rewrite fmap_cons. cbn [fst].
  rewrite !filter_cons. cbn [fst].
  destruct (decide (PyStr.startswith "source_" k = true)) as [Hk|Hk];
    destruct (decide (substring 0 7 k = "source_")) as [Hs|Hs].
  - cbn [List.length]. by rewrite IH.
  - destruct Hs. by apply (startswith_substring "source_" k).
  - destruct Hk. by apply (startswith_substring "source_" k).
  - exact IH.
Qed.

(** The row test of the code on a payload with a row count, and on one
    without. *)
Lemma many_rows_counted (d : pydict) (rows : nat) :
  row_count (Some d) = Some rows →
  (if has_key d "rows"
   then bind (len (get_default d "rows" (PList [])))
             (fun row_count => Ok (HYBRID_THRESHOLD_ROWS <? row_count))
   else Ok false) = Ok (10 <? rows).
Proof.
  unfold row_count, has_key, get_default.
  destruct (lookup d "rows") as [v|]; cbn.
  - destruct v; try done; by intros [= <-].
  - by intros [= <-].
Qed.

Lemma many_rows_uncounted (d : pydict) :
  row_count (Some d) = None →
  ∃ v, lookup d "rows" = Some v
       ∧ (if has_key d "rows"
          then bind (len (get_default d "rows" (PList [])))
                    (fun row_count => Ok (HYBRID_THRESHOLD_ROWS <? row_count))
          else Ok false)
         = Raise (TypeError ("object of type '" +:+ type_name v
                               +:+ "' has no len()")).
Proof.
  unfold row_count, has_key, get_default.
  destruct (lookup d "rows") as [v|]; cbn; [|done].
  destruct v; try done; intros _; by eexists.
Qed.

(** The formatter decides as the selector does, for a payload that has a
    row count. *)
Lemma format_response_select (answer agent_used : string)
    (data : option pydict) (json_requested : bool) (rows : nat) :
  row_count data = Some rows →
  format_response answer data agent_used json_requested
  = Ok (render (select json_requested data rows) answer data agent_used).
Proof.
  intros Hrows. unfold format_response, select.
  destruct json_requested.
  { unfold _format_json, render. by destruct data as [[|kv d]|]. }
  destruct data as [[|kv d]|]; try done.
  unfold _should_use_hybrid. cbn [is_empty_payload].
  rewrite (many_rows_counted _ _ Hrows). cbn [bind].
  destruct (10 <? rows)%nat; [done|].
  rewrite source_keys_count. cbn [orb].
  destruct (2 <=? _)%nat; [done|].
  rewrite _is_complex_structure_depth. cbn [default from_option id orb].
  by destruct (3 <? _)%nat.
Qed.

(** C3, counterexample.  A payload with two sources whose ['rows'] entry
    is the number 7: by the cascade it is a Hybrid response (two
    [source_] keys), but [len(7)] raises [TypeError] in the row test,
    which comes first, and [format_response] returns no response at
    all.  Hence the cascade is not followed for every payload. *)
Lemma rows_without_length_raise :
  source_count (Some [("rows", PInt 7); ("source_1", PDict []);
                      ("source_2", PDict [])]) = 2
  ∧ format_response "Two sources."
      (Some [("rows", PInt 7); ("source_1", PDict []); ("source_2", PDict [])])
      "multi-agent" false
    = Raise (TypeError "object of type 'int' has no len()")
  ∧ ¬ (∀ answer data agent_used json_requested,
         ∃ f, format_response answer data agent_used json_requested
              = Ok (render f answer data agent_used)).
Proof.
  assert (E : format_response "Two sources."
      (Some [("rows", PInt 7); ("source_1", PDict []); ("source_2", PDict [])])
      "multi-agent" false
    = Raise (TypeError "object of type 'int' has no len()"))
    by (vm_compute; reflexivity).
  split_and!; [vm_compute; reflexivity | exact E |].
  intros H.
  destruct (H "Two sources."
              (Some [("rows", PInt 7); ("source_1", PDict []);
                     ("source_2", PDict [])]) "multi-agent" false) as [f Hf].
  rewrite E in Hf. discriminate Hf.
Qed.

(** C3, amended.  For every payload that has a row count (no ['rows']
    entry, or one that is a list, a dict or a string), [format_response]
    follows the cascade of the selector: JSON when JSON was requested
    (payload attached, "{}" for an absent or empty one, fixed answer);
    else NL with data null for an empty or absent payload; else Hybrid
    exactly when the row count exceeds 10, or at least 2 keys start with
    "source_", or the nesting depth exceeds 3; else NL with the payload
    suppressed.  For a payload whose ['rows'] entry has no length, the
    JSON format is returned when JSON was requested, and otherwise
    [format_response] raises the [TypeError] of [len].  The depth that
    [count_nesting] reports is the true depth capped at the first level
    above 5, so every deeper payload still counts as exceeding 3. *)
Theorem format_response_cascade (answer agent_used : string)
    (data : option pydict) (json_requested : bool) :
  (∀ rows, row_count data = Some rows →
     format_response answer data agent_used json_requested
     = Ok (render (select json_requested data rows) answer data agent_used))
  ∧ (row_count data = None →
     if json_requested
     then format_response answer data agent_used json_requested
          = Ok (render JSON answer data agent_used)
     else ∃ v, lookup (default [] data) "rows" = Some v
               ∧ format_response answer data agent_used json_requested
                 = Raise (TypeError ("object of type '" +:+ type_name v
                                       +:+ "' has no len()")))
  ∧ count_nesting (PDict (default [] data)) 0
    = Nat.min (nesting_depth (PDict (default [] data))) 6.
Proof.
  split_and!.
  - intros rows. apply format_response_select.
  - intros Hnone. destruct json_requested.
    + unfold format_response, _format_json, render.
      by destruct data as [[|kv d]|].
    + destruct data as [[|kv d]|]; try done.
      destruct (many_rows_uncounted _ Hnone) as (v & Hv & Hraise).
      exists v. split; [exact Hv|].
      unfold format_response, _should_use_hybrid. by rewrite Hraise.
  - by rewrite count_nesting_spec.
Qed.

(** The theorem at a payload of two sources without rows, where the
    source rule decides, and at a payload of eleven one-cell rows. *)
Lemma format_response_cascade_witness :
  format_response "Sessions and pages."
    (Some [("source_1", PDict [("row_count", PInt 1)]);
           ("source_2", PDict [("total_rows", PInt 3)])])
    "multi-agent" false
  = Ok (mkResponse "Sessions and pages."
          (Some [("source_1", PDict [("row_count", PInt 1)]);
                 ("source_2", PDict [("total_rows", PInt 3)])])
          "multi-agent")
  ∧ format_response "Eleven rows."
      (Some [("rows", PList (replicate 11 (PDict [("Address", PStr "/")])))])
      "seo" false
    = Ok (mkResponse "Eleven rows."
            (Some [("rows",
                    PList (replicate 11 (PDict [("Address", PStr "/")])))])
            "seo").
Proof.
  split.
  - destruct (format_response_cascade "Sessions and pages." "multi-agent"
      (Some [("source_1", PDict [("row_count", PInt 1)]);
             ("source_2", PDict [("total_rows", PInt 3)])])
      false) as [H _].
    rewrite (H 0%nat); [|reflexivity]. vm_compute. reflexivity.
  - destruct (format_response_cascade "Eleven rows." "seo"
      (Some [("rows", PList (replicate 11 (PDict [("Address", PStr "/")])))])
      false) as [H _].
    rewrite (H 11%nat); [|reflexivity]. vm_compute. reflexivity.
Defined.

End format_selection.

(** ** Python dicts *)

Section dict_facts.
Import Py.

Lemma lookup_set (d : pydict) (k k' : string) (v : pyval) :
  lookup (Py.set d k v) k' = if String.eqb k k' then Some v else lookup d k'.
Proof.
  induction d as [|[k0 w] d IH]; simpl.
  - by destruct (String.eqb k k').
  - destruct (String.eqb k0 k) eqn:E0; simpl.
    + apply String.eqb_eq in E0. subst k0.
      by destruct (String.eqb k k').
    + destruct (String.eqb k0 k') eqn:E1; [|by rewrite IH].
      apply String.eqb_eq in E1. subst k0. by rewrite String.eqb_sym, E0.
Qed.

Lemma get_set (d : pydict) (k k' : string) (v : pyval) :
  get (Py.set d k v) k' = if String.eqb k k' then v else get d k'.
Proof. unfold get. rewrite lookup_set. by destruct (String.eqb k k'). Qed.

End dict_facts.

(** ** C8: the analytics parser never fails *)

Section analytics_parser.
Import Py AnalyticsAgent.

Lemma lookup_ensure (key : string) (v : pyval) (result : pydict) (k : string) :
  lookup (ensure key v result) k
  = if String.eqb key k && negb (truthy (get result key)) then Some v
    else lookup result k.
Proof.
  unfold ensure. destruct (truthy (get result key)); simpl.
  - by rewrite andb_false_r.
  - rewrite lookup_set. by rewrite andb_true_r.
Qed.

Lemma get_ensure (key : string) (v : pyval) (result : pydict) (k : string) :
  get (ensure key v result) k
  = if String.eqb key k && negb (truthy (get result key)) then v
    else get result k.
Proof.
  unfold get at 1. rewrite lookup_ensure.
  by destruct (String.eqb key k && negb (truthy (get result key))).
Qed.

(** C8.  [_parse_query] always returns a dict.  When the extraction call
    raises (or answers with JSON that is not an object) it returns the
    complete default query: metrics [users], no dimensions, start date
    7daysAgo, end date today, limit 10.  When the extraction returns an
    object, each of metrics, start date, end date and limit that is
    omitted (or falsy) gets that same default, a present value is kept,
    and every other key is passed through unchanged. *)
Theorem parse_query_defaults :
  default_parsed
    = [ ("metrics", PList [PStr "users"]); ("dimensions", PList []);
        ("start_date", PStr "7daysAgo"); ("end_date", PStr "today");
        ("limit", PInt 10) ]
  ∧ (∀ e, _parse_query (Raise e) = default_parsed)
  ∧ (∀ v, (∀ d, v ≠ PDict d) → _parse_query (Ok v) = default_parsed)
  ∧ (∀ result : pydict,
       let parsed := _parse_query (Ok (PDict result)) in
       let filled key dflt :=
         get parsed key
         = if truthy (get result key) then get result key else dflt in
       filled "metrics" (PList [PStr "users"])
       ∧ filled "start_date" (PStr "7daysAgo")
       ∧ filled "end_date" (PStr "today")
       ∧ filled "limit" (PInt 10)
       ∧ (∀ key dflt, lookup result key = None →
            (key, dflt) ∈ [ ("metrics", PList [PStr "users"]);
                            ("start_date", PStr "7daysAgo");
                            ("end_date", PStr "today"); ("limit", PInt 10) ] →
            get parsed key = dflt)
       ∧ (∀ key, key ∉ ["metrics"; "start_date"; "end_date"; "limit"] →
            lookup parsed key = lookup result key)).
Proof.
  split_and!; [done | done | by intros [] H; try done; destruct (H d) |].
  intros result parsed filled.
  assert (Hm : filled "metrics" (PList [PStr "users"])).
  { unfold filled, parsed, _parse_query.
    repeat (progress (rewrite ?get_ensure; simpl)).
    by destruct (truthy (get result "metrics")). }
  assert (Hs : filled "start_date" (PStr "7daysAgo")).
  { unfold filled, parsed, _parse_query.
    repeat (progress (rewrite ?get_ensure; simpl)).
    by destruct (truthy (get result "start_date")). }
  assert (He : filled "end_date" (PStr "today")).
  { unfold filled, parsed, _parse_query.
    repeat (progress (rewrite ?get_ensure; simpl)).
    by destruct (truthy (get result "end_date")). }
  assert (Hl : filled "limit" (PInt 10)).
  { unfold filled, parsed, _parse_query.
    repeat (progress (rewrite ?get_ensure; simpl)).
    by destruct (truthy (get result "limit")). }
  split_and!; try done.
  - intros key dflt Habs Hin.
    assert (Hfalsy : truthy (get result key) = false)
      by (unfold get; by rewrite Habs).
    unfold filled in *.
    rewrite !elem_of_cons, elem_of_nil in Hin.
    destruct Hin as [Hin|[Hin|[Hin|[Hin|[]]]]]; injection Hin as -> ->.
    + by rewrite Hm, Hfalsy.
    + by rewrite Hs, Hfalsy.
    + by rewrite He, Hfalsy.
    + by rewrite Hl, Hfalsy.
  - intros key Hkey. unfold parsed, _parse_query.
    rewrite !elem_of_cons, elem_of_nil in Hkey.
    rewrite !lookup_ensure.
    repeat match goal with
    | |- context [String.eqb ?a key] =>
        destruct (String.eqb_spec a key); [exfalso; apply Hkey; subst; tauto|]
    end.
    done.
Qed.

End analytics_parser.

(** ** Analytics pipeline *)

Section analytics_pipeline.
Import Py PyStr ResponseFormatter AnalyticsAgent.

Lemma first_in_strs (names : gset string) (l : list string) :
  first_in names (PStr <$> l)
  = Ok (find (fun s => bool_decide (s ∈ names)) l).
Proof.
  induction l as [|s l IH]; [done|]. csimpl.
  destruct (bool_decide (s ∈ names)); [done | exact IH].
Qed.

(** The tier stage on parsed lists of names: it returns, and it records
    exactly [tier_reason]. *)
Lemma check_extended_triggers_typed query (ms ds : list string) st :
  _check_extended_triggers query (PList (PStr <$> ms)) (PList (PStr <$> ds)) st
  = (match tier_reason query ms ds with
     | Some reason => mkState true reason (run_report_calls st)
     | None => st
     end, Ok tt).
Proof.
  unfold _check_extended_triggers, tier_reason.
  destruct (find _ EXTENDED_TRIGGERS) as [trigger|]; [done|].
  unfold mbind, M_bind, andthen, lift. cbn [iterate].
  rewrite first_in_strs.
  destruct (find _ ms) as [metric|]; [done|].
  rewrite first_in_strs.
  by destruct (find _ ds) as [dimension|].
Qed.

Lemma tier_reason_some query (ms ds : list string) :
  is_Some (tier_reason query ms ds) ↔
    (∃ trigger, trigger ∈ EXTENDED_TRIGGERS
                ∧ contains trigger (lower query) = true)
    ∨ (∃ m, m ∈ ms ∧ m ∈ keys EXTENDED_METRICS)
    ∨ (∃ d, d ∈ ds ∧ d ∈ keys EXTENDED_DIMENSIONS).
Proof.
  unfold tier_reason. split.
  - destruct (find _ EXTENDED_TRIGGERS) as [t|] eqn:Et.
    { intros _. left. apply find_some in Et as [Hin Ht].
      exists t. by rewrite list_elem_of_In. }
    destruct (find _ ms) as [m|] eqn:Em.
    { intros _. right; left. apply find_some in Em as [Hin Hm].
      exists m. rewrite list_elem_of_In. split; [done|].
      by apply bool_decide_eq_true in Hm. }
    destruct (find _ ds) as [d|] eqn:Ed.
    { intros _. right; right. apply find_some in Ed as [Hin Hd].
      exists d. rewrite list_elem_of_In. split; [done|].
      by apply bool_decide_eq_true in Hd. }
    by intros [? ?].
  - intros [(t & Hin & Ht) | [(m & Hin & Hm) | (d & Hin & Hd)]].
    + destruct (find _ EXTENDED_TRIGGERS) eqn:Et; [done|].
      eapply find_none in Et; [|by apply list_elem_of_In]. congruence.
    + destruct (find _ EXTENDED_TRIGGERS); [done|].
      destruct (find _ ms) eqn:Em; [done|].
      eapply find_none in Em; [|by apply list_elem_of_In].
      by rewrite bool_decide_eq_true_2 in Em.
    + destruct (find _ EXTENDED_TRIGGERS); [done|].
      destruct (find _ ms); [done|].
      destruct (find _ ds) eqn:Ed; [done|].
      eapply find_none in Ed; [|by apply list_elem_of_In].
      by rewrite bool_decide_eq_true_2 in Ed.
Qed.

Lemma tier_reason_nonempty query ms ds reason :
  tier_reason query ms ds = Some reason → reason ≠ "".
Proof.
  unfold tier_reason.
  repeat (case_match; [intros [= <-]; discriminate|]). done.
Qed.

Lemma execute_keeps_tier W req : keeps_tier (execute W req).
Proof. by intros st. Qed.

Lemma _synthesize_response_keeps_state W query data json parsed st :
  (_synthesize_response W query data json parsed st).1 = st.
Proof.
  unfold _synthesize_response, mbind, M_bind, andthen, read_state, lift, ret.
  destruct json; [done|].
  destruct (explain W query data parsed); [|done].
  destruct (gt_int _ _) as [[]|]; done.
Qed.

Lemma _synthesize_response_keeps_tier W query data json parsed :
  keeps_tier (_synthesize_response W query data json parsed).
Proof. intros st. by rewrite _synthesize_response_keeps_state. Qed.

(** After the tier stage, [_resolve_and_validate] only reads the state. *)
Lemma _resolve_and_validate_state W query pm pd st :
  (_resolve_and_validate W query pm pd st).1
  = (_check_extended_triggers query pm pd st).1.
Proof.
  unfold _resolve_and_validate, mbind, M_bind, andthen, read_state, lift, ret.
  destruct (_check_extended_triggers query pm pd st) as [st1 [[]|e]]; [|done].
  simpl. repeat (case_match; simpl; try done).
Qed.

(** The tier stage never switches the tier off. *)
Lemma _check_extended_triggers_monotone query pm pd st :
  _extended_enabled st = true →
  _extended_enabled (_check_extended_triggers query pm pd st).1 = true.
Proof.
  intros Hon.
  unfold _check_extended_triggers, mbind, M_bind, andthen, lift, ret,
    enable_extended.
  repeat (case_match; simpl; try done).
Qed.

End analytics_pipeline.

(** ** C5: no property id, no execution *)

Section missing_property_id.
Import Py ResponseFormatter AnalyticsAgent.

(** C5.  When the caller supplies no property id and the agent has no
    default one, [process] answers with the guidance text, data null and
    agent "analytics", and [ga4_client.run_report] is not called: the log
    of calls is the one the request started with. *)
Theorem missing_property_id_guidance (W : world)
    (default_property_id property_id : option string)
    (query : string) (json_requested : bool) (st : agent_state) :
  absent property_id →
  absent default_property_id →
  let out := process W default_property_id query property_id
                     json_requested st in
  out.2 = mkResponse property_id_required None "analytics"
  ∧ data out.2 = None
  ∧ agent_used out.2 = "analytics"
  ∧ run_report_calls out.1 = run_report_calls st.
Proof.
  intros [-> | ->] [-> | ->]; done.
Qed.

(** The theorem for a request without property id on an agent without
    default. *)
Lemma missing_property_id_guidance_witness :
  (process sample_world None "sessions by country" None false
           (mkState false "" [])).2
  = mkResponse property_id_required None "analytics".
Proof.
  apply (missing_property_id_guidance sample_world None None
           "sessions by country" false (mkState false "" [])).
  - by left.
  - by left.
Defined.

End missing_property_id.

(** ** C4: activation of the extended tier *)

Section extended_tier.
Import Py PyStr ResponseFormatter AnalyticsAgent.

Lemma process_state_typed W dpid query pid json st a r (ms ds : list string) :
  py_or pid dpid = Some (String a r) →
  get_default (_parse_query (chat_extract W query)) "metrics" (PList [])
    = PList (PStr <$> ms) →
  get_default (_parse_query (chat_extract W query)) "dimensions" (PList [])
    = PList (PStr <$> ds) →
  tier (process W dpid query pid json st).1
  = match tier_reason query ms ds with
    | Some reason => (true, reason)
    | None => (false, "")
    end.
Proof.
  intros Hid Hms Hds.
  unfold process, process_body. rewrite Hid, Hms, Hds.
  unfold mbind at 1. unfold M_bind, andthen. cbn [reset_extended].
  unfold mbind at 1. unfold M_bind, andthen.
  pose proof (_resolve_and_validate_state W query (PList (PStr <$> ms))
                (PList (PStr <$> ds)) (mkState false "" (run_report_calls st)))
    as Hst.
  rewrite check_extended_triggers_typed in Hst. cbn [fst] in Hst.
  destruct (_resolve_and_validate W query _ _ _) as [st1 [checked|e]];
    cbn [fst] in Hst; subst st1.
  - unfold mbind, M_bind, andthen, execute.
    destruct (run_report W _) as [data|e].
    + pose proof (_synthesize_response_keeps_state W query data json
                    (_parse_query (chat_extract W query))) as Hsyn.
      match goal with
      | |- context [_synthesize_response W query data json ?p ?s] =>
          specialize (Hsyn s); destruct (_synthesize_response W query data json p s)
            as [st2 [resp|e]]
      end; cbn [fst] in Hsyn; subst st2; cbn [fst];
        by destruct (tier_reason query ms ds).
    + cbn [fst]. by destruct (tier_reason query ms ds).
  - cbn [fst]. by destruct (tier_reason query ms ds).
Qed.

(** A request without property id ends before the tier stage. *)
Lemma process_without_property_id W dpid query pid json st :
  absent pid → absent dpid →
  tier (process W dpid query pid json st).1 = (false, "").
Proof. intros [-> | ->] [-> | ->]; done. Qed.

(** A trigger keyword decides the tier stage before the parsed fields
    are looked at. *)
Lemma check_extended_triggers_keyword query pm pd st trigger :
  find (fun trigger => contains trigger (lower query)) EXTENDED_TRIGGERS
    = Some trigger →
  _check_extended_triggers query pm pd st
  = (mkState true ("query mentions '" +:+ trigger +:+ "'")
             (run_report_calls st), Ok tt).
Proof. intros H. unfold _check_extended_triggers. by rewrite H. Qed.

(** After the tier stage nothing writes the tier fields. *)
Lemma process_state_after_tier W dpid query pid json st a r :
  py_or pid dpid = Some (String a r) →
  tier (process W dpid query pid json st).1
  = tier (_check_extended_triggers query
            (get_default (_parse_query (chat_extract W query)) "metrics"
                         (PList []))
            (get_default (_parse_query (chat_extract W query)) "dimensions"
                         (PList []))
            (mkState false "" (run_report_calls st))).1.
Proof.
  intros Hid. unfold process, process_body. rewrite Hid.
  unfold mbind at 1. unfold M_bind, andthen. cbn [reset_extended].
  unfold mbind at 1. unfold M_bind, andthen.
  rewrite <- (_resolve_and_validate_state W).
  destruct (_resolve_and_validate W query _ _ _) as [st1 [checked|e]];
    cbn [fst]; [|done].
  unfold mbind, M_bind, andthen, execute.
  destruct (run_report W _) as [data|e]; [|done].
  match goal with
  | |- context [_synthesize_response W query data json ?p ?s] =>
      pose proof (_synthesize_response_keeps_state W query data json p s)
        as Hsyn;
      destruct (_synthesize_response W query data json p s)
        as [st2 [resp|e]]
  end; cbn [fst] in *; by subst st2.
Qed.

(** C4, counterexample.  A request without property id (none given, no
    default) whose query is "total revenue last week": the query
    contains the trigger keyword "revenue", and the extended tier is
    not enabled when [process] ends, because the missing property id
    stops the request before the tier stage.  Hence "enabled if and
    only if the query contains a trigger keyword or a parsed name is
    extended" does not hold for every request. *)
Lemma trigger_without_property_id :
  "revenue" ∈ EXTENDED_TRIGGERS
  ∧ contains "revenue" (lower "total revenue last week") = true
  ∧ _extended_enabled
      (process revenue_world None "total revenue last week" None false
               (mkState false "" [])).1 = false
  ∧ ¬ (∀ W default_property_id query property_id json_requested st,
         (∃ trigger, trigger ∈ EXTENDED_TRIGGERS
                     ∧ contains trigger (lower query) = true) →
         _extended_enabled
           (process W default_property_id query property_id
                    json_requested st).1 = true).
Proof.
  assert (Hin : "revenue" ∈ EXTENDED_TRIGGERS)
    by (apply list_elem_of_In; simpl; tauto).
  assert (Hc : contains "revenue" (lower "total revenue last week") = true)
    by (vm_compute; reflexivity).
  assert (Hoff : _extended_enabled
      (process revenue_world None "total revenue last week" None false
               (mkState false "" [])).1 = false) by reflexivity.
  split_and!; [exact Hin | exact Hc | exact Hoff |].
  intros H.
  specialize (H revenue_world None "total revenue last week" None false
                (mkState false "" [])
                (ex_intro _ "revenue" (conj Hin Hc))).
  rewrite Hoff in H. discriminate H.
Qed.

(** C4, amended.  A request without property id (none given and no
    default) never enables the tier: [process] resets the tier fields
    and answers before the tier stage.  For a request with a property
    id: a trigger keyword in the lower-cased query enables the tier
    whatever the parser returned; and when the parsed metrics and
    dimensions are lists of names, the tier is enabled when [process]
    ends if and only if the lower-cased query contains a trigger
    keyword, or a parsed metric is an extended metric, or a parsed
    dimension is an extended dimension.  An enabled tier carries a
    non-empty reason.  The switch is one-way: the tier stage never turns
    an enabled tier off, validation only reads the state after the tier
    stage, and execution and synthesis leave the tier fields
    unchanged. *)
Theorem extended_tier_activation (W : world)
    (default_property_id property_id : option string)
    (query : string) (json_requested : bool) (st : agent_state) :
  let final := (process W default_property_id query property_id
                        json_requested st).1 in
  (absent property_id → absent default_property_id →
   _extended_enabled final = false ∧ _extended_reason final = "")
  ∧ (∀ a r, py_or property_id default_property_id = Some (String a r) →
       ((∃ trigger, trigger ∈ EXTENDED_TRIGGERS
                    ∧ contains trigger (lower query) = true) →
        _extended_enabled final = true)
       ∧ (∀ ms ds : list string,
            get_default (_parse_query (chat_extract W query)) "metrics"
                        (PList []) = PList (PStr <$> ms) →
            get_default (_parse_query (chat_extract W query)) "dimensions"
                        (PList []) = PList (PStr <$> ds) →
            (_extended_enabled final = true ↔
               (∃ trigger, trigger ∈ EXTENDED_TRIGGERS
                           ∧ contains trigger (lower query) = true)
               ∨ (∃ m, m ∈ ms ∧ m ∈ keys EXTENDED_METRICS)
               ∨ (∃ d, d ∈ ds ∧ d ∈ keys EXTENDED_DIMENSIONS))
            ∧ (_extended_enabled final = true → _extended_reason final ≠ "")))
  ∧ (∀ pm pd s, _extended_enabled s = true →
       _extended_enabled (_check_extended_triggers query pm pd s).1 = true)
  ∧ (∀ pm pd s, (_resolve_and_validate W query pm pd s).1
                = (_check_extended_triggers query pm pd s).1)
  ∧ (∀ req, keeps_tier (execute W req))
  ∧ (∀ data parsed,
       keeps_tier (_synthesize_response W query data json_requested parsed)).
Proof.
  intros final. split_and!.
  - intros Hp Hd.
    pose proof (process_without_property_id W default_property_id query
                  property_id json_requested st Hp Hd) as Htier.
    fold final in Htier. unfold tier in Htier. by injection Htier.
  - intros a r Hid. split.
    + intros (trigger & Hin & Hc).
      pose proof (process_state_after_tier W default_property_id query
                    property_id json_requested st a r Hid) as Htier.
      fold final in Htier.
      destruct (find (fun trigger => contains trigger (lower query))
                     EXTENDED_TRIGGERS) as [t|] eqn:Ef.
      * rewrite (check_extended_triggers_keyword _ _ _ _ _ Ef) in Htier.
        unfold tier in Htier. cbn in Htier. by injection Htier.
      * eapply find_none in Ef; [|by apply list_elem_of_In]. congruence.
    + intros ms ds Hms Hds.
      pose proof (process_state_typed W default_property_id query property_id
                    json_requested st a r ms ds Hid Hms Hds) as Htier.
      fold final in Htier. unfold tier in Htier. split.
      * rewrite <- tier_reason_some.
        destruct (tier_reason query ms ds) as [reason|];
          injection Htier as -> _; split; try done.
      * destruct (tier_reason query ms ds) as [reason|] eqn:E;
          injection Htier as -> ->; [|done].
        intros _. by eapply tier_reason_nonempty.
  - apply _check_extended_triggers_monotone.
  - apply _resolve_and_validate_state.
  - apply execute_keeps_tier.
  - intros data parsed. apply _synthesize_response_keeps_tier.
Qed.

(** The theorem for a query without trigger keyword whose parsed metrics
    hold the extended metric "totalRevenue". *)
Lemma extended_tier_activation_witness :
  _extended_enabled
    (process revenue_world None "top pages"
       (Some "123") false (mkState false "" [])).1 = true.
Proof.
  destruct (extended_tier_activation revenue_world None
              (Some "123") "top pages" false
              (mkState false "" [])) as (_ & H & _).
  destruct (H "1"%char "23" eq_refl) as [_ Htyped].
  destruct (Htyped ["sessions"; "totalRevenue"] ["country"] eq_refl eq_refl)
    as [Hiff _].
  apply Hiff. right. left. exists "totalRevenue". split.
  - apply list_elem_of_In. simpl. tauto.
  - apply (bool_decide_unpack _). vm_compute. exact I.
Defined.

End extended_tier.

(** ** C10: the default metric is not an allowed metric *)

Section default_metric.
Import Py PyStr ResponseFormatter AnalyticsAgent.

Lemma find_unique {A : Type} (f : A → bool) (l l' : list A) (x : A) :
  l ≡ₚ l' →
  find f l' = Some x →
  (∀ y, y ∈ l' → f y = true → y = x) →
  find f l = Some x.
Proof.
  intros Hperm Hfind Huniq.
  apply find_some in Hfind as [Hx Hfx]. apply list_elem_of_In in Hx.
  destruct (find f l) as [y|] eqn:E.
  - apply find_some in E as [Hy Hfy]. apply list_elem_of_In in Hy.
    f_equal. apply Huniq; [by rewrite <- Hperm | done].
  - exfalso. eapply find_none in E; [|apply list_elem_of_In; by rewrite Hperm].
    congruence.
Qed.

Lemma find_unique_b (f : string → bool) (l l' : list string) (x : string) :
  l ≡ₚ l' →
  find f l' = Some x →
  forallb (fun y => negb (f y) || String.eqb y x) l' = true →
  find f l = Some x.
Proof.
  intros Hperm Hfind Hall. eapply find_unique; [done..|].
  intros y Hy Hfy. rewrite forallb_forall in Hall.
  specialize (Hall y (proj1 (list_elem_of_In _ _) Hy)).
  rewrite Hfy in Hall. by apply String.eqb_eq in Hall.
Qed.

(** The message for the field "users" does not depend on the order in
    which the allowlist is enumerated. *)
Lemma validation_message_users (all_fields : list string) (valid : gset string) :
  all_fields ≡ₚ elements valid →
  valid = keys CORE_METRICS
  ∨ valid = (keys CORE_METRICS ∪ keys EXTENDED_METRICS) →
  validation_message "users" "Metric" all_fields = users_not_valid.
Proof.
  intros Hperm Hvalid. unfold validation_message.
  assert (Hcm : close_matches "users" all_fields = ["newusers"; "activeusers"]).
  { unfold close_matches.
    rewrite (get_close_matches_perm _ _ (lower <$> elements valid));
      [|by rewrite Hperm].
    destruct Hvalid as [-> | ->]; vm_compute; reflexivity. }
  rewrite Hcm. unfold original_case. rewrite !bind_cons.
  rewrite (find_unique_b _ all_fields (elements valid) "newUsers" Hperm);
    [| destruct Hvalid as [-> | ->]; vm_compute; reflexivity
     | destruct Hvalid as [-> | ->]; vm_compute; reflexivity ].
  rewrite (find_unique_b _ all_fields (elements valid) "activeUsers" Hperm);
    [| destruct Hvalid as [-> | ->]; vm_compute; reflexivity
     | destruct Hvalid as [-> | ->]; vm_compute; reflexivity ].
  vm_compute. reflexivity.
Qed.

Lemma users_not_allowed :
  ("users" ∉ keys CORE_METRICS)
  ∧ ("users" ∉ keys CORE_METRICS ∪ keys EXTENDED_METRICS).
Proof.
  split; intros H%(bool_decide_pack _); vm_compute in H; exact H.
Qed.

Lemma default_metric_substituted (chat : result pyval) :
  no_metrics_extracted chat →
  get_default (_parse_query chat) "metrics" (PList []) = PList [PStr "users"].
Proof.
  destruct chat as [v|e]; [|done].
  destruct v as [| | | | | |result]; try done.
  intros Hno. simpl in Hno. unfold _parse_query, get_default.
  rewrite !lookup_ensure. simpl. by rewrite Hno.
Qed.

(** The tier stage of a request whose only metric is 'users'. *)
Lemma check_extended_triggers_users query dimensions st :
  _check_extended_triggers query (PList [PStr "users"]) dimensions st
  = match find (fun trigger => contains trigger (lower query))
               EXTENDED_TRIGGERS with
    | Some trigger =>
        (mkState true ("query mentions '" +:+ trigger +:+ "'")
                 (run_report_calls st), Ok tt)
    | None =>
        match scan_dimensions dimensions with
        | Ok (Some dimension) =>
            (mkState true ("dimension '" +:+ dimension
                             +:+ "' requires extended tier")
                     (run_report_calls st), Ok tt)
        | Ok None => (st, Ok tt)
        | Raise e => (st, Raise e)
        end
    end.
Proof.
  unfold _check_extended_triggers, scan_dimensions.
  destruct (find _ EXTENDED_TRIGGERS) as [trigger|]; [done|].
  unfold mbind, M_bind, andthen, lift. cbn [iterate first_in].
  destruct users_not_allowed as [_ Hext].
  assert (Hu : "users" ∉ keys EXTENDED_METRICS) by set_solver.
  rewrite (bool_decide_eq_false_2 _ Hu). cbn [first_in].
  destruct (iterate dimensions) as [ds|e]; cbn [bind]; [|done].
  by destruct (first_in (keys EXTENDED_DIMENSIONS) ds) as [[d|]|e].
Qed.

(** Validation of the metric list ['users'] fails in both tiers. *)
Lemma users_rejected W (st : agent_state) :
  set_order_ok W →
  validate_all W [PStr "users"]
    (if _extended_enabled st
     then keys CORE_METRICS ∪ keys EXTENDED_METRICS else keys CORE_METRICS)
    "Metric"
  = Raise (ValidationError users_not_valid).
Proof.
  intros Horder. destruct users_not_allowed as [Hcore Hext].
  cbn [validate_all _validate_field].
  destruct (_extended_enabled st).
  - rewrite (bool_decide_eq_false_2 _ Hext). cbn [bind].
    rewrite (validation_message_users _ _ (Horder _)); [done|by right].
  - rewrite (bool_decide_eq_false_2 _ Hcore). cbn [bind].
    rewrite (validation_message_users _ _ (Horder _)); [done|by left].
Qed.

(** What [process] does when the extraction gave no metric list. *)
Lemma process_default_metric W dpid query pid json st a r :
  set_order_ok W →
  py_or pid dpid = Some (String a r) →
  no_metrics_extracted (chat_extract W query) →
  process W dpid query pid json st
  = match _check_extended_triggers query (PList [PStr "users"])
            (get_default (_parse_query (chat_extract W query)) "dimensions"
                         (PList []))
            (mkState false "" (run_report_calls st)) with
    | (st1, Ok _) => (st1, mkResponse users_not_valid None "analytics")
    | (st1, Raise e) => (st1, handle e)
    end.
Proof.
  intros Horder Hid Hno. unfold process, process_body.
  rewrite Hid, (default_metric_substituted _ Hno).
  unfold mbind at 1. unfold M_bind, andthen. cbn [reset_extended].
  unfold mbind at 1. unfold M_bind, andthen.
  unfold _resolve_and_validate.
  unfold mbind at 1. unfold M_bind at 1. unfold andthen at 1.
  destruct (_check_extended_triggers query _ _ _) as [st1 [[]|e]]; [|done].
  unfold mbind, M_bind, andthen, read_state, lift. cbn [iterate].
  by rewrite (users_rejected W st1 Horder).
Qed.

(** C10, counterexample.  The extraction answers ["dimensions": null]
    and names no metric, so the parser substitutes the default metric
    'users'; the query has no trigger keyword.  The tier stage iterates
    over the parsed dimensions before any field is validated, and
    [None] is not iterable: the request ends in the generic error, an
    answer without suggestions.  Hence not every request that falls
    back to the default metric ends in the validation error. *)
Lemma null_dimensions_skip_validation :
  no_metrics_extracted
    (chat_extract null_dimensions_world "how many people visited")
  ∧ get_default
      (_parse_query
         (chat_extract null_dimensions_world "how many people visited"))
      "metrics" (PList []) = PList [PStr "users"]
  ∧ (process null_dimensions_world None "how many people visited"
             (Some "123") false (mkState false "" [])).2
    = mkResponse ("An error occurred processing your analytics query: "
                    +:+ "'NoneType' object is not iterable")
                 None "analytics"
  ∧ ¬ (∀ W default_property_id query property_id json_requested st a r,
         set_order_ok W →
         py_or property_id default_property_id = Some (String a r) →
         no_metrics_extracted (chat_extract W query) →
         (process W default_property_id query property_id
                  json_requested st).2
         = mkResponse users_not_valid None "analytics").
Proof.
  assert (E : (process null_dimensions_world None "how many people visited"
                       (Some "123") false (mkState false "" [])).2
              = mkResponse
                  ("An error occurred processing your analytics query: "
                     +:+ "'NoneType' object is not iterable")
                  None "analytics") by (vm_compute; reflexivity).
  split_and!; [reflexivity | reflexivity | exact E |].
  intros H.
  specialize (H null_dimensions_world None "how many people visited"
                (Some "123") false (mkState false "" []) "1"%char "23"
                (fun s => reflexivity _) eq_refl eq_refl).
  rewrite E in H. discriminate H.
Qed.

(** C10, amended.  The default metric 'users' belongs neither to
    CORE_METRICS nor to EXTENDED_METRICS.  Every request that reaches
    the parser (a property id is resolved) and whose extraction gave no
    metric list (it failed, or returned no metrics) ends without data
    and without a call of [run_report].  It ends in the validation error
    for 'users', whose answer names the suggestions 'newUsers' and
    'activeUsers', when the query contains a trigger keyword, and also
    when the loop of the tier stage over the parsed dimensions returns,
    in particular when the parsed dimensions are a list of names.  When
    the query has no trigger keyword and that loop raises (the parsed
    dimensions are not iterable, or hold a list or a dict), the request
    ends in the generic error with the text of that exception.  This
    holds whatever the order in which the interpreter enumerates the
    allowlist. *)
Theorem default_metric_fails_validation (W : world)
    (default_property_id property_id : option string)
    (query : string) (json_requested : bool) (st : agent_state)
    (a : ascii) (r : string) :
  set_order_ok W →
  py_or property_id default_property_id = Some (String a r) →
  no_metrics_extracted (chat_extract W query) →
  let out := process W default_property_id query property_id
                     json_requested st in
  let dimensions :=
    get_default (_parse_query (chat_extract W query)) "dimensions"
                (PList []) in
  ("users" ∉ keys CORE_METRICS)
  ∧ ("users" ∉ keys EXTENDED_METRICS)
  ∧ data out.2 = None
  ∧ agent_used out.2 = "analytics"
  ∧ run_report_calls out.1 = run_report_calls st
  ∧ ((∃ trigger, trigger ∈ EXTENDED_TRIGGERS
                 ∧ contains trigger (lower query) = true) →
     out.2 = mkResponse users_not_valid None "analytics")
  ∧ (∀ hit, scan_dimensions dimensions = Ok hit →
       out.2 = mkResponse users_not_valid None "analytics")
  ∧ (∀ ds : list string, dimensions = PList (PStr <$> ds) →
       out.2 = mkResponse users_not_valid None "analytics")
  ∧ (∀ e, (∀ trigger, trigger ∈ EXTENDED_TRIGGERS →
                      contains trigger (lower query) = false) →
          scan_dimensions dimensions = Raise e →
          out.2 = mkResponse
                    ("An error occurred processing your analytics query: "
                       +:+ exn_text e)
                    None "analytics").
Proof.
  intros Horder Hid Hno out dimensions.
  destruct users_not_allowed as [Hcore Hext].
  pose proof (process_default_metric W default_property_id query property_id
                json_requested st a r Horder Hid Hno) as Hout.
  fold out in Hout. fold dimensions in Hout.
  rewrite check_extended_triggers_users in Hout.
  assert (Hraise : ∀ e, scan_dimensions dimensions = Raise e →
            ∃ msg, e = TypeError msg).
  { unfold scan_dimensions. intros e.
    destruct (iterate dimensions) as [ds|e'] eqn:Ei; cbn [bind].
    - clear Ei. induction ds as [|v ds IH]; cbn [first_in]; [done|].
      destruct v; try done; try (intros [= <-]; by eexists).
      by destruct (bool_decide _).
    - intros [= <-]. destruct dimensions; try done;
        cbn in Ei; injection Ei as <-; by eexists. }
  assert (Hscan : ∀ hit, scan_dimensions dimensions = Ok hit →
            out.2 = mkResponse users_not_valid None "analytics").
  { intros hit Hhit. rewrite Hhit in Hout.
    destruct (find _ EXTENDED_TRIGGERS); [by rewrite Hout|].
    destruct hit; by rewrite Hout. }
  split_and!; [done | set_solver | | | | | exact Hscan | |].
  - destruct (find _ EXTENDED_TRIGGERS); [by rewrite Hout|].
    destruct (scan_dimensions dimensions) as [[d|]|e] eqn:Es;
      rewrite Hout; try done.
    destruct (Hraise e eq_refl) as [msg ->]. done.
  - destruct (find _ EXTENDED_TRIGGERS); [by rewrite Hout|].
    destruct (scan_dimensions dimensions) as [[d|]|e] eqn:Es;
      rewrite Hout; try done.
    destruct (Hraise e eq_refl) as [msg ->]. done.
  - destruct (find _ EXTENDED_TRIGGERS); [by rewrite Hout|].
    destruct (scan_dimensions dimensions) as [[d|]|e] eqn:Es;
      rewrite Hout; try done.
  - intros (trigger & Hin & Hc).
    destruct (find (fun trigger => contains trigger (lower query))
                   EXTENDED_TRIGGERS) as [t|] eqn:Ef; [by rewrite Hout|].
    eapply find_none in Ef; [|by apply list_elem_of_In]. congruence.
  - intros ds Hds. apply (Hscan (find (fun d => bool_decide
                                         (d ∈ keys EXTENDED_DIMENSIONS)) ds)).
    unfold scan_dimensions. rewrite Hds. cbn [iterate bind].
    apply first_in_strs.
  - intros e Hnone Hs.
    destruct (find (fun trigger => contains trigger (lower query))
                   EXTENDED_TRIGGERS) as [t|] eqn:Ef.
    { apply find_some in Ef as [Hin Ht]. apply list_elem_of_In in Hin.
      rewrite (Hnone t Hin) in Ht. discriminate Ht. }
    rewrite Hs in Hout. rewrite Hout.
    destruct (Hraise e Hs) as [msg ->]. done.
Qed.

(** The theorem for a request whose extraction fails. *)
Lemma default_metric_fails_validation_witness :
  (process sample_world None "how many people visited" (Some "123") false
           (mkState false "" [])).2
  = mkResponse users_not_valid None "analytics".
Proof.
  destruct (default_metric_fails_validation sample_world None (Some "123")
              "how many people visited" false (mkState false "" [])
              "1"%char "23") as (_ & _ & _ & _ & _ & _ & _ & Htyped & _).
  - intros s. reflexivity.
  - reflexivity.
  - exact I.
  - apply (Htyped []). reflexivity.
Defined.

End default_metric.

(** ** C7: the SEO synthesizer and its row band *)

Section seo_synthesizer.
Import Py ResponseFormatter SEOAgent.
Local Open Scope nat_scope.

Lemma max_of_le {X : Type} (f : X → nat) (b : nat) (l : list X) :
  Forall (fun x => f x ≤ b) l → max_of (map f l) ≤ b.
Proof. induction 1; simpl; lia. Qed.

Lemma Forall_set (P : pyval → Prop) (d : pydict) (k : string) (v : pyval) :
  Forall (fun kv => P kv.2) d → P v →
  Forall (fun kv => P kv.2) (Py.set d k v).
Proof.
  intros Hd Hv. induction Hd as [|[k0 w] d Hw Hd IH]; simpl.
  - by constructor.
  - destruct (String.eqb k0 k); constructor; done.
Qed.

(** The values of a record are scalars. *)
Lemma record_of_scalars (cols : list string) (kinds : list dtype)
    (row : list cell) :
  Forall (fun kv => nesting_depth kv.2 ≤ 0) (record_of cols kinds row).
Proof.
  unfold record_of.
  assert (H : ∀ l acc, Forall (fun kv : string * pyval => nesting_depth kv.2 ≤ 0) acc →
            Forall (fun kv => nesting_depth kv.2 ≤ 0)
                   (foldl (fun d '(c, (kind, v)) =>
                             Py.set d c (pyval_of_cell kind v)) acc l)).
  { induction l as [|[c [kind v]] l IH]; intros acc Hacc; simpl; [done|].
    apply IH. apply (Forall_set (fun v => nesting_depth v ≤ 0)); [done|].
    by destruct v, kind. }
  by apply H.
Qed.

Lemma nesting_depth_dict_le (d : pydict) (b : nat) :
  Forall (fun kv => nesting_depth kv.2 ≤ b) d → nesting_depth (PDict d) ≤ S b.
Proof.
  intros H. simpl. destruct d; [lia|].
  apply le_n_S. by apply (max_of_le (fun kv => nesting_depth kv.2)).
Qed.

Lemma nesting_depth_list_le (l : list pyval) (b : nat) :
  Forall (fun v => nesting_depth v ≤ b) l → nesting_depth (PList l) ≤ S b.
Proof.
  intros H. simpl. destruct l; [lia|].
  apply le_n_S. by apply max_of_le.
Qed.

(** The payload of a result frame is at most three levels deep: the dict,
    the list of rows, the row dicts. *)
Lemma data_dict_depth (df : DataFrame) :
  nesting_depth (PDict (data_dict df)) ≤ 3.
Proof.
  apply nesting_depth_dict_le. unfold data_dict.
  assert (Hcols : ∀ cs : list string, nesting_depth (PList (PStr <$> cs)) ≤ 2).
  { intros cs. etrans; [apply (nesting_depth_list_le _ 0)|lia].
    apply Forall_fmap, Forall_forall. intros c _. simpl. lia. }
  destruct (empty df).
  - apply List.Forall_cons; [simpl; lia|].
    apply List.Forall_cons; [simpl; lia|]. apply List.Forall_nil.
  - apply List.Forall_cons; [|apply List.Forall_cons;
                               [|apply List.Forall_cons; [|apply List.Forall_nil]]].
    + cbn [snd]. apply nesting_depth_list_le. unfold to_dict_records.
      apply Forall_fmap, Forall_forall. intros row _.
      apply nesting_depth_dict_le, record_of_scalars.
    + cbn [snd]. apply Hcols.
    + simpl. lia.
Qed.

Lemma data_dict_row_count (df : DataFrame) :
  empty df = false → row_count (Some (data_dict df)) = Some (nrows df).
Proof.
  intros He. unfold data_dict. rewrite He. unfold row_count. simpl.
  unfold to_dict_records. by rewrite length_fmap.
Qed.

(** A cell of a column of integers is rendered as a Python [int]: the
    counts of a grouping are integers in the payload, as in the records
    of [to_dict]. *)
Lemma count_cell_is_int (n : nat) :
  pyval_of_cell DInteger (CNum (qc_of_nat n)) = PInt (Z.of_nat n).
Proof.
  unfold pyval_of_cell, qc_of_nat, Qc_of_Z, Q2Qc. cbn [this Qnum Qden inject_Z].
  by rewrite Z.div_1_r.
Qed.

Lemma grouped_counts_are_ints :
  to_dict_records
    (_apply_grouping exact_percent crawl_frame "Indexability" "count")
  = [ PDict [("Indexability", PStr "Non-Indexable"); ("count", PInt 2)];
      PDict [("Indexability", PStr "Indexable"); ("count", PInt 1)] ].
Proof. vm_compute. reflexivity. Qed.

(** What the synthesizer returns for a non-empty result when JSON was not
    requested: the payload is attached for 11 to 100 rows, and for no
    other row count. *)
Lemma _synthesize_response_band (nl_answer : string) (df : DataFrame) :
  empty df = false →
  SEOAgent._synthesize_response nl_answer df false
  = Ok (mkResponse nl_answer
          (if (11 <=? nrows df) && (nrows df <=? 100)
           then Some (data_dict df) else None)
          "seo").
Proof.
  intros He. unfold SEOAgent._synthesize_response, SEOAgent._should_use_hybrid.
  rewrite He.
  destruct ((10 <=? nrows df) && (nrows df <=? 100)) eqn:Eband.
  - rewrite (format_response_select nl_answer "seo" (Some (data_dict df))
               false (nrows df) (data_dict_row_count df He)).
    unfold select.
    assert (Hemp : is_empty_payload (Some (data_dict df)) = false)
      by (unfold data_dict; by rewrite He).
    assert (Hsrc : source_count (Some (data_dict df)) = 0)
      by (unfold data_dict; by rewrite He).
    assert (Hdep : (3 <? nesting_depth
                           (PDict (default [] (Some (data_dict df))))) = false)
      by (apply Nat.ltb_ge, data_dict_depth).
    rewrite Hemp, Hsrc, Hdep.
    change (2 <=? 0) with false. rewrite !orb_false_r.
    apply andb_prop in Eband as [H10 H100].
    apply Nat.leb_le in H10. rewrite H100, andb_true_r.
    destruct (10 <? nrows df) eqn:E1; destruct (11 <=? nrows df) eqn:E2;
      try done.
    + apply Nat.ltb_lt in E1. apply Nat.leb_gt in E2. lia.
    + apply Nat.ltb_ge in E1. apply Nat.leb_le in E2. lia.
  - replace ((11 <=? nrows df) && (nrows df <=? 100)) with false; [done|].
    symmetry. apply andb_false_iff. apply andb_false_iff in Eband as [H|H].
    + left. apply Nat.leb_gt in H. apply Nat.leb_gt. lia.
    + by right.
Qed.

(** C7, at the boundary.  For a result of exactly ten rows (and at least
    one column) with JSON not requested, the SEO agent's own rule
    [10 <= row_count <= 100] selects the hybrid format, and still the
    response carries no payload: [ResponseFormatter._should_use_hybrid]
    asks for more than ten rows.  The payload is attached exactly for 11
    to 100 rows. *)
Theorem ten_rows_carry_no_payload (nl_answer : string) (df : DataFrame) :
  nrows df = 10 →
  columns df ≠ [] →
  SEOAgent._should_use_hybrid df = true
  ∧ SEOAgent._synthesize_response nl_answer df false
    = Ok (mkResponse nl_answer None "seo")
  ∧ (∀ df', empty df' = false →
       SEOAgent._synthesize_response nl_answer df' false
       = Ok (mkResponse nl_answer
               (if (11 <=? nrows df') && (nrows df' <=? 100)
                then Some (data_dict df') else None)
               "seo")).
Proof.
  intros Hrows Hcols.
  assert (He : empty df = false).
  { unfold empty. rewrite Hrows. destruct (columns df); done. }
  split_and!.
  - unfold SEOAgent._should_use_hybrid. by rewrite He, Hrows.
  - rewrite _synthesize_response_band by done. by rewrite Hrows.
  - intros df'. apply _synthesize_response_band.
Qed.

(** The theorem at a frame of ten rows with the single column Address. *)
Lemma ten_rows_carry_no_payload_witness :
  SEOAgent._synthesize_response "Ten pages have no title."
    (mkFrame ["Address"] [DObject] (replicate 10 [CStr "/page"])) false
  = Ok (mkResponse "Ten pages have no title." None "seo").
Proof.
  destruct (ten_rows_carry_no_payload "Ten pages have no title."
              (mkFrame ["Address"] [DObject] (replicate 10 [CStr "/page"])))
    as (_ & Hten & _).
  - reflexivity.
  - discriminate.
  - exact Hten.
Defined.

End seo_synthesizer.

(** ** C9: aggregation follows the submission order *)

Section aggregation_order.
Import Py ResponseFormatter Orchestrator.
Local Open Scope nat_scope.

Lemma gather_lookup (A : agents) (tasks : list pyval) (schedule : list nat) :
  ∀ (slots : list (option (result (option AgentResponse)))) (i : nat),
  List.length slots = List.length tasks →
  foldl (fun slots i =>
           match tasks !! i with
           | Some task => <[i := Some (execute_task A task)]> slots
           | None => slots
           end) slots schedule !! i
  = if bool_decide (i ∈ schedule)
    then (fun t => Some (execute_task A t)) <$> tasks !! i
    else slots !! i.
Proof.
  induction schedule as [|j schedule IH]; intros slots i Hlen; [done|].
  cbn [foldl]. rewrite IH; last first.
  { destruct (tasks !! j); [by rewrite length_insert|done]. }
  destruct (decide (i ∈ schedule)) as [Hin|Hnin].
  - rewrite !bool_decide_eq_true_2; [done| |done]. by right.
  - rewrite (bool_decide_eq_false_2 _ Hnin).
    destruct (decide (i = j)) as [->|Hne].
    + rewrite bool_decide_eq_true_2 by by left.
      destruct (tasks !! j) as [t|] eqn:Et; simpl.
      * apply list_lookup_insert_eq. rewrite Hlen.
        by eapply lookup_lt_Some.
      * apply lookup_ge_None. rewrite Hlen. by apply lookup_ge_None.
    + rewrite bool_decide_eq_false_2.
      * destruct (tasks !! j); [by rewrite list_lookup_insert_ne|done].
      * intros [?|?]%elem_of_cons; done.
Qed.

(** Whatever the order of completion, [gather] lists the outcomes in the
    order of the tasks. *)
Lemma gather_submission_order (A : agents) (schedule : list nat)
    (tasks : list pyval) :
  schedule ≡ₚ seq 0 (List.length tasks) →
  gather A schedule tasks = (fun t => Some (execute_task A t)) <$> tasks.
Proof.
  intros Hperm. apply list_eq. intros i. unfold gather.
  rewrite gather_lookup by by rewrite length_replicate.
  rewrite list_lookup_fmap.
  destruct (decide (i < List.length tasks)) as [Hlt|Hge].
  - rewrite bool_decide_eq_true_2; [done|].
    rewrite Hperm. apply list_elem_of_In, in_seq. lia.
  - rewrite bool_decide_eq_false_2.
    + rewrite (proj2 (lookup_ge_None tasks i)) by lia.
      apply lookup_ge_None. rewrite length_replicate. lia.
    + rewrite Hperm. intros Hin%list_elem_of_In%in_seq. lia.
Qed.

(** C9.  Let the decomposition be the two tasks [A; B], both of which
    return a response with non-empty data.  For every order in which the
    two calls complete, the results reach the aggregator as [A's; B's],
    the data map is source_1 = A's data, source_2 = B's data, this map is
    the data of the JSON response, and it is the only map that the
    narrative response can carry. *)
Theorem aggregation_in_submission_order (Ag : agents) (schedule : list nat)
    (query : string) (task_a task_b : pyval) (r_a r_b : AgentResponse)
    (kv_a kv_b : string * pyval) (d_a d_b : pydict) :
  schedule ≡ₚ [0; 1] →
  execute_task Ag task_a = Ok (Some r_a) →
  execute_task Ag task_b = Ok (Some r_b) →
  data r_a = Some (kv_a :: d_a) →
  data r_b = Some (kv_b :: d_b) →
  let results := _execute_tasks_parallel Ag schedule [task_a; task_b] in
  let sources := [ ("source_1", PDict (kv_a :: d_a));
                   ("source_2", PDict (kv_b :: d_b)) ] in
  results = [r_a; r_b]
  ∧ collect_data results = sources
  ∧ _aggregate_results Ag query results true
    = Ok ("Combined results from analytics and SEO data returned in JSON format",
          Some sources)
  ∧ (∀ unified_answer d,
       _aggregate_results Ag query results false = Ok (unified_answer, Some d) →
       d = sources).
Proof.
  intros Hperm Ha Hb Hda Hdb results sources.
  assert (Hres : results = [r_a; r_b]).
  { unfold results, _execute_tasks_parallel.
    rewrite gather_submission_order by done.
    csimpl. by rewrite Ha, Hb. }
  assert (Hcol : collect_data [r_a; r_b] = sources).
  { unfold collect_data. cbn [imap foldl]. rewrite Hda.
    unfold compose. cbn beta iota. rewrite Hdb. reflexivity. }
  rewrite Hres. split_and!; [done | done | |].
  - unfold _aggregate_results. by rewrite Hcol.
  - intros unified_answer d. unfold _aggregate_results. rewrite Hcol.
    destruct (unify Ag query _) as [ans|e]; [|done]. cbn [bind].
    destruct (Orchestrator._should_use_hybrid sources) as [[]|e]; cbn [bind];
      by intros [= <- <-] || done.
Qed.

(** The theorem with the SEO call completing before the analytics call. *)
Lemma aggregation_in_submission_order_witness :
  collect_data (_execute_tasks_parallel sample_agents [1; 0]
                  [analytics_task; seo_task])
  = [ ("source_1", PDict [("row_count", PInt 1)]);
      ("source_2", PDict [("total_rows", PInt 3)]) ].
Proof.
  destruct (aggregation_in_submission_order sample_agents [1; 0]
              "traffic and titles" analytics_task seo_task
              (mkResponse "42 sessions." (Some [("row_count", PInt 1)])
                          "analytics")
              (mkResponse "3 pages lack a title."
                          (Some [("total_rows", PInt 3)]) "seo")
              ("row_count", PInt 1) ("total_rows", PInt 3) [] [])
    as (_ & Hcollect & _).
  - apply Permutation_swap.
  - reflexivity.
  - reflexivity.
  - reflexivity.
  - reflexivity.
  - exact Hcollect.
Defined.

End aggregation_order.

(** ** C6: grouping and the order of the groups *)

Section grouping.
Import Py SEOAgent.
Local Open Scope nat_scope.

#[local] Instance cell_le_total : Total cell_le.
Proof.
  intros [s|p] [t|q]; unfold cell_le; try tauto.
  - apply String.leb_total.
  - destruct (Qclt_le_dec p q) as [H|H]; [left; by apply Qclt_le_weak|by right].
Qed.

#[local] Instance row_le_total i asc : Total (row_le i asc).
Proof. intros r1 r2. unfold row_le. destruct asc; apply cell_le_total. Qed.

Lemma position_head (name : string) (cols : list string) :
  position name (name :: cols) = 0.
Proof. simpl. by rewrite String.eqb_refl. Qed.

Lemma position_second (name other : string) (cols : list string) :
  other ≠ name → position name (other :: name :: cols) = 1.
Proof.
  intros Hne. simpl. rewrite (proj2 (String.eqb_neq _ _) Hne).
  by rewrite String.eqb_refl.
Qed.

Lemma group_keys_perm (keys : list cell) :
  group_keys keys ≡ₚ remove_dups keys.
Proof. apply merge_sort_Permutation. Qed.

Lemma group_keys_NoDup (keys : list cell) : NoDup (group_keys keys).
Proof. rewrite group_keys_perm. apply NoDup_remove_dups. Qed.

Lemma elem_of_group_keys (keys : list cell) (k : cell) :
  k ∈ group_keys keys ↔ k ∈ keys.
Proof. rewrite group_keys_perm. apply elem_of_remove_dups. Qed.

Lemma group_keys_ascending (keys : list cell) : ascending (group_keys keys).
Proof. apply Sorted_merge_sort, _. Qed.

Lemma groupby_size_keys (keys : list cell) :
  (groupby_size keys).*1 = group_keys keys.
Proof.
  unfold groupby_size. rewrite <- list_fmap_compose.
  apply list_fmap_id.
Qed.

(** Sorting the rows of a frame permutes each of its columns, and orders
    the column that the rows are sorted by. *)
Lemma sort_values_column (df : DataFrame) (by_ name : string) (asc : bool) :
  column (sort_values df by_ asc) name ≡ₚ column df name.
Proof.
  unfold column, sort_values. simpl.
  by rewrite merge_sort_Permutation.
Qed.

Lemma sort_values_descending (df : DataFrame) (by_ : string) :
  descending (column (sort_values df by_ false) by_).
Proof.
  unfold descending, column, sort_values. simpl.
  eapply Sorted_fmap; [|apply Sorted_merge_sort, _].
  intros r1 r2 H. exact H.
Qed.

Lemma size_frame_group_column (df : DataFrame) (g : string) :
  column (size_frame df g) g = group_keys (column df g).
Proof.
  unfold column at 1, size_frame. cbn [columns rows].
  rewrite position_head, <- list_fmap_compose.
  rewrite <- groupby_size_keys. by apply list_fmap_ext.
Qed.

Lemma percentage_frame_group_column percent (df : DataFrame) (g : string) :
  g ≠ "count" → g ≠ "percentage" →
  column (percentage_frame percent df g) g = group_keys (column df g).
Proof.
  intros Hc Hp. unfold column at 1, percentage_frame. cbn [columns rows].
  assert (Hnames : (Py.set (Py.set [(g, PNone)] "count" PNone)
                           "percentage" PNone).*1
                   = [g; "count"; "percentage"]).
  { simpl. rewrite (proj2 (String.eqb_neq _ _) Hc). simpl.
    by rewrite (proj2 (String.eqb_neq _ _) Hp). }
  rewrite Hnames, position_head, <- list_fmap_compose.
  rewrite <- groupby_size_keys. apply list_fmap_ext. intros i kc _. simpl.
  rewrite (proj2 (String.eqb_neq _ _) Hp).
  by rewrite (proj2 (String.eqb_neq _ _) Hc).
Qed.

Lemma agg_frame_group_column agg kind (df : DataFrame) (g : string) cols :
  column (agg_frame agg kind df g cols) g = group_keys (column df g).
Proof.
  unfold column at 1, agg_frame. cbn [columns rows].
  rewrite position_head, <- list_fmap_compose.
  rewrite <- (list_fmap_id (group_keys _)) at 2. by apply list_fmap_ext.
Qed.

(** What follows from a group column that lists the group keys. *)
Lemma one_row_per_value (out df : DataFrame) (g : string) :
  column out g ≡ₚ group_keys (column df g) →
  NoDup (column out g)
  ∧ (∀ k, k ∈ column out g ↔ k ∈ column df g)
  ∧ nrows out = List.length (remove_dups (column df g)).
Proof.
  intros Hperm. split_and!.
  - rewrite Hperm. apply group_keys_NoDup.
  - intros k. rewrite Hperm. apply elem_of_group_keys.
  - unfold nrows. rewrite <- (length_fmap (fun row => nth (position g (columns out)) row (CStr "")) (rows out)).
    fold (column out g). by rewrite Hperm, group_keys_perm.
Qed.

(** C6, counterexample.  Grouping the three crawled pages by Indexability
    with the aggregation "sum" yields the groups in the order of the
    group values, with the counts 1 and 2: ascending, not descending.
    The same holds for the sums of a numeric column. *)
Lemma sum_groups_are_not_sorted_by_value :
  rows (_apply_grouping exact_percent crawl_frame "Indexability" "sum")
    = [ [CStr "Indexable"; CNum (qc_of_nat 1)];
        [CStr "Non-Indexable"; CNum (qc_of_nat 2)] ]
  ∧ ¬ descending (column (_apply_grouping exact_percent crawl_frame
                            "Indexability" "sum") "count")
  ∧ rows (_apply_grouping exact_percent words_frame "Content Type" "sum")
    = [ [CStr "html"; CNum (qc_of_nat 10)];
        [CStr "pdf"; CNum (qc_of_nat 50)] ]
  ∧ ¬ descending (column (_apply_grouping exact_percent words_frame
                            "Content Type" "sum") "Word Count").
Proof.
  split_and!.
  - apply (bool_decide_unpack _). vm_compute. exact I.
  - unfold descending. intros H%(bool_decide_pack _). vm_compute in H. exact H.
  - apply (bool_decide_unpack _). vm_compute. exact I.
  - unfold descending. intros H%(bool_decide_pack _). vm_compute in H. exact H.
Qed.

(** C6, amended.  Let the group column be a single, non-numeric column of
    the frame whose name is neither "count" nor "percentage".  For each
    of the four aggregations the grouping stage replaces the rows by
    exactly one row per distinct value of the group column.  For "count"
    the rows are sorted descending by the count, for "percentage"
    descending by the percentage; for "sum" and "average" the rows come
    in ascending order of the group value, not sorted by the aggregate. *)
Theorem grouping_rows_and_order (percent : nat → nat → Qc) (df : DataFrame)
    (g aggregation : string) :
  count_occ string_dec (columns df) g = 1 →
  g ≠ "count" →
  g ≠ "percentage" →
  g ∉ numeric_columns df →
  aggregation ∈ ["count"; "percentage"; "sum"; "average"] →
  let out := _apply_grouping percent df g aggregation in
  NoDup (column out g)
  ∧ (∀ k, k ∈ column out g ↔ k ∈ column df g)
  ∧ nrows out = List.length (remove_dups (column df g))
  ∧ (aggregation = "count" → descending (column out "count"))
  ∧ (aggregation = "percentage" → descending (column out "percentage"))
  ∧ (aggregation = "sum" ∨ aggregation = "average" →
     ascending (column out g)).
Proof.
  intros Hocc Hc Hp Hnum Hagg out.
  assert (Hgc : String.eqb g "count" = false) by by apply String.eqb_neq.
  assert (Hsize : column (size_frame df g) g ≡ₚ group_keys (column df g))
    by by rewrite size_frame_group_column.
  rewrite !elem_of_cons, elem_of_nil in Hagg.
  destruct Hagg as [->|[->|[->|[->|[]]]]];
    unfold out, _apply_grouping; rewrite Hocc, Hgc; cbn [Nat.eqb negb String.eqb Ascii.eqb Bool.eqb andb].
  - (* count *)
    destruct (one_row_per_value
                (sort_values (size_frame df g) "count" false) df g)
      as (H1 & H2 & H3); [by rewrite sort_values_column|].
    split_and!; try done;
      try (intros ?; discriminate); try (intros [?|?]; discriminate).
    intros _. apply sort_values_descending.
  - (* percentage *)
    destruct (one_row_per_value
                (sort_values (percentage_frame percent df g) "percentage" false)
                df g) as (H1 & H2 & H3).
    { by rewrite sort_values_column, percentage_frame_group_column. }
    split_and!; try done;
      try (intros ?; discriminate); try (intros [?|?]; discriminate).
    intros _. apply sort_values_descending.
  - (* sum *)
    rewrite (bool_decide_eq_false_2 _ Hnum).
    destruct (0 <? List.length (numeric_columns df)).
    + destruct (one_row_per_value
                  (agg_frame sum_of (dtype_of df) df g (numeric_columns df))
                  df g)
        as (H1 & H2 & H3); [by rewrite agg_frame_group_column|].
      split_and!; try done;
      try (intros ?; discriminate); try (intros [?|?]; discriminate).
      intros _. rewrite agg_frame_group_column. apply group_keys_ascending.
    + destruct (one_row_per_value (size_frame df g) df g)
        as (H1 & H2 & H3); [done|].
      split_and!; try done;
      try (intros ?; discriminate); try (intros [?|?]; discriminate).
      intros _. rewrite size_frame_group_column. apply group_keys_ascending.
  - (* average *)
    rewrite (bool_decide_eq_false_2 _ Hnum).
    destruct (0 <? List.length (numeric_columns df)).
    + destruct (one_row_per_value
                  (agg_frame mean_of (fun _ => DNumber) df g
                             (numeric_columns df)) df g)
        as (H1 & H2 & H3); [by rewrite agg_frame_group_column|].
      split_and!; try done;
      try (intros ?; discriminate); try (intros [?|?]; discriminate).
      intros _. rewrite agg_frame_group_column. apply group_keys_ascending.
    + destruct (one_row_per_value (size_frame df g) df g)
        as (H1 & H2 & H3); [done|].
      split_and!; try done;
      try (intros ?; discriminate); try (intros [?|?]; discriminate).
      intros _. rewrite size_frame_group_column. apply group_keys_ascending.
Qed.

(** The theorem for the three crawled pages grouped by Indexability with
    the aggregation "count". *)
Lemma grouping_rows_and_order_witness :
  rows (_apply_grouping exact_percent crawl_frame "Indexability" "count")
    = [ [CStr "Non-Indexable"; CNum (qc_of_nat 2)];
        [CStr "Indexable"; CNum (qc_of_nat 1)] ]
  ∧ descending (column (_apply_grouping exact_percent crawl_frame
                          "Indexability" "count") "count").
Proof.
  split; [apply (bool_decide_unpack _); vm_compute; exact I|].
  destruct (grouping_rows_and_order exact_percent crawl_frame
              "Indexability" "count") as (_ & _ & _ & Hdesc & _).
  - reflexivity.
  - discriminate.
  - discriminate.
  - intros H%(bool_decide_pack _). vm_compute in H. exact H.
  - apply list_elem_of_In. simpl. tauto.
  - by apply Hdesc.
Defined.

End grouping.

(** ** Strings: prefixes, substrings, case and white space *)

Section string_facts.
Import PyStr PyText.
Local Open Scope nat_scope.

Lemma append_nil_l (s : string) : "" +:+ s = s.
Proof. reflexivity. Qed.

Lemma append_cons (c : ascii) (s t : string) :
  String c s +:+ t = String c (s +:+ t).
Proof. reflexivity. Qed.

Lemma append_nil_r (s : string) : s +:+ "" = s.
Proof. induction s as [|c s IH]; [done|]. by rewrite append_cons, IH. Qed.

Lemma append_assoc (s t u : string) : (s +:+ t) +:+ u = s +:+ (t +:+ u).
Proof. induction s as [|c s IH]; [done|]. by rewrite !append_cons, IH. Qed.

Lemma length_append (s t : string) :
  String.length (s +:+ t) = String.length s + String.length t.
Proof. induction s as [|c s IH]; [done|]. rewrite append_cons. simpl. by rewrite IH. Qed.

Lemma startswith_spec (p s : string) :
  startswith p s = true ↔ ∃ r, s = p +:+ r.
Proof.
  revert s. induction p as [|a p IH]; intros s; cbn [startswith].
  - split; [intros _; by exists s | done].
  - destruct s as [|b s].
    + split; [done | intros (r & Hr); by rewrite append_cons in Hr].
    + destruct (Ascii.eqb_spec a b) as [->|Hne].
      * rewrite IH. split; intros (r & Hr); exists r.
        -- by rewrite append_cons, Hr.
        -- rewrite append_cons in Hr. by injection Hr.
      * split; [done | intros (r & Hr)].
        rewrite append_cons in Hr. injection Hr; intros; done.
Qed.

Lemma contains_spec (needle hay : string) :
  contains needle hay = true ↔ ∃ p r, hay = p +:+ needle +:+ r.
Proof.
  induction hay as [|c hay IH].
  - cbn [contains]. rewrite orb_false_r, startswith_spec. split.
    + intros (r & Hr). by exists "", r.
    + intros ([|a p] & r & Hr); [by exists r | by rewrite append_cons in Hr].
  - cbn [contains]. rewrite orb_true_iff, startswith_spec, IH. split.
    + intros [(r & Hr) | (p & r & Hr)].
      * by exists "", r.
      * exists (String c p), r. by rewrite append_cons, Hr.
    + intros ([|a p] & r & Hr).
      * left. by exists r.
      * right. rewrite append_cons in Hr. injection Hr as -> ->. by exists p, r.
Qed.

(** A text that contains a phrase contains every part of the phrase. *)
Lemma contains_trans (part phrase hay : string) :
  contains part phrase = true → contains phrase hay = true →
  contains part hay = true.
Proof.
  rewrite !contains_spec. intros (p1 & r1 & ->) (p2 & r2 & ->).
  exists (p2 +:+ p1), (r1 +:+ r2). by rewrite !append_assoc.
Qed.

Lemma lower_ascii_idemp (c : ascii) : lower_ascii (lower_ascii c) = lower_ascii c.
Proof.
  unfold lower_ascii.
  destruct ((65 <=? nat_of_ascii c) && (nat_of_ascii c <=? 90)) eqn:E; [|by rewrite E].
  apply andb_prop in E as [E1 E2].
  apply Nat.leb_le in E1. apply Nat.leb_le in E2.
  rewrite nat_ascii_embedding by lia.
  replace (nat_of_ascii c + 32 <=? 90) with false; [by rewrite andb_false_r|].
  symmetry. apply Nat.leb_gt. lia.
Qed.

Lemma lower_idemp (s : string) : lower (lower s) = lower s.
Proof.
  induction s as [|c s IH]; simpl; [done|]. by rewrite lower_ascii_idemp, IH.
Qed.

(** A string that does not start with white space is its own [lstrip]. *)
Lemma lstrip_id (c : ascii) (s : string) :
  is_space c = false → lstrip (String c s) = String c s.
Proof. intros H. simpl. by rewrite H. Qed.

Lemma lstrip_head (s : string) :
  lstrip s = "" ∨ ∃ c t, lstrip s = String c t ∧ is_space c = false.
Proof.
  induction s as [|c s IH]; simpl; [by left|].
  destruct (is_space c) eqn:E; [done|]. right. by exists c, s.
Qed.

Lemma rstrip_head (c : ascii) (s : string) :
  is_space c = false → ∃ t, rstrip (String c s) = String c t.
Proof.
  intros H. cbn [rstrip]. destruct (rstrip s); [rewrite H|]; eauto.
Qed.

Lemma rstrip_cons (c : ascii) (s : string) :
  rstrip (String c s)
  = match rstrip s with
    | EmptyString => if is_space c then EmptyString else String c EmptyString
    | r => String c r
    end.
Proof. reflexivity. Qed.

Lemma rstrip_idemp (s : string) : rstrip (rstrip s) = rstrip s.
Proof.
  induction s as [|c s IH]; [done|]. rewrite rstrip_cons.
  destruct (rstrip s) as [|d r] eqn:E.
  - destruct (is_space c) eqn:Ec; [done|]. rewrite rstrip_cons. cbn [rstrip]. by rewrite Ec.
  - rewrite rstrip_cons, IH. done.
Qed.

Lemma strip_idemp (s : string) : strip (strip s) = strip s.
Proof.
  unfold strip. destruct (lstrip_head s) as [-> | (c & t & -> & Hc)]; [done|].
  destruct (rstrip_head c t Hc) as (u & Hu). rewrite Hu.
  rewrite lstrip_id by done. rewrite <- Hu. apply rstrip_idemp.
Qed.

(** A string without white space is its own [strip]. *)
Lemma rstrip_no_space (s : string) : no_space s = true → rstrip s = s.
Proof.
  induction s as [|c s IH]; [done|]. cbn [no_space rstrip].
  intros [Hc Hs]%andb_prop. rewrite (IH Hs).
  destruct s; [|done]. by destruct (is_space c).
Qed.

Lemma strip_no_space (s : string) : no_space s = true → strip s = s.
Proof.
  intros H. unfold strip. destruct s as [|c s]; [done|].
  pose proof H as H'. cbn [no_space] in H'. apply andb_prop in H' as [Hc _].
  rewrite lstrip_id by by destruct (is_space c).
  by apply rstrip_no_space.
Qed.

Lemma is_digit_not_space (c : ascii) : is_digit c = true → is_space c = false.
Proof.
  unfold is_digit, is_space. intros [H1 H2]%andb_prop.
  apply Nat.leb_le in H1. apply Nat.leb_le in H2.
  apply orb_false_iff. split; apply andb_false_iff.
  - right. apply Nat.leb_gt. lia.
  - right. apply Nat.leb_gt. lia.
Qed.

Lemma all_digits_no_space (s : string) : all_digits s = true → no_space s = true.
Proof.
  induction s as [|c s IH]; [done|]. cbn [all_digits no_space].
  intros [Hc Hs]%andb_prop. by rewrite (is_digit_not_space c Hc), IH.
Qed.

End string_facts.

(** ** Property ids: the gateway's check and the client's check *)

Section property_ids.
Import Py PyStr PyText.
Local Open Scope nat_scope.

Lemma is_digit_not_p (c : ascii) : is_digit c = true → Ascii.eqb "p" c = false.
Proof.
  intros H. destruct (Ascii.eqb_spec "p" c) as [<-|]; [|done].
  by vm_compute in H.
Qed.

Lemma remove_digits (s : string) :
  all_digits s = true → remove_from "properties/" 0 s = s.
Proof.
  induction s as [|c s IH]; [done|]. cbn [all_digits].
  intros [Hc Hs]%andb_prop. cbn [remove_from startswith].
  by rewrite (is_digit_not_p c Hc), IH.
Qed.

Lemma remove_prefixed (s : string) :
  all_digits s = true → remove "properties/" ("properties/" +:+ s) = s.
Proof.
  intros H. unfold remove.
  change ("properties/" +:+ s)
    with (String "p" (String "r" (String "o" (String "p" (String "e"
            (String "r" (String "t" (String "i" (String "e" (String "s"
            (String "/" s))))))))))).
  cbn [remove_from startswith Ascii.eqb Bool.eqb String.length Nat.sub].
  by apply remove_digits.
Qed.

Lemma isdigit_inv (s : string) :
  isdigit s = true → all_digits s = true ∧ ∃ c t, s = String c t.
Proof.
  unfold isdigit. intros [H1 H2]%andb_prop. split; [done|].
  destruct s as [|c t]; [done|]. by exists c, t.
Qed.

(** X1: a formatted id is accepted again, unchanged.  Whatever
    [validate_property_id] returns is "properties/" followed by a
    non-empty run of digits, and validating that value gives it back. *)
Theorem validate_property_id_round_trip (property_id : option string)
    (formatted : string) :
  GA4Client.validate_property_id property_id = Ok formatted →
  (∃ digits, formatted = "properties/" +:+ digits ∧ isdigit digits = true)
  ∧ GA4Client.validate_property_id (Some formatted) = Ok formatted.
Proof.
  unfold GA4Client.validate_property_id at 1.
  destruct property_id as [[|c p]|]; try done.
  destruct (isdigit (strip (remove "properties/" (String c p)))) eqn:E;
    cbn [negb]; [|done].
  intros [= <-]. set (digits := strip _) in *. split; [by exists digits|].
  apply isdigit_inv in E as Hd. destruct Hd as [Hall _].
  unfold GA4Client.validate_property_id.
  change ("properties/" +:+ digits) with (String "p" ("roperties/" +:+ digits)).
  change (String "p" ("roperties/" +:+ digits)) with ("properties/" +:+ digits).
  rewrite remove_prefixed by done.
  rewrite strip_no_space by by apply all_digits_no_space.
  by rewrite E.
Qed.

(** The theorem at the id 123456789 given with its prefix and a trailing
    blank. *)
Lemma validate_property_id_round_trip_witness :
  GA4Client.validate_property_id (Some "properties/123456789")
  = Ok "properties/123456789".
Proof.
  apply (validate_property_id_round_trip (Some "properties/123456789 ")
           "properties/123456789").
  reflexivity.
Defined.

(** X2: every property id that the gateway lets through is accepted by the
    GA4 client, which sends it as "properties/<id>". *)
Theorem gateway_property_id_accepted (v accepted : string) :
  Gateway.validate_property_id (Some v) = Gateway.Accepted (Some accepted) →
  GA4Client.validate_property_id (Some accepted)
  = Ok ("properties/" +:+ accepted).
Proof.
  unfold Gateway.validate_property_id.
  destruct (isdigit (strip v)) eqn:E; cbn [negb]; [|done].
  intros [= <-]. apply isdigit_inv in E as Hd.
  destruct Hd as (Hall & c & t & Hs).
  unfold GA4Client.validate_property_id. rewrite Hs, <- Hs.
  unfold remove. rewrite remove_digits by done.
  rewrite strip_no_space by by apply all_digits_no_space.
  by rewrite E.
Qed.

Lemma gateway_property_id_accepted_witness :
  GA4Client.validate_property_id (Some "123456789") = Ok "properties/123456789".
Proof.
  apply (gateway_property_id_accepted " 123456789 " "123456789").
  reflexivity.
Defined.

(** A query that passes the gateway reaches the orchestrator without
    surrounding white space, and is not empty. *)
Theorem accepted_query_is_trimmed (v query : string) :
  Gateway.query_not_empty v = Gateway.Accepted query →
  query = strip v ∧ query ≠ "" ∧ strip query = query.
Proof.
  unfold Gateway.query_not_empty.
  destruct (negb (truthy v) || String.eqb (strip v) "") eqn:E; [done|].
  intros [= <-]. apply orb_false_iff in E as [_ E].
  apply String.eqb_neq in E. split_and!; [done | done | apply strip_idemp].
Qed.

Lemma accepted_query_is_trimmed_witness :
  strip "top pages" = "top pages".
Proof.
  destruct (accepted_query_is_trimmed "  top pages " "top pages") as (_ & _ & H).
  - reflexivity.
  - exact H.
Defined.

End property_ids.

(** ** Orchestrator: format detection and routing *)

Section orchestrator_entry.
Import Py PyStr ResponseFormatter Orchestrator OrchestratorEntry.

(** X3: of the ten keywords of [_detect_json_request] two decide: the
    request is a JSON request exactly when the lower-cased query contains
    "json" or "structured data" (the other eight contain "json"). *)
Theorem json_request_two_keywords (query : string) :
  _detect_json_request query
  = contains "json" (lower query) || contains "structured data" (lower query).
Proof.
  unfold _detect_json_request, json_keywords. cbn [existsb].
  destruct (contains "json" (lower query)) eqn:E; [done|].
  assert (H : ∀ k, contains "json" k = true → contains k (lower query) = false).
  { intros k Hk. destruct (contains k (lower query)) eqn:Ek; [|done].
    by rewrite (contains_trans _ _ _ Hk Ek) in E. }
  rewrite (H "json format"), (H "return as json"), (H "give me json"),
    (H "output json"), (H "in json"), (H "as json"), (H "return json"),
    (H "format json") by reflexivity.
  cbn [orb]. by rewrite orb_false_r.
Qed.

(** X4: routing.  When the classifier answers, the request goes to the SEO
    agent if the trimmed, lower-cased reply is "seo", to the multi-agent
    pipeline if it is "multi-agent", and to the analytics agent for every
    other reply; the "Unknown intent" error of [process_query] is never
    raised. *)
Theorem process_query_routes (A : bool → agents) (response : string)
    (decompose_chat : result pyval) (schedule : list nat) (query : string) :
  process_query A (Ok response) decompose_chat schedule query
  = let json_requested := _detect_json_request query in
    let intent := lower (strip response) in
    if String.eqb intent "seo"
    then _route_to_seo (A json_requested) (PStr query)
    else if String.eqb intent "multi-agent"
    then _route_to_multi_agent (A json_requested) decompose_chat schedule
                               query json_requested
    else _route_to_analytics (A json_requested) (PStr query).
Proof.
  unfold process_query, _detect_intent. cbn [bind].
  set (intent := lower (strip response)).
  destruct (decide (intent ∈ intents)) as [Hin|Hnin].
  - rewrite bool_decide_eq_true_2 by done. cbn [bind]. cbv zeta.
    unfold intents in Hin.
    apply elem_of_cons in Hin as [->|Hin]; [done|].
    apply elem_of_cons in Hin as [->|Hin]; [done|].
    apply list_elem_of_singleton in Hin as ->. done.
  - rewrite bool_decide_eq_false_2 by done. cbn [bind]. cbv zeta.
    destruct (String.eqb_spec intent "seo") as [Hs|_].
    { exfalso. apply Hnin. rewrite Hs. unfold intents, INTENT_SEO.
      rewrite !elem_of_cons. tauto. }
    destruct (String.eqb_spec intent "multi-agent") as [Hm|_].
    { exfalso. apply Hnin. rewrite Hm. unfold intents, INTENT_MULTI.
      rewrite !elem_of_cons. tauto. }
    done.
Qed.

Lemma route_labels (A : agents) (decompose_chat : result pyval)
    (schedule : list nat) (query : string) (j : bool) (r : AgentResponse) :
  (_route_to_analytics A (PStr query) = Ok r → agent_used r = INTENT_ANALYTICS)
  ∧ (_route_to_seo A (PStr query) = Ok r → agent_used r = INTENT_SEO)
  ∧ (_route_to_multi_agent A decompose_chat schedule query j = Ok r →
     agent_used r = INTENT_MULTI).
Proof.
  split_and!.
  - unfold _route_to_analytics. destruct (analytics A _); [|done].
    by intros [= <-].
  - unfold _route_to_seo. destruct (seo A _); [|done]. by intros [= <-].
  - unfold _route_to_multi_agent.
    destruct (_decompose_query _ _); [|done]. cbn [bind].
    destruct (_aggregate_results _ _ _ _); [|done]. by intros [= <-].
Qed.

End orchestrator_entry.

(** ** Response validator *)

Section response_validator.
Import Py PyStr ResponseFormatter ResponseValidator.

Lemma has_key_lookup (d : pydict) (key : string) :
  has_key d key = true ↔ is_Some (Py.lookup d key).
Proof. unfold has_key. apply bool_decide_eq_true. Qed.

Lemma has_key_false (d : pydict) (key : string) :
  has_key d key = false ↔ Py.lookup d key = None.
Proof.
  unfold has_key. rewrite bool_decide_eq_false.
  by rewrite eq_None_not_Some.
Qed.

(** What [validate] accepts.  A response is accepted, with or without
    the warning about its agent, exactly when it has the three fields,
    its answer is a string that is not blank, and its data is [None] or
    a dict; the agent name never causes a rejection. *)
Theorem validate_accepts (response : pydict) (warned : bool) :
  validate response = Valid warned
  ↔ ∃ answer data agent,
      Py.lookup response "answer" = Some (PStr answer)
      ∧ strip answer ≠ ""
      ∧ Py.lookup response "data" = Some data
      ∧ (data = PNone ∨ ∃ d, data = PDict d)
      ∧ Py.lookup response "agent_used" = Some agent
      ∧ warned = unexpected_agent agent.
Proof.
  unfold validate, required_fields. cbn [find].
  destruct (has_key response "answer") eqn:Ha; cbn [negb]; last first.
  { apply has_key_false in Ha. split; [done|].
    intros (a & d & g & Hl & _). congruence. }
  destruct (has_key response "data") eqn:Hd; cbn [negb]; last first.
  { apply has_key_false in Hd. split; [done|].
    intros (a & d & g & _ & _ & Hl & _). congruence. }
  destruct (has_key response "agent_used") eqn:Hg; cbn [negb]; last first.
  { apply has_key_false in Hg. split; [done|].
    intros (a & d & g & _ & _ & _ & _ & Hl & _). congruence. }
  apply has_key_lookup in Ha as [a Ha], Hd as [d Hd], Hg as [g Hg].
  unfold Py.get. rewrite Ha, Hd, Hg. cbn [default from_option id].
  destruct a as [| | | |a| |];
    try (split; [done | intros (a' & d' & g' & [= ?] & _); done]).
  destruct (strip a) as [|c t] eqn:Es; cbn [PyStr.truthy negb].
  { split; [done|]. intros (a' & d' & g' & [= <-] & Hne & _). done. }
  destruct d as [| | | | | |d];
    try (split; [done | intros (a' & d' & g' & _ & _ & [= <-] & [?|[? ?]] & _); done]).
  - split.
    + intros [= <-]. exists a, PNone, g. rewrite Es. split_and!; eauto.
    + intros (a' & d' & g' & _ & _ & _ & _ & [= <-] & ->). done.
  - split.
    + intros [= <-]. exists a, (PDict d), g. rewrite Es. split_and!; eauto.
    + intros (a' & d' & g' & _ & _ & _ & _ & [= <-] & ->). done.
Qed.

Lemma validate_to_dict (r : AgentResponse) :
  strip (answer r) ≠ "" →
  validate (to_dict r)
  = Valid (negb (bool_decide (agent_used r ∈ valid_agents))).
Proof.
  intros Hne. apply validate_accepts.
  exists (answer r), (match data r with Some d => PDict d | None => PNone end),
         (PStr (agent_used r)).
  split_and!; try done.
  destruct (data r); eauto.
Qed.

(** X5: what the formatter returns passes the validator.  When JSON was
    requested, or the answer is not blank, the dict built by
    [format_response] is accepted, and the warning is logged exactly when
    the agent name is not one of the four known names. *)
Theorem formatted_response_validates (answer_ agent : string)
    (data_ : option pydict) (json_requested : bool) (r : AgentResponse) :
  format_response answer_ data_ agent json_requested = Ok r →
  json_requested = true ∨ strip answer_ ≠ "" →
  validate (to_dict r) = Valid (negb (bool_decide (agent ∈ valid_agents))).
Proof.
  intros Hr Hne. unfold format_response in Hr.
  destruct json_requested.
  - injection Hr as <-. by apply validate_to_dict.
  - destruct Hne as [?|Hne]; [done|].
    destruct (ResponseFormatter._should_use_hybrid data_) as [[]|]; cbn [bind] in Hr;
      [| |done]; injection Hr as <-; by apply validate_to_dict.
Qed.

Lemma formatted_response_validates_witness :
  validate (to_dict (mkResponse "Twelve pages lack a title." None "seo"))
  = Valid false.
Proof.
  apply (formatted_response_validates "Twelve pages lack a title." "seo"
           (Some [("total_rows", PInt 12)]) false).
  - reflexivity.
  - right. done.
Defined.

End response_validator.

Section orchestrator_responses.
Import Py PyStr ResponseFormatter Orchestrator OrchestratorEntry ResponseValidator.

(** X6: the label of an orchestrated response.  Whatever the agents put
    into [agent_used], a response of [process_query] carries the label of
    the route taken, one of "analytics", "seo" and "multi-agent"; with an
    answer that is not blank it passes the validator without warning. *)
Theorem orchestrated_response_label (A : bool → agents)
    (intent_chat : result string) (decompose_chat : result pyval)
    (schedule : list nat) (query : string) (r : AgentResponse) :
  process_query A intent_chat decompose_chat schedule query = Ok r →
  _detect_intent intent_chat = Ok (agent_used r)
  ∧ agent_used r ∈ intents
  ∧ (strip (answer r) ≠ "" → validate (to_dict r) = Valid false).
Proof.
  intros Hr.
  assert (Hlabel : _detect_intent intent_chat = Ok (agent_used r)
                   ∧ agent_used r ∈ intents).
  { unfold process_query in Hr.
    destruct (_detect_intent intent_chat) as [intent|] eqn:Ei; [|done].
    cbn [bind] in Hr.
    destruct (route_labels (A (_detect_json_request query)) decompose_chat
                schedule query (_detect_json_request query) r)
      as (Ha & Hs & Hm).
    destruct (String.eqb_spec intent INTENT_ANALYTICS) as [->|_].
    { rewrite (Ha Hr). unfold intents. split; [done|]. apply elem_of_cons. by left. }
    destruct (String.eqb_spec intent INTENT_SEO) as [->|_].
    { rewrite (Hs Hr). unfold intents. split; [done|].
      rewrite !elem_of_cons. tauto. }
    destruct (String.eqb_spec intent INTENT_MULTI) as [->|_]; [|done].
    rewrite (Hm Hr). unfold intents. split; [done|].
    rewrite !elem_of_cons. tauto. }
  destruct Hlabel as [H1 H2]. split_and!; [done | done |].
  intros Hne. rewrite validate_to_dict by done. f_equal.
  rewrite bool_decide_eq_true_2; [done|].
  revert H2. unfold intents, INTENT_ANALYTICS, INTENT_SEO, INTENT_MULTI.
  unfold valid_agents. rewrite !elem_of_cons, !elem_of_nil. tauto.
Qed.

Lemma orchestrated_response_label_witness :
  agent_used (mkResponse "3 pages lack a title."
                         (Some [("total_rows", PInt 3)]) "seo") ∈ intents.
Proof.
  destruct (orchestrated_response_label (fun _ => sample_agents)
              (Ok " SEO ") (Ok PNone) [] "pages without title"
              (mkResponse "3 pages lack a title."
                          (Some [("total_rows", PInt 3)]) "seo"))
    as (_ & H & _).
  - reflexivity.
  - exact H.
Defined.

End orchestrator_responses.

(** ** Data formatter *)

Section data_formatter.
Import Py DataFormatter.

Lemma slice_to_prefix {A : Type} (n : Z) (l : list A) :
  slice_to n l `prefix_of` l.
Proof. unfold slice_to. destruct (0 <=? n)%Z; apply prefix_take. Qed.

(** X7: [format_rows] reports what it returns.  The ['row_count'] entry
    is the length of the ['rows'] entry and the rows returned are a
    prefix of the rows given.  With no limit or a limit that is not
    negative, the ['truncated'] flag is present exactly when rows were
    dropped; with a positive limit [n] the rows returned are the first
    [n] rows (all of them when there are at most [n]). *)
Theorem format_rows_consistent (rows : list pyval) (row_limit : option Z) :
  ∃ kept : list pyval,
    Py.lookup (format_rows rows row_limit) "rows" = Some (PList kept)
    ∧ Py.lookup (format_rows rows row_limit) "row_count"
      = Some (PInt (Z.of_nat (List.length kept)))
    ∧ kept `prefix_of` rows
    ∧ ((0 ≤ default 0 row_limit)%Z →
       has_key (format_rows rows row_limit) "truncated" = true
       ↔ (List.length kept < List.length rows)%nat)
    ∧ (∀ n, row_limit = Some n → (0 < n)%Z → kept = take (Z.to_nat n) rows).
Proof.
  unfold format_rows.
  destruct (over_limit rows row_limit) eqn:E.
  - exists (slice_to (default 0%Z row_limit) rows).
    split_and!; [done | done | apply slice_to_prefix | |].
    + intros Hn. split; [intros _|done].
      destruct row_limit as [n|]; [|done]. cbn [default from_option id] in *.
      unfold over_limit in E. apply andb_prop in E as [E1 E2].
      apply negb_true_iff, Z.eqb_neq in E1. apply Z.ltb_lt in E2.
      unfold slice_to. rewrite (proj2 (Z.leb_le 0 n)) by done.
      rewrite length_take. lia.
    + intros n -> Hn. cbn [default from_option id]. unfold slice_to.
      by rewrite (proj2 (Z.leb_le 0 n)) by lia.
  - exists rows. split_and!; [done | done | done | |].
    + intros _. split; [done|lia].
    + intros n -> Hn. unfold over_limit in E.
      apply andb_false_iff in E as [E|E].
      * apply negb_false_iff, Z.eqb_eq in E. lia.
      * apply Z.ltb_ge in E. rewrite take_ge; [done|lia].
Qed.

End data_formatter.

(** ** GA4 client: the retry loop *)

Section ga4_retry.
Import Py PyStr GA4Client.
Local Open Scope nat_scope.

Lemma retry_from_step (api : nat → call_outcome) (attempt n : nat)
    (waits : list nat) :
  retried (api attempt) = true →
  retry_from api attempt (S n) waits
  = retry_from api (S attempt) n (waits ++ [BASE_DELAY * 2 ^ attempt]).
Proof.
  intros H. cbn [retry_from].
  destruct (api attempt) as [r|t|code t|t]; cbn [retried] in H; try done.
  by rewrite H.
Qed.

Lemma retry_from_stop (api : nat → call_outcome) (attempt n : nat)
    (waits : list nat) :
  retried (api attempt) = false →
  slept (retry_from api attempt (S n) waits) = waits
  ∧ calls (retry_from api attempt (S n) waits) = S attempt
  ∧ outcome (retry_from api attempt (S n) waits) ≠ Raise (GA4APIError unavailable).
Proof.
  intros H. cbn [retry_from].
  destruct (api attempt) as [r|t|code t|t]; cbn [retried] in H; try done.
  rewrite H. split_and!; [done | done |]. cbn [outcome]. by intros [= E].
Qed.

(** X8: the first report wins.  If one of the three attempts returns a
    report and every attempt before it failed with a rate limit or a
    transient error, [_execute_with_retry] returns that report; it has
    then made exactly that many calls and waited 1 s, 2 s, ... between
    them. *)
Theorem retry_returns_first_report (api : nat → call_outcome) (k : nat)
    (response : RunReportResponse) :
  k < MAX_RETRIES →
  (∀ i, i < k → retried (api i) = true) →
  api k = Returned response →
  _execute_with_retry api = mkRun (take k [1; 2; 4]) (S k) (Ok response).
Proof.
  unfold _execute_with_retry, MAX_RETRIES. intros Hk Hbefore Hret.
  destruct k as [|[|[|k]]]; [| | |lia].
  - cbn [retry_from]. by rewrite Hret.
  - rewrite retry_from_step by (apply Hbefore; lia).
    cbn [retry_from]. by rewrite Hret.
  - rewrite retry_from_step by (apply Hbefore; lia).
    rewrite retry_from_step by (apply Hbefore; lia).
    cbn [retry_from]. by rewrite Hret.
Qed.

(** The theorem for a report that arrives at the second attempt, after a
    rate limit. *)
Lemma retry_returns_first_report_witness :
  _execute_with_retry
    (fun attempt =>
       match attempt with
       | 0 => ResourceExhausted "429 Quota exceeded"
       | _ => Returned (mkReport ["country"] ["sessions"]
                                 [mkRow ["India"] ["42"]])
       end)
  = mkRun [1] 2 (Ok (mkReport ["country"] ["sessions"]
                              [mkRow ["India"] ["42"]])).
Proof.
  apply (retry_returns_first_report _ 1).
  - unfold MAX_RETRIES. lia.
  - intros [|i] Hi; [reflexivity|lia].
  - reflexivity.
Defined.

(** X9: bounds of the retry loop, and giving up.  [_execute_with_retry]
    calls the API at most three times and its waits are an initial part
    of 1 s, 2 s, 4 s.  It raises the "temporarily unavailable" error
    exactly when all three attempts fail with a rate limit or a transient
    error; it has then waited 1, 2 and 4 seconds, the last wait coming
    after the last attempt. *)
Theorem retry_bounds (api : nat → call_outcome) :
  calls (_execute_with_retry api) ≤ MAX_RETRIES
  ∧ slept (_execute_with_retry api) `prefix_of` [1; 2; 4]
  ∧ (outcome (_execute_with_retry api) = Raise (GA4APIError unavailable)
     ↔ ∀ i, i < MAX_RETRIES → retried (api i) = true)
  ∧ ((∀ i, i < MAX_RETRIES → retried (api i) = true) →
     _execute_with_retry api
     = mkRun [1; 2; 4] 3 (Raise (GA4APIError unavailable))).
Proof.
  unfold _execute_with_retry, MAX_RETRIES.
  assert (Hall : (∀ i, i < 3 → retried (api i) = true) →
                 retried (api 0) = true ∧ retried (api 1) = true
                 ∧ retried (api 2) = true).
  { intros H. split_and!; apply H; lia. }
  destruct (retried (api 0)) eqn:E0.
  2:{ destruct (retry_from_stop api 0 2 [] E0) as (Hs & Hc & Ho).
      rewrite Hs, Hc. split_and!; [lia | by exists [1; 2; 4] | |].
      - split; [done|]. intros H. apply Hall in H as (? & _). congruence.
      - intros H. apply Hall in H as (? & _). congruence. }
  rewrite retry_from_step by done.
  destruct (retried (api 1)) eqn:E1.
  2:{ destruct (retry_from_stop api 1 1 ([] ++ [BASE_DELAY * 2 ^ 0]) E1)
        as (Hs & Hc & Ho).
      rewrite Hs, Hc. split_and!; [lia | by exists [2; 4] | |].
      - split; [done|]. intros H. apply Hall in H as (? & ? & _). congruence.
      - intros H. apply Hall in H as (? & ? & _). congruence. }
  rewrite retry_from_step by done.
  destruct (retried (api 2)) eqn:E2.
  2:{ destruct (retry_from_stop api 2 0
                  (([] ++ [BASE_DELAY * 2 ^ 0]) ++ [BASE_DELAY * 2 ^ 1]) E2)
        as (Hs & Hc & Ho).
      rewrite Hs, Hc. split_and!; [lia | by exists [4] | |].
      - split; [done|]. intros H. apply Hall in H as (? & ? & ?). congruence.
      - intros H. apply Hall in H as (? & ? & ?). congruence. }
  rewrite retry_from_step by done. cbn [retry_from slept calls outcome].
  split_and!; [lia | done | | done].
  split; [|done]. intros _ i Hi.
  destruct i as [|[|[|i]]]; [done | done | done | lia].
Qed.

End ga4_retry.

(** ** GA4 client: the parsed report *)

Section ga4_report.
Import Py PyStr ResponseFormatter GA4Client.
Local Open Scope nat_scope.

Variable _parse_metric_value : string → string → pyval.

Lemma fill_from (headers : list string) (convert : string → string → pyval)
    (values : list string) : ∀ (k : nat) (d : pydict) (h : string),
  NoDup headers →
  Py.lookup
    (foldl (fun d '(i, v) =>
              match headers !! i with
              | Some h => Py.set d h (convert v h)
              | None => d
              end)
           d (imap (fun j => pair (k + j)) values)) h
  = match list_find (fun x => x = h) (drop k headers) with
    | Some (j, _) =>
        match values !! j with
        | Some v => Some (convert v h)
        | None => Py.lookup d h
        end
    | None => Py.lookup d h
    end.
Proof.
  induction values as [|v values IH]; intros k d h Hnd.
  - cbn [imap foldl]. destruct (list_find _ _) as [[j x]|]; [|done].
    by rewrite lookup_nil.
  - cbn [imap foldl]. rewrite Nat.add_0_r.
    rewrite (imap_ext _ (fun j => pair (S k + j))); last first.
    { intros j x _. unfold compose. f_equal. lia. }
    rewrite IH by done.
    destruct (headers !! k) as [hk|] eqn:Ek.
    + rewrite (drop_S _ _ _ Ek). rewrite lookup_set.
      cbn [list_find]. destruct (decide (hk = h)) as [->|Hne].
      * rewrite String.eqb_refl. cbn [lookup].
        destruct (list_find (λ x : string, x = h) (drop (S k) headers))
          as [[j x]|] eqn:Ef; [|done].
        exfalso. apply list_find_Some in Ef as (Hj & -> & _).
        rewrite lookup_drop in Hj.
        pose proof (proj1 (NoDup_alt headers) Hnd _ _ _ Ek Hj). lia.
      * rewrite (proj2 (String.eqb_neq hk h)) by done.
        destruct (list_find (λ x : string, x = h) (drop (S k) headers))
          as [[j x]|]; [|done].
        cbn [fmap option_fmap option_map prod_map fst snd]. done.
    + rewrite (drop_ge headers k); last by apply lookup_ge_None.
      rewrite (drop_ge headers (S k)); last (apply lookup_ge_None in Ek; lia).
      done.
Qed.

Lemma fill_lookup (headers : list string) (convert : string → string → pyval)
    (values : list string) (d : pydict) (i : nat) (h : string) :
  NoDup headers → headers !! i = Some h →
  Py.lookup (fill headers convert values d) h
  = match values !! i with
    | Some v => Some (convert v h)
    | None => Py.lookup d h
    end.
Proof.
  intros Hnd Hi. unfold fill.
  rewrite (imap_ext _ (fun j => pair (0 + j))) by done.
  rewrite fill_from by done. rewrite drop_0.
  destruct (list_find _ headers) as [[j x]|] eqn:Ef.
  - apply list_find_Some in Ef as (Hj & -> & _).
    by rewrite (proj1 (NoDup_alt headers) Hnd _ _ _ Hi Hj).
  - apply list_find_None in Ef. rewrite Forall_forall in Ef.
    exfalso. eapply Ef; [|done]. by eapply list_elem_of_lookup_2.
Qed.

Lemma fill_lookup_other (headers : list string)
    (convert : string → string → pyval) (values : list string) (d : pydict)
    (h : string) :
  NoDup headers → h ∉ headers →
  Py.lookup (fill headers convert values d) h = Py.lookup d h.
Proof.
  intros Hnd Hh. unfold fill.
  rewrite (imap_ext _ (fun j => pair (0 + j))) by done.
  rewrite fill_from by done. rewrite drop_0.
  destruct (list_find _ headers) as [[j x]|] eqn:Ef; [|done].
  apply list_find_Some in Ef as (Hj & -> & _).
  exfalso. apply Hh. by eapply list_elem_of_lookup_2.
Qed.

(** X10: a parsed row gives every value back under its header.  When the
    header names of the report are pairwise distinct, the dict built for
    a row maps the [i]-th dimension header to the [i]-th dimension value
    and the [i]-th metric header to the converted [i]-th metric value; a
    header beyond the values of the row has no entry. *)
Theorem row_dict_lookup (response : RunReportResponse) (row : Row)
    (i : nat) (h : string) :
  NoDup (dimension_headers response ++ metric_headers response) →
  (dimension_headers response !! i = Some h →
   Py.lookup (row_dict _parse_metric_value response row) h
   = PStr <$> dimension_values row !! i)
  ∧ (metric_headers response !! i = Some h →
     Py.lookup (row_dict _parse_metric_value response row) h
     = (fun v => _parse_metric_value v h) <$> metric_values row !! i).
Proof.
  intros Hnd. apply NoDup_app in Hnd as (Hd & Hdm & Hm).
  unfold row_dict. split; intros Hi.
  - rewrite fill_lookup_other; [|done|].
    + rewrite (fill_lookup _ _ _ _ i) by done.
      by destruct (dimension_values row !! i).
    + apply Hdm. by eapply list_elem_of_lookup_2.
  - rewrite (fill_lookup _ _ _ _ i) by done.
    destruct (metric_values row !! i); [done|].
    rewrite fill_lookup_other; [done | done |].
    intros Hin. by apply (Hdm h Hin), list_elem_of_lookup_2 with i.
Qed.

(** X11: the report decides the payload of the analytics answer.  The
    ['row_count'] of a parsed report is the number of its rows, so the
    analytics synthesizer, given a parsed report, returns it as data
    exactly when JSON was requested or the report has more than ten
    rows; otherwise the data is null. *)
Theorem parsed_report_payload (W : AnalyticsAgent.world)
    (response : RunReportResponse) (property_id : string)
    (metrics dimensions : list string) (start_date end_date : string)
    (dimension_filter metric_filter order_bys : pyval)
    (query : string) (json_requested : bool) (parsed : pydict)
    (st st' : AnalyticsAgent.agent_state) (r : AgentResponse) :
  let report :=
    _parse_response _parse_metric_value response property_id metrics
      dimensions start_date end_date dimension_filter metric_filter
      order_bys in
  AnalyticsAgent._synthesize_response W query report json_requested parsed st
  = (st', Ok r) →
  Py.get report "row_count" = PInt (Z.of_nat (List.length (rows response)))
  ∧ data r = if json_requested || (10 <? List.length (rows response))
             then Some report else None.
Proof.
  intros report Hr. split.
  { unfold report, _parse_response, get. cbn. by rewrite length_fmap. }
  revert Hr.
  unfold AnalyticsAgent._synthesize_response, mbind, AnalyticsAgent.M_bind,
    AnalyticsAgent.andthen, AnalyticsAgent.read_state, AnalyticsAgent.lift,
    AnalyticsAgent.ret.
  destruct json_requested; [by intros [= _ <-]|].
  destruct (AnalyticsAgent.explain W query report parsed); [|done].
  assert (Hrc : get_default report "row_count" (PInt 0)
                = PInt (Z.of_nat (List.length (rows response)))).
  { unfold report, _parse_response, get_default. cbn. by rewrite length_fmap. }
  rewrite Hrc. cbn [AnalyticsAgent.gt_int orb].
  replace (10 <? Z.of_nat (List.length (rows response)))%Z
    with (10 <? List.length (rows response)); last first.
  { destruct (Nat.ltb_spec 10 (List.length (rows response)));
      symmetry; [apply Z.ltb_lt | apply Z.ltb_ge]; lia. }
  destruct (10 <? List.length (rows response)); by intros [= _ <-].
Qed.

End ga4_report.

Section ga4_report_examples.
Import Py PyStr ResponseFormatter GA4Client.

(** The theorem for the report of one row, one dimension and one
    metric. *)
Lemma row_dict_lookup_witness :
  Py.lookup (row_dict (fun v _ => PStr v)
               (mkReport ["country"] ["sessions"] [mkRow ["India"] ["42"]])
               (mkRow ["India"] ["42"])) "sessions"
  = Some (PStr "42").
Proof.
  destruct (row_dict_lookup (fun v _ => PStr v)
              (mkReport ["country"] ["sessions"] [mkRow ["India"] ["42"]])
              (mkRow ["India"] ["42"]) 0 "sessions") as [_ H].
  - apply (bool_decide_unpack _). vm_compute. exact I.
  - apply H. reflexivity.
Defined.

(** The theorem for a report of one row: the narrative answer carries no
    data. *)
Lemma parsed_report_payload_witness :
  data (mkResponse "No data found for the specified query." None "analytics")
  = None.
Proof.
  destruct (parsed_report_payload (fun v _ => PStr v)
              AnalyticsAgent.sample_world
              (mkReport ["country"] ["sessions"] [mkRow ["India"] ["42"]])
              "123456789" ["sessions"] ["country"] "7daysAgo" "today"
              PNone PNone PNone "sessions by country" false []
              (AnalyticsAgent.mkState false "" [])
              (AnalyticsAgent.mkState false "" [])
              (mkResponse "No data found for the specified query." None
                          "analytics")) as [_ H].
  - reflexivity.
  - exact H.
Defined.

End ga4_report_examples.

(** ** Language model client: the retry loop *)

Section llm_retry.
Import Py PyStr PyText LLMClient.
Local Open Scope nat_scope.

Variable api : nat → call_outcome.
Variable json_loads : string → pyval + string.
Variable json_mode : bool.




Lemma chat_from_first : ∀ (n attempt k : nat) (t : token_usage)
    (waits : list nat) (c : string) (u : option usage),
  attempt + n = MAX_RETRIES → attempt ≤ k → k < MAX_RETRIES →
  (∀ i, attempt ≤ i → i < k → retried (api i) = true) →
  api k = Completion (Some c) u →
  let run := chat_from api json_loads json_mode attempt n t waits in
  calls run = S k
  ∧ tokens run = _update_usage t u
  ∧ outcome run = if json_mode then _parse_json_response json_loads c
                  else inl (PStr c).
Proof.
  unfold MAX_RETRIES.
  induction n as [|n IH]; intros attempt k t waits c u Hsum Hle Hk Hbefore Hc;
    [lia|].
  cbn [chat_from]. destruct (decide (attempt = k)) as [->|Hne].
  { rewrite Hc. done. }
  assert (Hr : retried (api attempt) = true) by (apply Hbefore; lia).
  assert (Hmore : (attempt <? MAX_RETRIES - 1) = true).
  { apply Nat.ltb_lt. unfold MAX_RETRIES. lia. }
  rewrite Hmore.
  destruct (api attempt) as [content u'|text|text|[code|] text|text];
    cbn [retried] in Hr; try done.
  - apply IH; [lia | lia | lia | | done]. intros i ? ?. apply Hbefore; lia.
  - apply IH; [lia | lia | lia | | done]. intros i ? ?. apply Hbefore; lia.
  - rewrite Hr.
    apply IH; [lia | lia | lia | | done]. intros i ? ?. apply Hbefore; lia.
Qed.

(** X13: the first completion is the answer.  If one of the five requests
    is completed with a content and every request before it failed with
    a rate limit, a timeout or a server error (status 500 or above),
    [chat] returns that content: as it is, or parsed when JSON mode is
    on.  It has made no further request, and the token counters have
    grown by the usage of that one completion. *)
Theorem chat_returns_first_completion (k : nat) (c : string)
    (u : option usage) (t : token_usage) :
  k < MAX_RETRIES →
  (∀ i, i < k → retried (api i) = true) →
  api k = Completion (Some c) u →
  calls (chat api json_loads json_mode t) = S k
  ∧ tokens (chat api json_loads json_mode t) = _update_usage t u
  ∧ outcome (chat api json_loads json_mode t)
    = if json_mode then _parse_json_response json_loads c else inl (PStr c).
Proof.
  intros Hk Hbefore Hc. unfold chat.
  apply (chat_from_first MAX_RETRIES 0 k); [done | lia | done | | done].
  intros i _ Hi. by apply Hbefore.
Qed.

End llm_retry.

Section llm_retry_examples.
Import Py PyStr PyText LLMClient.
Local Open Scope nat_scope.

(** The theorem for a reply that arrives after one rate limit and one
    timeout. *)
Lemma chat_returns_first_completion_witness :
  outcome (chat (fun attempt =>
                   match attempt with
                   | 0 => RateLimited "429"
                   | 1 => TimedOut "timed out"
                   | _ => Completion (Some "seo") (Some (mkTokens 120 1 121))
                   end)
                (fun _ => inr "not used") false (mkUsage 0 0 0 0))
  = inl (PStr "seo").
Proof.
  destruct (chat_returns_first_completion
              (fun attempt =>
                 match attempt with
                 | 0 => RateLimited "429"
                 | 1 => TimedOut "timed out"
                 | _ => Completion (Some "seo") (Some (mkTokens 120 1 121))
                 end)
              (fun _ => inr "not used") false 2 "seo"
              (Some (mkTokens 120 1 121)) (mkUsage 0 0 0 0))
    as (_ & _ & H).
  - unfold MAX_RETRIES. lia.
  - intros [|[|i]] Hi; [reflexivity | reflexivity | lia].
  - reflexivity.
  - exact H.
Defined.

End llm_retry_examples.

(** ** Language model client: markdown fences and the JSON instruction *)

Section llm_json.
Import Py PyStr PyText LLMClient.
Local Open Scope nat_scope.

Lemma drop_append (s t : string) : drop (String.length s) (s +:+ t) = t.
Proof.
  induction s as [|c s IH]; [by destruct t|]. by rewrite append_cons.
Qed.

Lemma take_append (s t : string) : take (String.length s) (s +:+ t) = s.
Proof.
  induction s as [|c s IH]; [by destruct t|].
  rewrite append_cons. cbn [String.length take]. by rewrite IH.
Qed.

Lemma endswith_append (s t : string) : endswith t (s +:+ t) = true.
Proof.
  unfold endswith. rewrite length_append.
  rewrite (proj2 (Nat.leb_le _ _)) by lia.
  replace (String.length s + String.length t - String.length t)
    with (String.length s) by lia.
  rewrite drop_append. cbn [andb]. apply String.eqb_refl.
Qed.

Lemma append_snoc_nonempty (s : string) (c : ascii) :
  ∃ d t, s +:+ String c "" = String d t.
Proof. destruct s as [|a s]; [by exists c, ""|]. rewrite append_cons. eauto. Qed.

(** A text whose last character is not white space is its own
    [rstrip]. *)
Lemma rstrip_snoc (s : string) (c : ascii) :
  is_space c = false → rstrip (s +:+ String c "") = s +:+ String c "".
Proof.
  intros Hc. induction s as [|a s IH].
  - rewrite append_nil_l. cbn [rstrip]. by rewrite Hc.
  - rewrite append_cons, rstrip_cons, IH.
    by destruct (append_snoc_nonempty s c) as (d & t & ->).
Qed.

(** Trailing white space does not count for [rstrip]. *)
Lemma rstrip_snoc_space (s : string) (c : ascii) :
  is_space c = true → rstrip (s +:+ String c "") = rstrip s.
Proof.
  intros Hc. induction s as [|a s IH].
  - rewrite append_nil_l. cbn [rstrip]. by rewrite Hc.
  - by rewrite append_cons, !rstrip_cons, IH.
Qed.

Lemma strip_fenced (c : ascii) (pre body : string) :
  is_space c = false →
  strip (String c pre +:+ body +:+ "```") = String c pre +:+ body +:+ "```".
Proof.
  intros Hc. unfold strip. rewrite append_cons, lstrip_id by done.
  rewrite <- append_cons.
  replace (String c pre +:+ body +:+ "```")
    with ((String c pre +:+ body +:+ "``") +:+ "`")
    by by rewrite !append_assoc.
  by apply rstrip_snoc.
Qed.

Lemma unfence_json (body : string) :
  unfence ("```json" +:+ body +:+ "```") = strip body.
Proof.
  unfold unfence.
  rewrite strip_fenced by done.
  rewrite (proj2 (startswith_spec "```json" _)) by by exists (body +:+ "```").
  rewrite !append_cons, append_nil_l. cbn [drop].
  rewrite endswith_append, length_append.
  replace (String.length body + String.length "```" - 3)
    with (String.length body) by (cbn; lia).
  by rewrite take_append.
Qed.

Lemma startswith_json_fence (body : string) :
  startswith "json" body = false →
  startswith "json" (body +:+ "```") = false.
Proof.
  destruct body as [|a [|b [|c [|d r]]]]; rewrite ?append_cons, ?append_nil_l;
    cbn [startswith]; intros H;
    repeat (match goal with
            | |- context [Ascii.eqb ?x ?y] => destruct (Ascii.eqb x y) eqn:?
            end; try done).
Qed.

Lemma unfence_plain (body : string) :
  startswith "json" body = false →
  unfence ("```" +:+ body +:+ "```") = strip body.
Proof.
  intros Hb. unfold unfence.
  rewrite strip_fenced by done.
  assert (Hj : startswith "```json" ("```" +:+ body +:+ "```") = false).
  { rewrite !append_cons, append_nil_l. cbn [startswith Ascii.eqb Bool.eqb].
    by apply startswith_json_fence. }
  rewrite Hj.
  rewrite (proj2 (startswith_spec "```" _)) by by exists (body +:+ "```").
  rewrite !append_cons, append_nil_l. cbn [drop].
  rewrite endswith_append, length_append.
  replace (String.length body + String.length "```" - 3)
    with (String.length body) by (cbn; lia).
  by rewrite take_append.
Qed.

Lemma unfence_bare (body : string) :
  startswith "```" (strip body) = false →
  endswith "```" (strip body) = false →
  unfence body = strip body.
Proof.
  intros H1 H2. unfold unfence.
  assert (Hj : startswith "```json" (strip body) = false).
  { destruct (startswith "```json" (strip body)) eqn:E; [|done].
    apply startswith_spec in E as (r & Hr).
    rewrite <- H1. symmetry. apply startswith_spec. exists ("json" +:+ r).
    by rewrite Hr. }
  rewrite Hj, H1, H2. apply strip_idemp.
Qed.

Lemma lstrip_append (s t : string) :
  lstrip s ≠ "" → lstrip (s +:+ t) = lstrip s +:+ t.
Proof.
  induction s as [|a s IH]; [done|]. rewrite append_cons. cbn [lstrip].
  destruct (is_space a); [exact IH|]. intros _. by rewrite append_cons.
Qed.

Lemma lstrip_snoc_space (s : string) (c : ascii) :
  is_space c = true → lstrip s = "" → lstrip (s +:+ String c "") = "".
Proof.
  intros Hc. induction s as [|a s IH].
  - intros _. rewrite append_nil_l. cbn [lstrip]. by rewrite Hc.
  - rewrite append_cons. cbn [lstrip]. by destruct (is_space a).
Qed.

Lemma strip_lines (body : string) : strip (nl +:+ body +:+ nl) = strip body.
Proof.
  unfold strip, nl. rewrite append_cons, append_nil_l.
  cbn [lstrip]. change (is_space (ascii_of_nat 10)) with true. cbv iota.
  destruct (lstrip body) as [|a r] eqn:El.
  - by rewrite lstrip_snoc_space.
  - rewrite lstrip_append by by rewrite El.
    rewrite El. by apply rstrip_snoc_space.
Qed.

(** X14: markdown fences are removed before parsing.  A reply wrapped in
    a ```json fence, or in a plain ``` fence, is parsed as the text
    between the fences without its surrounding white space; a reply
    that has no fence is parsed as it is, without its surrounding white
    space.  So a fenced reply, with or without line breaks inside the
    fence, gives what the bare reply gives. *)
Theorem fences_are_removed (json_loads : string → pyval + string)
    (body : string) :
  unfence ("```json" +:+ body +:+ "```") = strip body
  ∧ (startswith "json" body = false →
     unfence ("```" +:+ body +:+ "```") = strip body)
  ∧ (startswith "```" (strip body) = false →
     endswith "```" (strip body) = false →
     unfence body = strip body
     ∧ _parse_json_response json_loads ("```json" +:+ nl +:+ body +:+ nl +:+ "```")
       = _parse_json_response json_loads body).
Proof.
  split_and!; [apply unfence_json | apply unfence_plain |].
  intros H1 H2. split; [by apply unfence_bare|].
  unfold _parse_json_response.
  replace ("```json" +:+ nl +:+ body +:+ nl +:+ "```")
    with ("```json" +:+ (nl +:+ body +:+ nl) +:+ "```")
    by by rewrite !append_assoc.
  by rewrite unfence_json, strip_lines, unfence_bare.
Qed.

(** ** The JSON instruction and the caller's messages *)

Lemma append_longer (s t : string) : t ≠ "" → s +:+ t ≠ s.
Proof.
  intros Ht H. apply (f_equal String.length) in H.
  rewrite length_append in H. destruct t; [done|]. cbn in H. lia.
Qed.

(** X15: [_add_json_instruction] changes the caller's message.  When the
    last message is a user message, the instruction is appended to the
    content of that very dict: the list returned holds the same
    references as the list given, every other message is untouched, and
    the caller's own list, read after the call, shows the instruction;
    a second call on the same messages appends the instruction a second
    time. *)
Theorem json_instruction_is_shared (messages : list nat) (h : gmap nat message)
    (l : nat) (m : message) :
  last messages = Some l → h !! l = Some m → role m = "user" →
  let after := _add_json_instruction messages h in
  after.1 = messages
  ∧ after.2 !! l = Some (mkMessage "user" (content m +:+ json_instruction))
  ∧ (∀ l', l' ≠ l → after.2 !! l' = h !! l')
  ∧ read after.2 messages ≠ read h messages
  ∧ (_add_json_instruction messages after.2).2 !! l
    = Some (mkMessage "user"
              ((content m +:+ json_instruction) +:+ json_instruction)).
Proof.
  intros Hlast Hl Hrole after. unfold after, _add_json_instruction.
  rewrite Hlast, Hl, Hrole, String.eqb_refl. cbn [fst snd].
  split_and!.
  - done.
  - by rewrite lookup_insert_eq.
  - intros l' Hne. by rewrite lookup_insert_ne.
  - intros Heq. apply last_Some in Hlast as (front & ->).
    unfold read in Heq. rewrite !fmap_app in Heq.
    apply app_inj_2 in Heq as [_ Heq]; [|done].
    cbn in Heq. rewrite lookup_insert_eq, Hl in Heq.
    injection Heq as Heq. apply (f_equal content) in Heq. cbn [content] in Heq.
    apply (append_longer (content m) json_instruction); [|done].
    unfold json_instruction, nl. by rewrite append_cons.
  - rewrite lookup_insert_eq. cbn [role content].
    rewrite String.eqb_refl. cbn [snd]. by rewrite lookup_insert_eq.
Qed.

End llm_json.

Section llm_json_examples.
Import Py PyStr PyText LLMClient.
Local Open Scope nat_scope.

(** The theorem for the two messages that every caller builds: a system
    message and a user message. *)
Lemma json_instruction_is_shared_witness :
  (_add_json_instruction [0; 1]
     (<[1 := build_user_message "Parse this query: top pages" None]>
        (<[0 := build_system_message "a GA4 query parser" ""]> ∅))).1
  = [0; 1].
Proof.
  destruct (json_instruction_is_shared [0; 1]
              (<[1 := build_user_message "Parse this query: top pages" None]>
                 (<[0 := build_system_message "a GA4 query parser" ""]> ∅))
              1 (build_user_message "Parse this query: top pages" None))
    as (H & _).
  - reflexivity.
  - reflexivity.
  - reflexivity.
  - exact H.
Defined.

End llm_json_examples.

(** ** Orchestrator: numbering of the sources *)

Section source_numbering.
Import Py ResponseFormatter Orchestrator OrchestratorEntry.
Local Open Scope nat_scope.

Lemma source_key_eqb (i j : nat) :
  String.eqb ("source_" +:+ pretty (S j)) ("source_" +:+ pretty (S i))
  = bool_decide (j = i).
Proof.
  destruct (decide (j = i)) as [->|Hne].
  - by rewrite String.eqb_refl, bool_decide_eq_true_2.
  - rewrite bool_decide_eq_false_2 by done. apply String.eqb_neq.
    intros H. apply String.app_inj, pretty_nat_inj in H. lia.
Qed.

Lemma collect_from (results : list AgentResponse) :
  ∀ (k : nat) (acc : pydict) (i : nat),
  Py.lookup
    (foldl (fun all_data '(i, r) =>
              match data r with
              | Some ((_ :: _) as d) =>
                  Py.set all_data ("source_" +:+ pretty (S i)) (PDict d)
              | _ => all_data
              end)
           acc (imap (fun j => pair (k + j)) results))
    ("source_" +:+ pretty (S i))
  = match (if decide (k ≤ i) then data_at results (i - k) else None) with
    | Some v => Some v
    | None => Py.lookup acc ("source_" +:+ pretty (S i))
    end.
Proof.
  induction results as [|r results IH]; intros k acc i.
  - cbn [imap foldl]. unfold data_at. rewrite lookup_nil. by destruct (decide _).
  - rewrite imap_cons. cbn [foldl]. rewrite Nat.add_0_r.
    rewrite (imap_ext _ (fun j => pair (S k + j))); last first.
    { intros j x _. unfold compose. f_equal. lia. }
    rewrite IH.
    destruct (decide (S k ≤ i)) as [Hlt|Hge].
    + rewrite decide_True by lia.
      replace (i - k) with (S (i - S k)) by lia.
      change (data_at (r :: results) (S (i - S k)))
        with (data_at results (i - S k)).
      destruct (data_at results (i - S k)) as [v|]; [done|].
      destruct (data r) as [[|kv d]|]; try done.
      rewrite lookup_set, source_key_eqb.
      rewrite bool_decide_eq_false_2 by lia. done.
    + destruct (decide (k ≤ i)) as [Hle|Hgt].
      * assert (i = k) as -> by lia. rewrite Nat.sub_diag.
        unfold data_at. cbn.
        destruct (data r) as [[|kv d]|]; try done.
        rewrite lookup_set, source_key_eqb.
        by rewrite bool_decide_eq_true_2.
      * destruct (data r) as [[|kv d]|]; try done.
        rewrite lookup_set, source_key_eqb.
        rewrite bool_decide_eq_false_2 by lia. done.
Qed.

(** X16: sources are numbered by position.  In the data map of an
    aggregation, the key source_(i+1) holds the data of the result at
    position [i] (counting from 0) of the result list when that data is a
    non-empty dict, and is absent otherwise: a result without data leaves
    its number unused, and no data is overwritten. *)
Theorem sources_are_numbered_by_position (results : list AgentResponse)
    (i : nat) :
  Py.lookup (collect_data results) ("source_" +:+ pretty (S i))
  = data_at results i.
Proof.
  unfold collect_data.
  rewrite (imap_ext _ (fun j => pair (0 + j))) by done.
  rewrite collect_from. rewrite decide_True by lia. rewrite Nat.sub_0_r.
  by destruct (data_at results i).
Qed.

Lemma valid_results_nil
    (slots : list (option (result (option AgentResponse)))) :
  Forall (fun slot => ∀ r, slot ≠ Some (Ok (Some r))) slots →
  valid_results slots = [].
Proof.
  induction 1 as [|slot slots Hs _ IH]; [done|].
  unfold valid_results in *. cbn [mbind list_bind]. rewrite IH, app_nil_r.
  destruct slot as [[[r|]|]|]; try done. by destruct (Hs r).
Qed.

Lemma gather_slots (A : agents) (schedule : list nat) (tasks : list pyval)
    (i : nat) slot :
  gather A schedule tasks !! i = Some slot →
  slot = None ∨ ∃ t, t ∈ tasks ∧ slot = Some (execute_task A t).
Proof.
  unfold gather. rewrite gather_lookup by by rewrite length_replicate.
  destruct (bool_decide (i ∈ schedule)).
  - destruct (tasks !! i) as [t|] eqn:Et; [|done]. intros [= <-].
    right. exists t. split; [by eapply list_elem_of_lookup_2 | done].
  - intros H. apply lookup_replicate in H as [-> _]. by left.
Qed.

(** X17: when no task succeeds there is nothing to aggregate.  If no task
    of the decomposition returns a response (each names an unknown agent,
    or its agent raises), then, for every order of completion and
    whatever the format, the multi-agent route answers "Unable to process
    query with available agents." with data null, and the language model
    is not asked for a synthesis. *)
Theorem no_valid_result_no_answer (A : agents) (decompose_chat : result pyval)
    (schedule : list nat) (query : string) (json_requested : bool)
    (tasks : list pyval) :
  _decompose_query decompose_chat query = Ok tasks →
  (∀ t r, t ∈ tasks → execute_task A t ≠ Ok (Some r)) →
  _route_to_multi_agent A decompose_chat schedule query json_requested
  = Ok (mkResponse "Unable to process query with available agents." None
                   "multi-agent").
Proof.
  intros Hd Hfail. unfold _route_to_multi_agent. rewrite Hd. cbn [bind].
  unfold _execute_tasks_parallel. rewrite valid_results_nil; [done|].
  apply Forall_forall. intros slot Hslot r ->.
  apply list_elem_of_lookup in Hslot as [i Hi].
  apply gather_slots in Hi as [?|(t & Ht & [= Heq])]; [done|].
  by apply (Hfail t r).
Qed.

(** The theorem for a decomposition that names no known agent. *)
Lemma no_valid_result_no_answer_witness :
  _route_to_multi_agent sample_agents
    (Ok (PList [PDict [("agent", PStr "ads"); ("sub_query", PStr "spend")]]))
    [0] "ad spend" false
  = Ok (mkResponse "Unable to process query with available agents." None
                   "multi-agent").
Proof.
  apply (no_valid_result_no_answer sample_agents _ [0] "ad spend" false
           [PDict [("agent", PStr "ads"); ("sub_query", PStr "spend")]]).
  - reflexivity.
  - intros t r Ht. apply list_elem_of_singleton in Ht as ->. done.
Defined.

(** X18: a failed task shifts the numbers.  For a decomposition [A; B]
    where A's call fails (or names an unknown agent) and B returns
    non-empty data, the data map is source_1 = B's data: the numbers
    count the responses that were returned, not the tasks. *)
Theorem numbering_skips_failed_tasks (Ag : agents) (schedule : list nat)
    (task_a task_b : pyval) (r_b : AgentResponse) (kv : string * pyval)
    (d : pydict) :
  schedule ≡ₚ [0; 1] →
  (∀ r, execute_task Ag task_a ≠ Ok (Some r)) →
  execute_task Ag task_b = Ok (Some r_b) →
  data r_b = Some (kv :: d) →
  _execute_tasks_parallel Ag schedule [task_a; task_b] = [r_b]
  ∧ collect_data (_execute_tasks_parallel Ag schedule [task_a; task_b])
    = [("source_1", PDict (kv :: d))].
Proof.
  intros Hperm Ha Hb Hd.
  assert (Hres : _execute_tasks_parallel Ag schedule [task_a; task_b] = [r_b]).
  { unfold _execute_tasks_parallel. rewrite gather_submission_order by done.
    csimpl. rewrite Hb.
    destruct (execute_task Ag task_a) as [[r|]|]; try done. by destruct (Ha r). }
  rewrite Hres. split; [done|].
  unfold collect_data. cbn [imap foldl]. by rewrite Hd.
Qed.

(** The theorem for an analytics agent that raises. *)
Lemma numbering_skips_failed_tasks_witness :
  collect_data
    (_execute_tasks_parallel
       (mkAgents (fun _ => Raise (GA4APIError "quota"))
                 (seo sample_agents) (unify sample_agents))
       [1; 0] [analytics_task; seo_task])
  = [("source_1", PDict [("total_rows", PInt 3)])].
Proof.
  destruct (numbering_skips_failed_tasks
              (mkAgents (fun _ => Raise (GA4APIError "quota"))
                        (seo sample_agents) (unify sample_agents))
              [1; 0] analytics_task seo_task
              (mkResponse "3 pages lack a title."
                          (Some [("total_rows", PInt 3)]) "seo")
              ("total_rows", PInt 3) []) as [_ H].
  - apply Permutation_swap.
  - done.
  - reflexivity.
  - reflexivity.
  - exact H.
Defined.

End source_numbering.

(** ** Analytics agent: what reaches the GA4 client *)

Section analytics_requests.
Import Py PyStr ResponseFormatter AnalyticsAgent.

Lemma enable_extended_calls reason st :
  run_report_calls (enable_extended reason st).1 = run_report_calls st.
Proof. done. Qed.

Lemma _check_extended_triggers_calls query pm pd st :
  run_report_calls (_check_extended_triggers query pm pd st).1
  = run_report_calls st.
Proof.
  unfold _check_extended_triggers, mbind, M_bind, andthen, lift, ret,
    enable_extended.
  repeat (case_match; simpl; try done).
Qed.

Lemma validate_all_valid W (fields : list pyval) (valid_fields : gset string)
    (field_type : string) (vs : list string) :
  validate_all W fields valid_fields field_type = Ok vs →
  Forall (fun v => v ∈ valid_fields) vs.
Proof.
  revert vs. induction fields as [|f fields IH]; intros vs.
  - by intros [= <-].
  - cbn [validate_all].
    destruct (_validate_field W f valid_fields field_type) as [v|] eqn:Ev;
      [|done]. cbn [bind].
    destruct (validate_all W fields valid_fields field_type) as [vs'|];
      [|done]. cbn [bind]. intros [= <-].
    constructor; [|by apply IH].
    unfold _validate_field in Ev. destruct f; try done.
    destruct (bool_decide (s ∈ valid_fields)) eqn:E; [|done].
    injection Ev as <-. by apply bool_decide_eq_true in E.
Qed.

(** The names that the tier of [st] admits. *)
Lemma _resolve_and_validate_valid W query pm pd st st' ms ds :
  _resolve_and_validate W query pm pd st = (st', Ok (ms, ds)) →
  st' = (_check_extended_triggers query pm pd st).1
  ∧ Forall (fun m => m ∈ keys CORE_METRICS
                     ∨ _extended_enabled st' = true
                       ∧ m ∈ keys EXTENDED_METRICS) ms
  ∧ Forall (fun d => d ∈ keys CORE_DIMENSIONS
                     ∨ _extended_enabled st' = true
                       ∧ d ∈ keys EXTENDED_DIMENSIONS) ds.
Proof.
  unfold _resolve_and_validate, mbind, M_bind, andthen, read_state, lift, ret.
  destruct (_check_extended_triggers query pm pd st) as [st1 [[]|e]];
    [|done]. cbn [fst snd].
  destruct (iterate pm) as [lm|]; [|done].
  destruct (validate_all W lm _ "Metric") as [vm|] eqn:Em; [|done].
  destruct (iterate pd) as [ld|]; [|done].
  destruct (validate_all W ld _ "Dimension") as [vd|] eqn:Ed; [|done].
  intros [= <- <- <-]. split; [done|].
  apply validate_all_valid in Em, Ed. split.
  - eapply Forall_impl; [exact Em|]. intros m Hm. cbv beta in Hm.
    destruct (_extended_enabled st1); [|by left].
    apply elem_of_union in Hm as [?|?]; [by left | by right].
  - eapply Forall_impl; [exact Ed|]. intros d Hd. cbv beta in Hd.
    destruct (_extended_enabled st1); [|by left].
    apply elem_of_union in Hd as [?|?]; [by left | by right].
Qed.

(** X19: only validated requests reach the GA4 client.  One call of
    [process] calls [run_report] at most once.  The request it sends
    carries the caller's property id, or the default one when the caller
    gave none, and that id is not empty; every metric and every dimension
    of the request is on the core allowlist, or on the extended allowlist
    with the extended tier enabled for this request.  When the response
    carries data, that data is what [run_report] returned for this
    request. *)
Theorem run_report_is_allowlisted (W : world)
    (default_property_id : option string) (query : string)
    (property_id : option string) (json_requested : bool)
    (st : agent_state) :
  let out := process W default_property_id query property_id json_requested
                     st in
  (run_report_calls out.1 = run_report_calls st ∧ data out.2 = None)
  ∨ ∃ req,
      run_report_calls out.1 = run_report_calls st ++ [req]
      ∧ py_or property_id default_property_id = Some (req_property_id req)
      ∧ req_property_id req ≠ ""
      ∧ Forall (fun m => m ∈ keys CORE_METRICS
                         ∨ _extended_enabled out.1 = true
                           ∧ m ∈ keys EXTENDED_METRICS) (req_metrics req)
      ∧ Forall (fun d => d ∈ keys CORE_DIMENSIONS
                         ∨ _extended_enabled out.1 = true
                           ∧ d ∈ keys EXTENDED_DIMENSIONS) (req_dimensions req)
      ∧ (∀ d, data out.2 = Some d → run_report W req = Ok d).
Proof.
  intros out. unfold out, process, process_body.
  unfold mbind, M_bind, andthen, reset_extended.
  destruct (py_or property_id default_property_id) as [[|c p]|] eqn:Epid;
    [by left | | by left].
  set (st0 := mkState false "" (run_report_calls st)).
  set (parsed := _parse_query (chat_extract W query)).
  destruct (_resolve_and_validate W query _ _ st0) as [st1 [[ms ds]|e]] eqn:Er.
  2:{ left. cbn [fst snd]. split; [|by destruct e].
      pose proof (_resolve_and_validate_state W query
                    (get_default parsed "metrics" (PList []))
                    (get_default parsed "dimensions" (PList [])) st0) as Hs.
      rewrite Er in Hs. cbn [fst] in Hs. rewrite Hs.
      by rewrite _check_extended_triggers_calls. }
  apply _resolve_and_validate_valid in Er as (Hst1 & Hms & Hds).
  assert (Hcalls : run_report_calls st1 = run_report_calls st).
  { rewrite Hst1. by rewrite _check_extended_triggers_calls. }
  right. cbn [fst snd].
  set (req := mkRequest (String c p) ms ds _ _ _).
  exists req. unfold execute.
  destruct (run_report W req) as [d|e] eqn:Erun.
  - pose proof (_synthesize_response_keeps_state W query d json_requested parsed
                  (mkState (_extended_enabled st1) (_extended_reason st1)
                           (run_report_calls st1 ++ [req]))) as Hk.
    destruct (_synthesize_response W query d json_requested parsed _)
      as [st2 [r|e]] eqn:Esyn; cbn [fst snd] in *; subst st2; cbn.
    + rewrite Hcalls. split_and!; try done.
      intros d' Hd'. f_equal.
      revert Esyn.
      unfold _synthesize_response, mbind, M_bind, andthen, read_state, lift, ret.
      destruct json_requested.
      { intros [= <-]. cbn in Hd'. congruence. }
      destruct (explain W query d parsed); [|done].
      destruct (gt_int _ _) as [[]|]; [| |done]; intros [= <-]; cbn in Hd';
        congruence.
    + rewrite Hcalls. split_and!; try done. by destruct e.
  - cbn. rewrite Hcalls. split_and!; try done. by destruct e.
Qed.

End analytics_requests.

(** ** SEO schema resolver: the fuzzy match and the resolved column *)

Section seo_resolution.
Import PyStr SEOResolver.
Local Open Scope Qc_scope.

(** X20: the fuzzy match is the best match.  [_fuzzy_match] returns a
    candidate exactly when some candidate has a similarity of at least
    0.8 to the term; the candidate returned has the highest similarity
    of all, and is the first one of the list with that similarity. *)
Theorem fuzzy_match_is_best (term : string) (candidates : list string) :
  match _fuzzy_match term candidates with
  | Some c =>
      FUZZY_THRESHOLD ≤ Difflib.ratio (lower term) (lower c)
      ∧ ∃ pre post,
          candidates = pre ++ c :: post
          ∧ Forall (fun x => Difflib.ratio (lower term) (lower x)
                             < Difflib.ratio (lower term) (lower c)) pre
          ∧ Forall (fun x => Difflib.ratio (lower term) (lower x)
                             ≤ Difflib.ratio (lower term) (lower c)) post
  | None =>
      Forall (fun x => Difflib.ratio (lower term) (lower x) < FUZZY_THRESHOLD)
             candidates
  end.
Proof.
  unfold _fuzzy_match. destruct candidates as [|x0 xs]; [done|].
  pose proof (fuzzy_best term (x0 :: xs)) as [Hle Hbest]. cbv zeta in *.
  destruct (foldl (fuzzy_step (lower term)) (None, 0) (x0 :: xs))
    as [best_match best_ratio]. cbn [fst snd] in *.
  destruct (bool_decide (FUZZY_THRESHOLD ≤ best_ratio)) eqn:E.
  - apply bool_decide_eq_true in E.
    destruct best_match as [c|].
    + destruct Hbest as (Hr & pre & post & Heq & Hpre). subst best_ratio.
      split; [done|]. exists pre, post. split_and!; [done | done |].
      rewrite Heq in Hle. apply Forall_app in Hle as [_ Hle].
      by apply Forall_cons in Hle as [_ Hle].
    + subst best_ratio. exfalso.
      eapply Qclt_not_le; [exact threshold_positive | exact E].
  - apply bool_decide_eq_false in E. apply Qcnot_le_lt in E.
    eapply Forall_impl; [exact Hle|]. intros y Hy. cbv beta in Hy.
    by eapply Qcle_lt_trans.
Qed.

(** Whatever route resolves a term (alias, alias with fuzzy match,
    direct match or fuzzy match), the column returned is one of the
    available columns. *)
Lemma resolve_single_available (available : list string)
    (user_field column : string) (warning : option string) :
  _resolve_single_column available user_field = Resolved column warning →
  column ∈ available.
Proof.
  unfold _resolve_single_column, alias_step.
  destruct (COLUMN_ALIASES !! strip (lower user_field)) as [target|].
  - destruct (bool_decide (target ∈ available)) eqn:Et.
    { intros [= <- _]. by apply bool_decide_eq_true in Et. }
    destruct (_fuzzy_match target available) as [f|] eqn:Ef.
    { intros [= <- _]. by eapply _fuzzy_match_elem. }
    destruct (direct_step available user_field) as [col|] eqn:Ed.
    { intros [= <- _]. apply find_some in Ed as [Hc _].
      by apply list_elem_of_In. }
    destruct (_fuzzy_match user_field available) as [f|] eqn:Ef2; [|done].
    intros [= <- _]. by eapply _fuzzy_match_elem.
  - destruct (direct_step available user_field) as [col|] eqn:Ed.
    { intros [= <- _]. apply find_some in Ed as [Hc _].
      by apply list_elem_of_In. }
    destruct (_fuzzy_match user_field available) as [f|] eqn:Ef2; [|done].
    intros [= <- _]. by eapply _fuzzy_match_elem.
Qed.

(** X21: resolution does not depend on the case of the term.  Two terms
    that are equal up to case resolve to the same column by the same
    kind of route (with or without a warning), or both fail. *)
Theorem resolution_ignores_case (available : list string)
    (user_field user_field' : string) :
  lower user_field = lower user_field' →
  match _resolve_single_column available user_field,
        _resolve_single_column available user_field' with
  | Resolved c w, Resolved c' w' => c = c' ∧ (w = None ↔ w' = None)
  | Failed _, Failed _ => True
  | _, _ => False
  end.
Proof.
  intros Heq.
  assert (Hf : ∀ cs, _fuzzy_match user_field cs = _fuzzy_match user_field' cs).
  { intros cs. unfold _fuzzy_match. by rewrite Heq. }
  unfold _resolve_single_column, alias_step, direct_step.
  rewrite <- Heq, <- Hf.
  destruct (COLUMN_ALIASES !! strip (lower user_field)) as [target|].
  - destruct (bool_decide (target ∈ available)); [done|].
    destruct (_fuzzy_match target available); [done|].
    destruct (find _ available); [done|].
    by destruct (_fuzzy_match user_field available).
  - destruct (find _ available); [done|].
    by destruct (_fuzzy_match user_field available).
Qed.

(** The theorem for "STATUS CODE" and "status code". *)
Lemma resolution_ignores_case_witness :
  match _resolve_single_column ["Address"; "Status Code"] "STATUS CODE",
        _resolve_single_column ["Address"; "Status Code"] "status code" with
  | Resolved c w, Resolved c' w' => c = c' ∧ (w = None ↔ w' = None)
  | Failed _, Failed _ => True
  | _, _ => False
  end.
Proof. apply resolution_ignores_case. reflexivity. Defined.

End seo_resolution.

(** ** Google Sheets client: the worksheet chosen and the cache *)

Section sheets_worksheet.
Import PyStr SheetsClient.
Local Open Scope nat_scope.

Context {frame : Type}.
Variable worksheets : nat → string → exception + list string.
Variable worksheet : nat → string → string → option exception.

Local Notation "'find_worksheet'" :=
  (_find_worksheet frame worksheets worksheet).

(** The first element that [find] accepts. *)
Lemma find_first {A : Type} (f : A → bool) (l : list A) :
  match find f l with
  | Some x =>
      ∃ pre post, l = pre ++ x :: post ∧ f x = true
                  ∧ Forall (fun y => f y = false) pre
  | None => Forall (fun y => f y = false) l
  end.
Proof.
  induction l as [|a l IH]; cbn [find]; [done|].
  destruct (f a) eqn:E.
  - by exists [], l.
  - destruct (find f l) as [x|].
    + destruct IH as (pre & post & -> & Hx & Hpre).
      exists (a :: pre), post. split_and!; [done | done |].
      by constructor.
    + by constructor.
Qed.

Lemma default_tab_first (worksheet_titles : list string) :
  match default_tab worksheet_titles with
  | Some tab_name =>
      ∃ pre post, DEFAULT_TAB_NAMES = pre ++ tab_name :: post
                  ∧ tab_name ∈ worksheet_titles
                  ∧ Forall (fun t => t ∉ worksheet_titles) pre
  | None => Forall (fun t => t ∉ worksheet_titles) DEFAULT_TAB_NAMES
  end.
Proof.
  unfold default_tab.
  pose proof (find_first
                (fun tab_name => bool_decide (tab_name ∈ worksheet_titles))
                DEFAULT_TAB_NAMES) as H.
  destruct (find _ DEFAULT_TAB_NAMES) as [tab|].
  - destruct H as (pre & post & Heq & Htab & Hpre).
    exists pre, post. split_and!; [done | by apply bool_decide_eq_true in Htab |].
    eapply Forall_impl; [exact Hpre|]. intros t Ht.
    by apply bool_decide_eq_false in Ht.
  - eapply Forall_impl; [exact H|]. intros t Ht.
    by apply bool_decide_eq_false in Ht.
Qed.

(** X22: the worksheet that is read.  Let the spreadsheet list the
    worksheets [titles].  [_find_worksheet] raises
    [SheetsNotFoundError] when the list is empty.  When it returns, the
    worksheet is the first of "Internal", "All", "internal", "Sheet1",
    in this order, that is among the titles, wherever that worksheet
    stands in the spreadsheet; and when none of the four is among the
    titles, it is the first worksheet of a second listing.  It fails
    of its own accord only for the empty list: any other failure is the
    exception of the call [worksheet(tab_name)] for the chosen default
    name, the exception of the second listing, or the [IndexError] of
    an empty second listing. *)
Theorem worksheet_choice (sheet_id : string) (c : client frame)
    (titles : list string) :
  worksheets (List.length (api_calls c)) sheet_id = inr titles →
  let out := find_worksheet sheet_id c in
  (titles = [] →
   out.2 = inl (Raised (SheetsNotFoundError "Spreadsheet has no worksheets")))
  ∧ (∀ tab_name, out.2 = inr tab_name →
      titles ≠ []
      ∧ ("Internal" ∈ titles → tab_name = "Internal")
      ∧ ("Internal" ∉ titles → "All" ∈ titles → tab_name = "All")
      ∧ ("Internal" ∉ titles → "All" ∉ titles → "internal" ∈ titles →
         tab_name = "internal")
      ∧ ("Internal" ∉ titles → "All" ∉ titles → "internal" ∉ titles →
         "Sheet1" ∈ titles → tab_name = "Sheet1")
      ∧ ((∃ t, t ∈ DEFAULT_TAB_NAMES ∧ t ∈ titles) →
         tab_name ∈ DEFAULT_TAB_NAMES ∧ tab_name ∈ titles)
      ∧ ((∀ t, t ∈ DEFAULT_TAB_NAMES → t ∉ titles) →
         ∃ titles',
           worksheets (S (List.length (api_calls c))) sheet_id = inr titles'
           ∧ head titles' = Some tab_name))
  ∧ (∀ x, out.2 = inl x →
       (titles = []
        ∧ x = Raised (SheetsNotFoundError "Spreadsheet has no worksheets"))
       ∨ (∃ tab_name,
            default_tab titles = Some tab_name
            ∧ worksheet (S (List.length (api_calls c))) sheet_id tab_name
              = Some x)
       ∨ (titles ≠ [] ∧ default_tab titles = None
          ∧ (worksheets (S (List.length (api_calls c))) sheet_id = inl x
             ∨ (worksheets (S (List.length (api_calls c))) sheet_id = inr []
                ∧ x = OtherException "list index out of range")))).
Proof.
  intros Htitles out. unfold out, _find_worksheet. rewrite Htitles.
  split; [by intros ->|]. split; cycle 1.
  { intros x. destruct titles as [|t0 ts]; [intros [= <-]; by left|].
    intros Hx. right. revert Hx.
    cbv beta iota zeta. cbn [log api_calls]. rewrite !length_app.
    cbn [List.length]. rewrite !Nat.add_1_r.
    destruct (default_tab (t0 :: ts)) as [tab|] eqn:Etab.
    - intros Hx. left. exists tab. split; [done|].
      destruct (worksheet _ sheet_id tab) as [y|] eqn:Ew; [|done].
      by injection Hx as <-.
    - intros Hx. right. split_and!; [done | done |].
      destruct (worksheets (S (List.length (api_calls c))) sheet_id)
        as [y|[|first rest]] eqn:E2; [| |done].
      + injection Hx as <-. by left.
      + injection Hx as <-. by right. }
  intros tab_name. destruct titles as [|t0 ts]; [done|].
  pose proof (default_tab_first (t0 :: ts)) as Hfirst.
  set (titles := t0 :: ts) in *.
  destruct (default_tab titles) as [tab|] eqn:Etab.
  - destruct Hfirst as (pre & post & Heq & Hin & Hpre).
    destruct (worksheet _ sheet_id tab); [done|]. intros [= <-].
    assert (Hdef : tab ∈ DEFAULT_TAB_NAMES).
    { rewrite Heq. apply elem_of_app. right. by left. }
    unfold DEFAULT_TAB_NAMES in Heq.
    split_and!; try done.
    + intros Hi. destruct pre as [|p0 pre]; [by injection Heq|].
      injection Heq as <- _. by apply Forall_cons in Hpre as [Hp _].
    + intros Hi Ha. destruct pre as [|p0 pre]; [injection Heq as <-; done|].
      injection Heq as <- Heq.
      destruct pre as [|p1 pre]; [by injection Heq|].
      injection Heq as <- _.
      apply Forall_cons in Hpre as [_ Hpre].
      by apply Forall_cons in Hpre as [Hp _].
    + intros Hi Ha Hl. destruct pre as [|p0 pre]; [injection Heq as <-; done|].
      injection Heq as <- Heq.
      destruct pre as [|p1 pre]; [injection Heq as <-; done|].
      injection Heq as <- Heq.
      destruct pre as [|p2 pre]; [by injection Heq|].
      injection Heq as <- _.
      apply Forall_cons in Hpre as [_ Hpre].
      apply Forall_cons in Hpre as [_ Hpre].
      by apply Forall_cons in Hpre as [Hp _].
    + intros Hi Ha Hl Hs. destruct pre as [|p0 pre]; [injection Heq as <-; done|].
      injection Heq as <- Heq.
      destruct pre as [|p1 pre]; [injection Heq as <-; done|].
      injection Heq as <- Heq.
      destruct pre as [|p2 pre]; [injection Heq as <-; done|].
      injection Heq as <- Heq.
      destruct pre as [|p3 pre]; [by injection Heq|].
      injection Heq as <- Heq. by destruct pre.
    + intros Hnone. by destruct (Hnone tab Hdef).
  - rewrite Forall_forall in Hfirst.
    cbn [log api_calls]. rewrite length_app. cbn [List.length].
    rewrite Nat.add_1_r.
    destruct (worksheets (S (List.length (api_calls c))) sheet_id)
      as [x|[|first rest]] eqn:E2; try done.
    intros [= <-].
    split_and!; try done.
    + intros Hi. destruct (Hfirst "Internal"); [|done].
      unfold DEFAULT_TAB_NAMES. rewrite !elem_of_cons. tauto.
    + intros _ Ha. destruct (Hfirst "All"); [|done].
      unfold DEFAULT_TAB_NAMES. rewrite !elem_of_cons. tauto.
    + intros _ _ Hl. destruct (Hfirst "internal"); [|done].
      unfold DEFAULT_TAB_NAMES. rewrite !elem_of_cons. tauto.
    + intros _ _ _ Hs. destruct (Hfirst "Sheet1"); [|done].
      unfold DEFAULT_TAB_NAMES. rewrite !elem_of_cons. tauto.
    + intros (t & Ht & Hin). by destruct (Hfirst t Ht).
    + intros _. by exists (first :: rest).
Qed.

End sheets_worksheet.

Section sheets_cache.
Import PyStr SheetsClient.
Local Open Scope nat_scope.

Context {frame : Type}.
Variable empty_frame : frame.
Variable make_frame : list string → list (list string) → string + frame.
Variable columns_of : frame → list string.
Variable connect : option string.
Variable open_by_key : nat → string → option exception.
Variable worksheets : nat → string → exception + list string.
Variable worksheet : nat → string → string → option exception.
Variable get_all_values :
  nat → string → string → exception + list (list string).

Local Notation "'fetch'" :=
  (fetch_sheet frame empty_frame make_frame columns_of connect open_by_key
               worksheets worksheet get_all_values).
Local Notation "'columns'" :=
  (get_columns frame empty_frame make_frame columns_of connect open_by_key
               worksheets worksheet get_all_values).
Local Notation "'raised'" :=
  (raised_by open_by_key worksheets worksheet get_all_values).

Lemma ensure_connected_spec (c c' : client frame) (o : outcome unit) :
  _ensure_connected frame connect c = (c', o) →
  _cache c' = _cache c ∧ api_calls c' = api_calls c
  ∧ match o with
    | Done _ => connected c' = true
    | Fail e =>
        c' = c ∧ connected c = false
        ∧ ∃ msg, connect = Some msg ∧ e = SheetsAuthenticationError msg
    end.
Proof.
  unfold _ensure_connected. destruct (connected c) eqn:Ec.
  - by intros [= <- <-].
  - destruct connect as [msg|]; intros [= <- <-]; [|done].
    split_and!; try done. by exists msg.
Qed.

(** One run of the [try] block: the calls it makes, which of them
    raise, and what it leaves in the cache. *)
Lemma attempt_spec (sheet_id : string) (c c' : client frame)
    (r : exception + frame) :
  attempt frame empty_frame make_frame columns_of open_by_key worksheets
          worksheet get_all_values sheet_id c = (c', r) →
  connected c' = connected c
  ∧ ∃ calls,
      api_calls c' = api_calls c ++ calls
      ∧ (∀ i what, calls !! i = Some what →
           match raised (List.length (api_calls c) + i) what with
           | None => True
           | Some x => S i = List.length calls ∧ r = inl x
           end)
      ∧ match r with
        | inr df =>
            (∃ tab_name named,
                calls = calls_of_fetch sheet_id tab_name named
                ∧ (named = true → tab_name ∈ DEFAULT_TAB_NAMES))
            ∧ ∃ cols, _cache c' = <[sheet_id := (df, cols)]> (_cache c)
                      ∧ (cols = columns_of df ∨ df = empty_frame ∧ cols = [])
        | inl x =>
            _cache c' = _cache c
            ∧ (x = SpreadsheetNotFound →
               ∃ i what, calls !! i = Some what
                         ∧ S i = List.length calls
                         ∧ raised (List.length (api_calls c) + i) what
                           = Some x)
        end.
Proof.
  unfold attempt, _find_worksheet, log, store. cbn [api_calls connected _cache].
  rewrite !length_app. cbn [List.length].
  replace (List.length (api_calls c) + 1 + 1)
    with (List.length (api_calls c) + 2) by lia.
  replace (List.length (api_calls c) + 2 + 1)
    with (List.length (api_calls c) + 3) by lia.
  set (n := List.length (api_calls c)).
  destruct (open_by_key n sheet_id) as [x0|] eqn:E0.
  { intros [= <- <-]. split; [done|]. exists [OpenByKey sheet_id].
    split_and!; [done | | done |].
    - intros [|[|i]] what; cbn; try done. intros [= <-]. cbn.
      by rewrite Nat.add_0_r, E0.
    - intros ->. exists 0, (OpenByKey sheet_id). cbn.
      by rewrite Nat.add_0_r, E0. }
  destruct (worksheets (n + 1) sheet_id) as [x1|titles] eqn:E1.
  { intros [= <- <-]. split; [done|].
    exists [OpenByKey sheet_id; Worksheets sheet_id].
    split_and!; [by rewrite <- app_assoc | | done |].
    - intros [|[|[|i]]] what; cbn; try done; intros [= <-]; cbn.
      + by rewrite Nat.add_0_r, E0.
      + by rewrite E1.
    - intros ->. exists 1, (Worksheets sheet_id). cbn. by rewrite E1. }
  destruct titles as [|t0 ts].
  { intros [= <- <-]. split; [done|].
    exists [OpenByKey sheet_id; Worksheets sheet_id].
    split_and!; [by rewrite <- app_assoc | | done | done].
    intros [|[|[|i]]] what; cbn; try done; intros [= <-]; cbn.
    - by rewrite Nat.add_0_r, E0.
    - by rewrite E1. }
  pose proof (default_tab_first (t0 :: ts)) as Hfirst.
  destruct (default_tab (t0 :: ts)) as [tab|].
  - assert (Hdef : tab ∈ DEFAULT_TAB_NAMES).
    { destruct Hfirst as (pre & post & -> & _). apply elem_of_app. right. by left. }
    destruct (worksheet (n + 2) sheet_id tab) as [x2|] eqn:E2.
    { intros [= <- <-]. split; [done|].
      exists [OpenByKey sheet_id; Worksheets sheet_id; Worksheet sheet_id tab].
      split_and!; [by rewrite <- !app_assoc | | done |].
      - intros [|[|[|[|i]]]] what; cbn; try done; intros [= <-]; cbn.
        + by rewrite Nat.add_0_r, E0.
        + by rewrite E1.
        + by rewrite E2.
      - intros ->. exists 2, (Worksheet sheet_id tab). cbn. by rewrite E2. }
    assert (Hcalls : ∀ i what,
              calls_of_fetch sheet_id tab true !! i = Some what →
              ∀ r' : exception + frame,
              (∀ x, get_all_values (n + 3) sheet_id tab = inl x → r' = inl x) →
              match raised (n + i) what with
              | None => True
              | Some x =>
                  S i = List.length (calls_of_fetch sheet_id tab true)
                  ∧ r' = inl x
              end).
    { intros [|[|[|[|i]]]] what; cbn; try done; intros [= <-] r' Hr'; cbn.
      - by rewrite Nat.add_0_r, E0.
      - by rewrite E1.
      - by rewrite E2.
      - destruct (get_all_values (n + 3) sheet_id tab) as [x|vs] eqn:E3;
          [|done]. split; [done|]. by apply Hr'. }
    cbv beta iota zeta. cbn [api_calls connected _cache].
    rewrite !length_app. cbn [List.length]. fold n.
    replace (n + 1 + 1 + 1) with (n + 3) by lia.
    destruct (get_all_values (n + 3) sheet_id tab)
      as [x3|[|headers data]] eqn:E3.
    + intros [= <- <-]. split; [done|].
      exists (calls_of_fetch sheet_id tab true).
      split_and!; [by rewrite <- !app_assoc | | done |].
      * intros i what Hi. apply (Hcalls i what Hi). by intros x [= <-].
      * intros ->. exists 3, (GetAllValues sheet_id tab). cbn. by rewrite E3.
    + intros [= <- <-]. split; [done|].
      exists (calls_of_fetch sheet_id tab true).
      split_and!; [by rewrite <- !app_assoc | | by exists tab, true |].
      * intros i what Hi. apply (Hcalls i what Hi). by intros x.
      * exists []. split; [done|]. by right.
    + destruct (make_frame headers data) as [text|df]; intros [= <- <-];
        (split; [done|]); exists (calls_of_fetch sheet_id tab true).
      * split_and!; [by rewrite <- !app_assoc | | done | done].
        intros i what Hi. apply (Hcalls i what Hi). by intros x.
      * split_and!; [by rewrite <- !app_assoc | | by exists tab, true |].
        -- intros i what Hi. apply (Hcalls i what Hi). by intros x.
        -- exists (columns_of df). split; [done|]. by left.
  - destruct (worksheets (n + 2) sheet_id) as [x2|titles'] eqn:E2.
    { intros [= <- <-]. split; [done|].
      exists [OpenByKey sheet_id; Worksheets sheet_id; Worksheets sheet_id].
      split_and!; [by rewrite <- !app_assoc | | done |].
      - intros [|[|[|[|i]]]] what; cbn; try done; intros [= <-]; cbn.
        + by rewrite Nat.add_0_r, E0.
        + by rewrite E1.
        + by rewrite E2.
      - intros ->. exists 2, (Worksheets sheet_id). cbn. by rewrite E2. }
    destruct titles' as [|first rest].
    { intros [= <- <-]. split; [done|].
      exists [OpenByKey sheet_id; Worksheets sheet_id; Worksheets sheet_id].
      split_and!; [by rewrite <- !app_assoc | | done | done].
      intros [|[|[|[|i]]]] what; cbn; try done; intros [= <-]; cbn.
      - by rewrite Nat.add_0_r, E0.
      - by rewrite E1.
      - by rewrite E2. }
    assert (Hcalls : ∀ i what,
              calls_of_fetch sheet_id first false !! i = Some what →
              ∀ r' : exception + frame,
              (∀ x, get_all_values (n + 3) sheet_id first = inl x →
                    r' = inl x) →
              match raised (n + i) what with
              | None => True
              | Some x =>
                  S i = List.length (calls_of_fetch sheet_id first false)
                  ∧ r' = inl x
              end).
    { intros [|[|[|[|i]]]] what; cbn; try done; intros [= <-] r' Hr'; cbn.
      - by rewrite Nat.add_0_r, E0.
      - by rewrite E1.
      - by rewrite E2.
      - destruct (get_all_values (n + 3) sheet_id first) as [x|vs] eqn:E3;
          [|done]. split; [done|]. by apply Hr'. }
    cbv beta iota zeta. cbn [api_calls connected _cache].
    rewrite !length_app. cbn [List.length]. fold n.
    replace (n + 1 + 1 + 1) with (n + 3) by lia.
    destruct (get_all_values (n + 3) sheet_id first)
      as [x3|[|headers data]] eqn:E3.
    + intros [= <- <-]. split; [done|].
      exists (calls_of_fetch sheet_id first false).
      split_and!; [by rewrite <- !app_assoc | | done |].
      * intros i what Hi. apply (Hcalls i what Hi). by intros x [= <-].
      * intros ->. exists 3, (GetAllValues sheet_id first). cbn.
        by rewrite E3.
    + intros [= <- <-]. split; [done|].
      exists (calls_of_fetch sheet_id first false).
      split_and!; [by rewrite <- !app_assoc | | by exists first, false |].
      * intros i what Hi. apply (Hcalls i what Hi). by intros x.
      * exists []. split; [done|]. by right.
    + destruct (make_frame headers data) as [text|df]; intros [= <- <-];
        (split; [done|]); exists (calls_of_fetch sheet_id first false).
      * split_and!; [by rewrite <- !app_assoc | | done | done].
        intros i what Hi. apply (Hcalls i what Hi). by intros x.
      * split_and!; [by rewrite <- !app_assoc | | by exists first, false |].
        -- intros i what Hi. apply (Hcalls i what Hi). by intros x.
        -- exists (columns_of df). split; [done|]. by left.
Qed.

Lemma handle_not_found (sheet_id : string) (x : exception) (msg : string) :
  handle sheet_id x = SheetsNotFoundError msg → x = SpreadsheetNotFound.
Proof. by destruct x. Qed.

Lemma handle_api_error (sheet_id : string) (x : exception) (msg : string) :
  handle sheet_id x = SheetsAPIError msg → x ≠ SpreadsheetNotFound.
Proof. by destruct x. Qed.

Lemma handle_not_authentication (sheet_id : string) (x : exception)
    (msg : string) :
  handle sheet_id x ≠ SheetsAuthenticationError msg.
Proof. by destruct x. Qed.

(** The [try] block with its [except] clauses. *)
Lemma fetch_from_api_spec (sheet_id : string) (c c' : client frame)
    (o : outcome frame) :
  fetch_from_api frame empty_frame make_frame columns_of open_by_key
                 worksheets worksheet get_all_values sheet_id c = (c', o) →
  connected c' = connected c
  ∧ match o with
    | Done df =>
        (∃ tab_name named,
            api_calls c'
            = api_calls c ++ calls_of_fetch sheet_id tab_name named
            ∧ (named = true → tab_name ∈ DEFAULT_TAB_NAMES))
        ∧ ∃ cols, _cache c' = <[sheet_id := (df, cols)]> (_cache c)
                  ∧ (cols = columns_of df ∨ df = empty_frame ∧ cols = [])
    | Fail e =>
        _cache c' = _cache c
        ∧ match e with
          | SheetsNotFoundError _ =>
              ∃ i what,
                api_calls c' !! (List.length (api_calls c) + i) = Some what
                ∧ List.length (api_calls c')
                  = S (List.length (api_calls c) + i)
                ∧ raised (List.length (api_calls c) + i) what
                  = Some SpreadsheetNotFound
          | SheetsAPIError _ =>
              ∀ i what,
                api_calls c' !! (List.length (api_calls c) + i) = Some what →
                raised (List.length (api_calls c) + i) what
                ≠ Some SpreadsheetNotFound
          | SheetsAuthenticationError _ => False
          end
    end.
Proof.
  unfold fetch_from_api.
  destruct (attempt _ _ _ _ _ _ _ _ sheet_id c) as [c1 r] eqn:Ea.
  apply attempt_spec in Ea as (Hconn & calls & Hcalls & Hraise & Hr).
  assert (Hlookup : ∀ i, api_calls c1 !! (List.length (api_calls c) + i)
                         = calls !! i).
  { intros i. rewrite Hcalls, lookup_app_r by lia. f_equal. lia. }
  destruct r as [x|df]; intros [= <- <-]; (split; [done|]).
  - destruct Hr as [Hcache Hnf]. split; [done|].
    destruct (handle sheet_id x) as [msg|msg|msg] eqn:Eh.
    + by destruct (handle_not_authentication sheet_id x msg).
    + apply handle_not_found in Eh. destruct (Hnf Eh) as (i & what & Hi & Hlen & Hx).
      exists i, what. rewrite Hlookup, Hcalls, length_app, Eh in *.
      split_and!; [done | lia | done].
    + apply handle_api_error in Eh. intros i what Hi.
      rewrite Hlookup in Hi. specialize (Hraise i what Hi).
      destruct (raised (List.length (api_calls c) + i) what) as [y|];
        [|done].
      destruct Hraise as [_ [= ->]]. by intros [= ->].
  - destruct Hr as [(tab & named & -> & Hnamed) Hcache]. split; [|done].
    by exists tab, named.
Qed.

(** X23: a sheet is fetched once.  After a successful [fetch_sheet], a
    further [fetch_sheet] of the same sheet without [force_refresh]
    returns the same frame without any call on the Sheets library and
    without changing the client.  The successful fetch itself was
    served from the cache without a call, or made exactly four calls:
    [open_by_key], [worksheets], then [worksheet] for a default tab name
    or [worksheets] a second time, then [get_all_values]. *)
Theorem second_fetch_is_cached (sheet_id : string) (force_refresh : bool)
    (c c' : client frame) (df : frame) :
  fetch sheet_id force_refresh c = (c', Done df) →
  fetch sheet_id false c' = (c', Done df)
  ∧ is_cached frame sheet_id c' = true
  ∧ (api_calls c' = api_calls c
     ∨ ∃ tab_name named,
         api_calls c' = api_calls c ++ calls_of_fetch sheet_id tab_name named
         ∧ (named = true → tab_name ∈ DEFAULT_TAB_NAMES)).
Proof.
  unfold fetch_sheet.
  destruct (_ensure_connected frame connect c) as [c1 [[]|e]] eqn:E1; [|done].
  apply ensure_connected_spec in E1 as (Hc1 & Ha1 & Hconn).
  assert (Hhit : ∀ c2 : client frame, connected c2 = true →
            ∀ entry, _cache c2 !! sheet_id = Some entry →
            match _ensure_connected frame connect c2 with
            | (c3, Done _) =>
                match _cache c3 !! sheet_id with
                | Some entry => (c3, Done entry.1)
                | None =>
                    fetch_from_api frame empty_frame make_frame columns_of
                                   open_by_key worksheets worksheet
                                   get_all_values sheet_id c3
                end
            | (c3, Fail e) => (c3, Fail e)
            end = (c2, Done entry.1)).
  { intros c2 Hc2 entry He. unfold _ensure_connected. by rewrite Hc2, He. }
  destruct (if force_refresh then None else _cache c1 !! sheet_id)
    as [entry|] eqn:Ehit.
  - intros [= <- <-].
    destruct force_refresh; [done|].
    split_and!; [by apply Hhit | | by left].
    unfold is_cached. apply bool_decide_eq_true. by exists entry.
  - intros Hf. apply fetch_from_api_spec in Hf
      as (Hconn' & (tab & named & Hcalls & Hnamed) & cols & Hcache & _).
    assert (Hl : _cache c' !! sheet_id = Some (df, cols))
      by (rewrite Hcache; apply lookup_insert_eq).
    split_and!.
    + apply (Hhit c' (eq_trans Hconn' Hconn) (df, cols) Hl).
    + unfold is_cached. apply bool_decide_eq_true. by eexists.
    + right. exists tab, named. by rewrite Hcalls, Ha1.
Qed.

(** X24: a failed fetch leaves no trace in the cache.  When [fetch_sheet]
    raises, the cache is as before.  It raises [SheetsNotFoundError]
    only when the last call of the fetch raised [SpreadsheetNotFound];
    it raises [SheetsAPIError] only when no call of the fetch raised
    [SpreadsheetNotFound], so for any other failure of the library and
    for a spreadsheet without worksheets; [SheetsAuthenticationError]
    is raised only by a client that was not connected, when connecting
    fails, and then no call is made. *)
Theorem failed_fetch_keeps_cache (sheet_id : string) (force_refresh : bool)
    (c c' : client frame) (e : error) :
  fetch sheet_id force_refresh c = (c', Fail e) →
  _cache c' = _cache c
  ∧ match e with
    | SheetsNotFoundError _ =>
        ∃ i what,
          api_calls c' !! (List.length (api_calls c) + i) = Some what
          ∧ List.length (api_calls c') = S (List.length (api_calls c) + i)
          ∧ raised (List.length (api_calls c) + i) what
            = Some SpreadsheetNotFound
    | SheetsAPIError _ =>
        ∀ i what,
          api_calls c' !! (List.length (api_calls c) + i) = Some what →
          raised (List.length (api_calls c) + i) what
          ≠ Some SpreadsheetNotFound
    | SheetsAuthenticationError msg =>
        connect = Some msg ∧ connected c = false ∧ c' = c
    end.
Proof.
  unfold fetch_sheet.
  destruct (_ensure_connected frame connect c) as [c1 [[]|e1]] eqn:E1.
  - apply ensure_connected_spec in E1 as (Hc1 & Ha1 & Hconn).
    destruct (if force_refresh then None else _cache c1 !! sheet_id); [done|].
    intros Hf. apply fetch_from_api_spec in Hf as (_ & Hcache & He).
    rewrite Ha1 in He. split; [congruence|]. by destruct e.
  - apply ensure_connected_spec in E1 as (Hc1 & Ha1 & -> & Hconn & msg & Hm & ->).
    by intros [= <- <-].
Qed.

(** The cache keeps the column names of its frames.  If every cache
    entry holds the column names of its frame, so it is after a
    [fetch_sheet], whether it succeeds or raises; and after a successful
    fetch, [get_columns] of that sheet returns the column names of the
    frame that was returned, without a call on the library. *)
Lemma cache_stays_consistent (sheet_id : string) (force_refresh : bool)
    (c c' : client frame) (o : outcome frame) :
  columns_of empty_frame = [] →
  cache_consistent frame columns_of c →
  fetch sheet_id force_refresh c = (c', o) →
  cache_consistent frame columns_of c'
  ∧ ∀ df, o = Done df → columns sheet_id c' = (c', Done (columns_of df)).
Proof.
  intros Hempty Hok Hf.
  assert (Hget : ∀ df cols, _cache c' !! sheet_id = Some (df, cols) →
            cols = columns_of df →
            columns sheet_id c' = (c', Done (columns_of df))).
  { intros df cols Hl ->. unfold get_columns. rewrite Hl. cbn. by rewrite Hl. }
  revert Hf. unfold fetch_sheet.
  destruct (_ensure_connected frame connect c) as [c1 [[]|e1]] eqn:E1.
  - apply ensure_connected_spec in E1 as (Hc1 & Ha1 & Hconn).
    assert (Hok1 : cache_consistent frame columns_of c1).
    { unfold cache_consistent. by rewrite Hc1. }
    destruct (if force_refresh then None else _cache c1 !! sheet_id)
      as [[df cols]|] eqn:Ehit.
    + intros [= <- <-]. split; [done|]. intros df' [= <-].
      destruct force_refresh; [done|].
      apply (Hget df cols Ehit). by eapply Hok1.
    + intros Hf. apply fetch_from_api_spec in Hf as (_ & Ho).
      destruct o as [df|e].
      * destruct Ho as (_ & cols & Hcache & Hcols).
        assert (Hc : cols = columns_of df).
        { destruct Hcols as [?|[-> ->]]; [done|]. by rewrite Hempty. }
        split.
        -- intros id df' cols' Hl. rewrite Hcache in Hl.
           destruct (decide (id = sheet_id)) as [->|Hne].
           ++ rewrite lookup_insert_eq in Hl. by injection Hl as <- <-.
           ++ rewrite lookup_insert_ne in Hl by done. by eapply Hok1.
        -- intros df' [= <-]. apply (Hget df cols); [|done].
           rewrite Hcache. apply lookup_insert_eq.
      * destruct Ho as [Hcache _]. split; [|done].
        unfold cache_consistent. by rewrite Hcache.
  - apply ensure_connected_spec in E1 as (_ & _ & -> & _).
    by intros [= <- <-].
Qed.

End sheets_cache.

Section sheets_examples.
Import PyStr SheetsClient.
Local Open Scope nat_scope.

(** The theorem for a spreadsheet with the worksheets "Summary" and
    "Internal". *)
Lemma worksheet_choice_witness :
  (_find_worksheet (list string * list (list string))
     (example_worksheets ["Summary"; "Internal"]) example_worksheet
     "sheet-1" (mkClient true ∅ [OpenByKey "sheet-1"])).2
  = inr "Internal".
Proof.
  destruct (worksheet_choice (frame := list string * list (list string))
              (example_worksheets ["Summary"; "Internal"]) example_worksheet
              "sheet-1" (mkClient true ∅ [OpenByKey "sheet-1"])
              ["Summary"; "Internal"] eq_refl) as (_ & Hreturn & Hfail).
  destruct (_find_worksheet (list string * list (list string))
              (example_worksheets ["Summary"; "Internal"]) example_worksheet
              "sheet-1" (mkClient true ∅ [OpenByKey "sheet-1"])).2
    as [x|tab_name] eqn:E.
  - destruct (Hfail x eq_refl) as [[H _] | [(t & _ & H) | (_ & H & _)]];
      vm_compute in H; discriminate H.
  - destruct (Hreturn tab_name eq_refl) as (_ & Hinternal & _).
    f_equal. apply Hinternal. apply list_elem_of_In. simpl. tauto.
Defined.

(** The theorems for frames given by their header row and their data
    rows, a client that connects, and that spreadsheet. *)
Lemma second_fetch_is_cached_witness :
  is_cached (list string * list (list string)) "sheet-1"
    (mkClient true
       {[ "sheet-1" := ((["Address"], [["/a"]]), ["Address"]) ]}
       (calls_of_fetch "sheet-1" "Internal" true))
  = true.
Proof.
  destruct (second_fetch_is_cached ([], [])
              (fun headers data => inr (headers, data)) fst None
              example_open (example_worksheets ["Summary"; "Internal"])
              example_worksheet example_values
              "sheet-1" false (mkClient false ∅ [])
              (mkClient true
                 {[ "sheet-1" := ((["Address"], [["/a"]]), ["Address"]) ]}
                 (calls_of_fetch "sheet-1" "Internal" true))
              (["Address"], [["/a"]])) as (_ & H & _).
  - reflexivity.
  - exact H.
Defined.

Lemma failed_fetch_keeps_cache_witness :
  _cache (mkClient (frame := list string * list (list string))
            true ∅ [OpenByKey "sheet-2"; Worksheets "sheet-2"])
  = ∅.
Proof.
  destruct (failed_fetch_keeps_cache ([], [])
              (fun headers data => inr (headers, data)) fst None
              example_open (example_worksheets [])
              example_worksheet example_values
              "sheet-2" false (mkClient false ∅ [])
              (mkClient true ∅ [OpenByKey "sheet-2"; Worksheets "sheet-2"])
              (SheetsAPIError
                 "Failed to fetch sheet data: Spreadsheet has no worksheets"))
    as [H _].
  - reflexivity.
  - exact H.
Defined.

End sheets_examples.

(** ** SEO agent: the parsed query and the resolution of its fields *)

Section seo_parser.
Import Py PyStr SEOResolver SEOAgent SEOPipeline.
Local Open Scope nat_scope.

Lemma lookup_setdefault (key : string) (v : pyval) (d : pydict) (k : string) :
  lookup (setdefault key v d) k
  = match lookup d k with
    | Some w => Some w
    | None => if String.eqb key k then Some v else None
    end.
Proof.
  unfold setdefault. destruct (has_key d key) eqn:E.
  - apply has_key_lookup in E as [w Hw].
    destruct (lookup d k) eqn:Ek; [done|].
    destruct (String.eqb key k) eqn:Ekk; [|done].
    apply String.eqb_eq in Ekk. congruence.
  - apply has_key_false in E. rewrite lookup_set.
    destruct (String.eqb key k) eqn:Ekk.
    + apply String.eqb_eq in Ekk. subst k. by rewrite E.
    + by destruct (lookup d k).
Qed.

(** X25: the SEO parser keeps what the reply says, nulls included.  The
    parsed query always has the six keys.  A key of the reply keeps its
    value, also when that value is [null], so a reply with
    ["limit": null] has no limit and not the default 100; a key that the
    reply lacks gets its default.  A failed call and a reply that is not
    an object give the defaults. *)
Theorem seo_parser_keeps_nulls (chat : result pyval) :
  let parsed := _parse_query chat in
  (∀ key, key ∈ ["filters"; "select_columns"; "group_by"; "aggregation";
                 "limit"; "sort_by"] →
          is_Some (lookup parsed key))
  ∧ (∀ d key v, chat = Ok (PDict d) → lookup d key = Some v →
                lookup parsed key = Some v)
  ∧ (∀ d key, chat = Ok (PDict d) → lookup d key = None →
              lookup parsed key = lookup default_query key)
  ∧ ((∀ d, chat ≠ Ok (PDict d)) → parsed = default_query).
Proof.
  intros parsed. split_and!.
  - intros key Hkey. unfold parsed, _parse_query.
    destruct chat as [reply|e].
    + rewrite !lookup_setdefault.
      rewrite !elem_of_cons, elem_of_nil in Hkey.
      match goal with
      | |- context [lookup ?base key] => destruct (lookup base key)
      end; [by eexists|].
      destruct Hkey as [->|[->|[->|[->|[->|[->|[]]]]]]]; by eexists.
    + rewrite !elem_of_cons, elem_of_nil in Hkey.
      destruct Hkey as [->|[->|[->|[->|[->|[->|[]]]]]]]; by eexists.
  - intros d key v -> Hv. unfold parsed, _parse_query.
    rewrite !lookup_setdefault. by rewrite Hv.
  - intros d key -> Hv. unfold parsed, _parse_query.
    rewrite !lookup_setdefault, Hv. unfold default_query. cbn [lookup].
    repeat match goal with
           | |- context [String.eqb ?a key] =>
               rewrite (String.eqb_sym a key); destruct (String.eqb key a)
           end; done.
  - intros Hnd. unfold parsed, _parse_query.
    destruct chat as [reply|e]; [|done].
    destruct reply; try done. by destruct (Hnd d).
Qed.

Lemma parsed_reply_lookup (d : pydict) (key : string) (v : pyval) :
  lookup d key = Some v →
  lookup (_parse_query (Ok (PDict d))) key = Some v.
Proof.
  intros Hv. unfold _parse_query. rewrite !lookup_setdefault. by rewrite Hv.
Qed.

End seo_parser.

Section seo_schema.
Import Py PyStr SEOResolver SEOAgent SEOPipeline.
Local Open Scope nat_scope.

Lemma column_for_assign (d : list (string * string)) (key v k : string) :
  column_for (assign d key v) k
  = if String.eqb key k then Some v else column_for d k.
Proof.
  induction d as [|[k0 w] d IH]; cbn [assign column_for].
  - done.
  - destruct (String.eqb k0 key) eqn:E0; cbn [column_for].
    + apply String.eqb_eq in E0. subst k0.
      by destruct (String.eqb key k).
    + destruct (String.eqb k0 k) eqn:E1; [|by rewrite IH].
      apply String.eqb_eq in E1. subst k0. by rewrite String.eqb_sym, E0.
Qed.

Lemma resolve_fields_spec (available : list string) (fields : list pyval) :
  ∀ (seen : list pyval) (acc r : resolution_result),
  resolution_of available seen acc →
  resolve_fields available fields acc = Ok r →
  resolution_of available (seen ++ fields) r
  ∧ Forall (fun v => ∃ s, v = PStr s) fields.
Proof.
  induction fields as [|v fields IH]; intros seen acc r Hacc Hres.
  - cbn in Hres. injection Hres as <-. by rewrite app_nil_r.
  - destruct v as [| | | |s| |]; try discriminate Hres.
    cbn [resolve_fields] in Hres.
    replace (seen ++ PStr s :: fields) with ((seen ++ [PStr s]) ++ fields)
      by by rewrite <- app_assoc.
    eapply IH in Hres as [Hr Hall].
    + split; [exact Hr|]. constructor; [by exists s|done].
    + destruct Hacc as [Hcol Herr].
      destruct (_resolve_single_column available s) as [column warning|error]
        eqn:Es; unfold resolution_of; cbn [resolved errors]; split.
      * intros s' c. rewrite column_for_assign, elem_of_app, list_elem_of_singleton.
        destruct (String.eqb s s') eqn:E.
        -- apply String.eqb_eq in E. subst s'. rewrite Es. split.
           ++ intros [= <-]. split; [right; reflexivity|exists warning; reflexivity].
           ++ intros [_ [w [= <- _]]]. reflexivity.
        -- apply String.eqb_neq in E. rewrite Hcol. split.
           ++ intros [H1 H2]. split; [left; exact H1|exact H2].
           ++ intros [[H1|[= H1]] H2]; [exact (conj H1 H2)|].
              exfalso. apply E. symmetry. exact H1.
      * intros e. rewrite Herr. split.
        -- intros (s' & H1 & H2). exists s'. split; [|exact H2].
           apply elem_of_app. left. exact H1.
        -- intros (s' & H1 & H2). exists s'. split; [|exact H2].
           apply elem_of_app in H1 as [H1|H1]; [exact H1|].
           apply list_elem_of_singleton in H1. injection H1 as ->.
           rewrite Es in H2. discriminate H2.
      * intros s' c. rewrite Hcol, elem_of_app, list_elem_of_singleton. split.
        -- intros [H1 H2]. split; [left; exact H1|exact H2].
        -- intros [[H1|[= H1]] H2]; [exact (conj H1 H2)|].
           subst s'. destruct H2 as [w H2]. rewrite Es in H2. discriminate H2.
      * intros e. rewrite elem_of_app, list_elem_of_singleton, Herr. split.
        -- intros [(s' & H1 & H2)| ->].
           ++ exists s'. split; [|exact H2]. apply elem_of_app. left. exact H1.
           ++ exists s. split; [|exact Es]. apply elem_of_app. right.
              apply list_elem_of_singleton. reflexivity.
        -- intros (s' & H1 & H2).
           apply elem_of_app in H1 as [H1|H1]; [left; exists s'; exact (conj H1 H2)|].
           apply list_elem_of_singleton in H1. injection H1 as ->.
           right. rewrite Es in H2. injection H2 as ->. reflexivity.
Qed.

(** X26: what the resolver returns.  Let the referenced fields be
    enumerated in any order.  When [_resolve_columns] returns, every
    enumerated field is a string; the map [resolved] sends a field to a
    column exactly when the field is referenced and
    [_resolve_single_column] resolves it to that column, which is then a
    column of the sheet; the list [errors] holds exactly the messages of
    the referenced fields that do not resolve.  So an empty error list
    means that every referenced field has a column. *)
Theorem resolver_maps_referenced_fields (order : list pyval → list pyval)
    (available : list string) (parsed : pydict) (fields : list pyval)
    (r : resolution_result) :
  fields_to_resolve parsed = Ok fields →
  (∀ s, PStr s ∈ order fields ↔ PStr s ∈ fields) →
  _resolve_columns order available parsed = Ok r →
  (∀ s c, column_for (resolved r) s = Some c ↔
          PStr s ∈ fields
          ∧ ∃ w, _resolve_single_column available s = Resolved c w)
  ∧ (∀ s c, column_for (resolved r) s = Some c → c ∈ available)
  ∧ (∀ e, e ∈ errors r ↔
          ∃ s, PStr s ∈ fields
               ∧ _resolve_single_column available s = Failed e)
  ∧ (errors r = [] →
     ∀ s, PStr s ∈ fields → is_Some (column_for (resolved r) s)).
Proof.
  intros Hfields Horder Hres. unfold _resolve_columns in Hres.
  rewrite Hfields in Hres. cbn [bind] in Hres.
  apply (resolve_fields_spec available (order fields) []) in Hres
    as [[Hcol Herr] Hall].
  2:{ split.
      - intros s c. cbn. split; [done|]. intros [H _]. by apply elem_of_nil in H.
      - intros e. cbn. split.
        + intros H. by apply elem_of_nil in H.
        + intros (s & H & _). by apply elem_of_nil in H. }
  rewrite app_nil_l in Hcol, Herr.
  assert (Hcol' : ∀ s c, column_for (resolved r) s = Some c ↔
            PStr s ∈ fields
            ∧ ∃ w, _resolve_single_column available s = Resolved c w).
  { intros s c. rewrite Hcol, Horder. reflexivity. }
  assert (Herr' : ∀ e, e ∈ errors r ↔
            ∃ s, PStr s ∈ fields
                 ∧ _resolve_single_column available s = Failed e).
  { intros e. rewrite Herr. split; intros (s & H1 & H2); exists s;
      (split; [apply Horder; exact H1|exact H2]). }
  split_and!; [exact Hcol'| |exact Herr'|].
  - intros s c [_ [w Hw]]%Hcol'. eapply resolve_single_available. exact Hw.
  - intros Hnil s Hs.
    destruct (_resolve_single_column available s) as [column warning|error]
      eqn:Es.
    + exists column. apply Hcol'. split; [exact Hs|].
      exists warning. exact Es.
    + assert (error ∈ errors r) as Hin.
      { apply Herr'. exists s. split; [exact Hs|exact Es]. }
      rewrite Hnil in Hin. apply elem_of_nil in Hin. destruct Hin.
Qed.

(** The theorem for the default query on a crawl export: its one
    field, "Address", has a column, and that column is available. *)
Lemma resolver_maps_referenced_fields_witness :
  is_Some (column_for [("Address", "Address")] "Address")
  ∧ "Address" ∈ ["Address"; "Status Code"].
Proof.
  destruct (resolver_maps_referenced_fields
              (fun fields => fields) ["Address"; "Status Code"] default_query
              [PStr "Address"]
              (mkResolution [("Address", "Address")] [] []))
    as (_ & Havailable & _ & Hall).
  - reflexivity.
  - done.
  - vm_compute. reflexivity.
  - split.
    + apply Hall; [reflexivity|]. apply list_elem_of_singleton. reflexivity.
    + apply (Havailable "Address" "Address"). reflexivity.
Defined.

(** A [sort_by] that is not an object stops the resolver. *)
Lemma resolver_needs_sort_object (order : list pyval → list pyval)
    (available : list string) (parsed : pydict) (v : pyval) :
  lookup parsed "sort_by" = Some v →
  (∀ sort_by, v ≠ PDict sort_by) →
  ∃ e, _resolve_columns order available parsed = Raise e.
Proof.
  intros Hv Hnd.
  assert (Hfields : ∃ e, fields_to_resolve parsed = Raise e).
  { unfold fields_to_resolve.
    assert (Hsort : ∃ e, sort_field parsed = Raise e).
    { unfold sort_field, get_default. rewrite Hv. cbn [default from_option id].
      destruct v; try by eexists. by destruct (Hnd d). }
    destruct Hsort as [e0 Hsort]. rewrite Hsort.
    repeat match goal with
           | |- ∃ e, bind (Raise _) _ = Raise e => by eexists
           | |- ∃ e, bind ?m _ = Raise e =>
               destruct m; cbn [bind]; [|by eexists]
           end.
    by eexists. }
  destruct Hfields as [e He]. exists e. unfold _resolve_columns. by rewrite He.
Qed.

End seo_schema.

(** ** SEO agent: filters, limit and the responses of [process] *)

Section seo_processing.
Import Py PyStr ResponseFormatter SEOResolver SEOAgent SEOPipeline.
Local Open Scope nat_scope.

Variable num : Type.
Variable to_numeric : cell → num.
Variable float_ : pyval → option num.
Variable num_gt : num → num → bool.
Variable num_lt : num → num → bool.
Variable repr_ : pyval → string.
Variable repr_num : Qc → string.
Variable re_search : string → option (string → bool).
Variable percent : nat → nat → Qc.
Variable repeated_label : DataFrame → string → pyval → pyval → DataFrame.
Variable head_ : pyval → DataFrame → result DataFrame.
Variable label_error : string → string.

Local Notation "'apply_filter'" :=
  (_apply_filter num to_numeric float_ num_gt num_lt repr_ repr_num re_search
                 repeated_label).
Local Notation "'process_data'" :=
  (_process_data num to_numeric float_ num_gt num_lt repr_ repr_num re_search
                 percent repeated_label head_ label_error).
Local Notation "'seo_process'" :=
  (process num to_numeric float_ num_gt num_lt repr_ repr_num re_search
           percent repeated_label head_ label_error).

Lemma is_text_eq (v : pyval) (text : string) :
  is_text v text = true → v = PStr text.
Proof.
  destruct v; try done. cbn. by intros ->%String.eqb_eq.
Qed.

Lemma on_column_single (df : DataFrame) (column : string)
    (operator value : pyval) (keep : cell → bool) :
  count_occ string_dec (columns df) column = 1 →
  on_column repeated_label df column operator value keep
  = keep_rows df (position column (columns df)) keep.
Proof. intros H. unfold on_column. by rewrite H. Qed.

Lemma keep_rows_complement (df : DataFrame) (i : nat) (keep : cell → bool) :
  rows (keep_rows df i keep) ++ rows (keep_rows df i (fun c => negb (keep c)))
  ≡ₚ rows df.
Proof.
  unfold keep_rows. cbn [rows].
  rewrite (list_filter_iff
             (fun row => negb (keep (nth i row (CStr ""))) = true)
             (fun row => ¬ keep (nth i row (CStr "")) = true)).
  - apply filter_app_complement.
  - intros row. destruct (keep (nth i row (CStr ""))); cbn; split; try done.
Qed.

(** X27: a filter selects rows of the frame.  When the column is a single
    column of the frame, every operator returns a frame with the columns
    of the input whose rows are rows of the input in their order.
    The operators [equals] and [not_equals] split the rows between them,
    as do [is_empty] and [is_not_empty], and [contains] and
    [not_contains] when the lower-cased value is a regular expression
    that compiles; when it does not compile both return every row.  An
    operator that is not one of the eight returns every row. *)
Theorem filters_select_rows (df : DataFrame) (column : string) (value : pyval) :
  count_occ string_dec (columns df) column = 1 →
  (∀ operator,
     columns (apply_filter df column operator value) = columns df
     ∧ dtypes (apply_filter df column operator value) = dtypes df
     ∧ rows (apply_filter df column operator value) `sublist_of` rows df)
  ∧ rows (apply_filter df column (PStr "equals") value)
      ++ rows (apply_filter df column (PStr "not_equals") value) ≡ₚ rows df
  ∧ rows (apply_filter df column (PStr "is_empty") value)
      ++ rows (apply_filter df column (PStr "is_not_empty") value) ≡ₚ rows df
  ∧ (is_Some (re_search (lower (py_str repr_ value))) →
     rows (apply_filter df column (PStr "contains") value)
       ++ rows (apply_filter df column (PStr "not_contains") value)
     ≡ₚ rows df)
  ∧ (re_search (lower (py_str repr_ value)) = None →
     apply_filter df column (PStr "contains") value = df
     ∧ apply_filter df column (PStr "not_contains") value = df)
  ∧ (∀ operator,
       operator ∉ (PStr <$> ["equals"; "not_equals"; "contains"; "not_contains";
                             "greater_than"; "less_than"; "is_empty";
                             "is_not_empty"]) →
       apply_filter df column operator value = df).
Proof.
  intros Hone.
  assert (Hkeep : ∀ operator keep,
            let out := on_column repeated_label df column operator value keep in
            columns out = columns df ∧ dtypes out = dtypes df
            ∧ rows out `sublist_of` rows df).
  { intros operator keep. cbv zeta. rewrite on_column_single by done.
    unfold keep_rows. cbn [columns dtypes rows]. split_and!; [done..|].
    apply sublist_filter. }
  split_and!.
  - intros operator. unfold _apply_filter. cbv zeta.
    repeat match goal with
           | |- context [if is_text operator ?s then _ else _] =>
               destruct (is_text operator s)
           | |- context [match re_search ?t with _ => _ end] =>
               destruct (re_search t)
           | |- context [match float_ ?v with _ => _ end] =>
               destruct (float_ v)
           end; try apply Hkeep; done.
  - unfold _apply_filter. cbv zeta. cbn [is_text String.eqb Ascii.eqb Bool.eqb andb].
    rewrite !on_column_single by done. apply keep_rows_complement.
  - unfold _apply_filter. cbv zeta. cbn [is_text String.eqb Ascii.eqb Bool.eqb andb].
    rewrite !on_column_single by done. apply keep_rows_complement.
  - intros [found Hfound]. unfold _apply_filter. cbv zeta.
    cbn [is_text String.eqb Ascii.eqb Bool.eqb andb]. rewrite Hfound.
    rewrite !on_column_single by done.
    apply (keep_rows_complement df _
             (fun c => found (lower (astype_str repr_num c)))).
  - intros Hnone. unfold _apply_filter. cbv zeta.
    cbn [is_text String.eqb Ascii.eqb Bool.eqb andb]. by rewrite Hnone.
  - intros operator Hop. unfold _apply_filter. cbv zeta.
    rewrite !fmap_cons, !elem_of_cons in Hop.
    repeat match goal with
           | |- context [if is_text operator ?s then _ else _] =>
               destruct (is_text operator s) eqn:?
           end; try done; exfalso; apply Hop;
      repeat match goal with
             | H : is_text operator _ = true |- _ =>
                 apply is_text_eq in H; rewrite H; clear H
             end;
      repeat (first [left; reflexivity | right]).
Qed.

Lemma bind_Ok {A B : Type} (m : result A) (k : A → result B) (b : B) :
  bind m k = Ok b → ∃ a, m = Ok a ∧ k a = Ok b.
Proof. destruct m as [a|e]; [|done]. intros H. by exists a. Qed.

Lemma take_columns_rows (df : DataFrame) (names : list string) :
  nrows (take_columns df names) = nrows df.
Proof. unfold nrows, take_columns. cbn [rows]. by rewrite length_fmap. Qed.

Lemma apply_limit_bound (n : Z) (df out : DataFrame) :
  (0 < n)%Z →
  apply_limit head_ (PInt n) df = Ok out →
  nrows out ≤ Z.to_nat n ∧ rows out `prefix_of` rows df.
Proof.
  intros Hn. unfold apply_limit. cbn [Py.truthy].
  assert ((n =? 0)%Z = false) as -> by lia. cbn [negb].
  destruct (n <? Z.of_nat (nrows df))%Z eqn:E; intros [= <-].
  - unfold nrows. cbn [rows]. split; [|apply slice_to_prefix].
    unfold DataFormatter.slice_to.
    destruct (0 <=? n)%Z eqn:E1; [|lia].
    rewrite length_take. lia.
  - apply Z.ltb_ge in E. split; [lia|done].
Qed.

(** X28: the limit bounds the rows returned.  When [_process_data]
    returns and the limit of the parsed query (100 when the key is
    absent) is a positive integer [n], the frame returned has at most
    [n] rows; the processing info reports the number of rows of the
    input as [original_rows] and the rows and columns of the frame
    returned as [final_rows] and [final_columns]. *)
Theorem limit_bounds_rows (df : DataFrame) (parsed : pydict)
    (resolved_columns : list (string * string)) (out : DataFrame)
    (info : processing_info) (n : Z) :
  process_data df parsed resolved_columns = Ok (out, info) →
  get_default parsed "limit" (PInt 100) = PInt n →
  (0 < n)%Z →
  nrows out ≤ Z.to_nat n
  ∧ original_rows info = nrows df
  ∧ final_rows info = nrows out
  ∧ final_columns info = columns out.
Proof.
  intros Hres Hlimit Hn. unfold _process_data in Hres.
  repeat (apply bind_Ok in Hres as (? & ? & Hres); cbv beta zeta in Hres).
  injection Hres as <- <-. cbn [original_rows final_rows final_columns].
  split_and!; try reflexivity.
  rewrite Hlimit in *.
  match goal with
  | H : apply_limit _ _ _ = Ok ?d |- _ =>
      apply apply_limit_bound in H as [H _]; [|exact Hn]
  end.
  match goal with
  | |- nrows (match ?selected with [] => _ | _ :: _ => _ end) ≤ _ =>
      destruct selected
  end; [assumption|by rewrite take_columns_rows].
Qed.

Lemma synthesize_spec (nl_answer : string) (df : DataFrame) (json : bool) :
  ∃ response,
    SEOAgent._synthesize_response nl_answer df json = Ok response
    ∧ agent_used response = "seo"
    ∧ ∀ payload, data response = Some payload →
        payload = data_dict df
        ∧ (json = true ∨ 11 ≤ nrows df ≤ 100).
Proof.
  destruct json.
  - eexists. split; [reflexivity|]. split; [reflexivity|].
    intros payload. unfold _format_json, data_dict. cbn [data].
    destruct (empty df); intros [= <-]; (split; [done|by left]).
  - destruct (empty df) eqn:He.
    + eexists. unfold SEOAgent._synthesize_response, SEOAgent._should_use_hybrid.
      rewrite He. split; [reflexivity|]. split; [reflexivity|]. done.
    + rewrite _synthesize_response_band by done.
      eexists. split; [reflexivity|]. split; [reflexivity|].
      intros payload. cbn [data].
      destruct ((11 <=? nrows df) && (nrows df <=? 100)) eqn:Eb; [|done].
      intros [= <-]. split; [done|]. right.
      apply andb_true_iff in Eb as [H1 H2].
      apply Nat.leb_le in H1, H2. lia.
Qed.

(** X29: data is attached only to a processed sheet.  Every response of
    [SEOAgent.process] names the agent "seo", and [process] never
    raises.  When the response carries data, the sheet was fetched and
    is not empty, the resolver returned without an error message, the
    data processor returned a frame, the data is the data dict of that
    frame (its records, in which the cells of a column of integers, such
    as the counts of a grouping, are integers), and JSON was requested
    or the frame has 11 to 100 rows.  So
    a sheet that cannot be fetched, a field that does not resolve and
    any exception give an answer without data, also in JSON mode. *)
Theorem data_needs_a_processed_sheet (E : environment) (query : string)
    (sheet_id : option string) (json_requested : bool) :
  let out := seo_process E query sheet_id json_requested in
  agent_used out = "seo"
  ∧ ∀ payload, data out = Some payload →
      ∃ id df resolution result_df info,
        AnalyticsAgent.py_or sheet_id (default_sheet_id E) = Some id
        ∧ fetch_sheet E id = SheetsClient.Done df
        ∧ empty df = false
        ∧ _resolve_columns (set_order E) (columns df)
            (_parse_query (parse_chat E query (columns df))) = Ok resolution
        ∧ errors resolution = []
        ∧ process_data df (_parse_query (parse_chat E query (columns df)))
                       (resolved resolution) = Ok (result_df, info)
        ∧ payload = data_dict result_df
        ∧ (json_requested = true ∨ 11 ≤ nrows result_df ≤ 100).
Proof.
  intros out. unfold out, process, attempt.
  destruct (AnalyticsAgent.py_or sheet_id (default_sheet_id E))
    as [[|a id]|] eqn:Eid; [done| |done].
  destruct (fetch_sheet E (String a id)) as [df|[msg|msg|msg]] eqn:Ef;
    [|done..].
  destruct (empty df) eqn:He; [done|].
  destruct (_resolve_columns (set_order E) (columns df)
              (_parse_query (parse_chat E query (columns df))))
    as [resolution|e] eqn:Er; [|done].
  destruct (errors resolution) as [|e0 es] eqn:Ee; [|done].
  destruct (_process_data _ _ _ _ _ _ _ _ _ _ _ _ df _ (resolved resolution))
    as [[result_df info]|e] eqn:Ep; [|done].
  destruct (synthesize_spec
              (_generate_nl_summary (summary_chat E query result_df info)
                                    result_df info)
              result_df json_requested) as (response & -> & Hagent & Hdata).
  cbn [lift]. split; [done|].
  intros payload [Hp Hrows]%Hdata.
  exists (String a id), df, resolution, result_df, info. by split_and!.
Qed.

(** X30: a [sort_by] that is not an object fails the request.  The data
    processor reads a null [sort_by] as "no sorting", but the resolver
    runs first and calls [get] on it.  So when the sheet has rows and
    the reply of the language model has a [sort_by] entry that is not an
    object (for instance [null]), [process] answers "An error occurred
    processing your SEO query: ..." without data, whatever else the
    reply holds. *)
Theorem sort_by_must_be_an_object (E : environment) (query : string)
    (sheet_id : option string) (json_requested : bool)
    (id : string) (df : DataFrame) (reply : pydict) (v : pyval) :
  AnalyticsAgent.py_or sheet_id (default_sheet_id E) = Some id →
  id ≠ "" →
  fetch_sheet E id = SheetsClient.Done df →
  empty df = false →
  parse_chat E query (columns df) = Ok (PDict reply) →
  lookup reply "sort_by" = Some v →
  (∀ sort_by, v ≠ PDict sort_by) →
  ∃ e, _resolve_columns (set_order E) (columns df)
         (_parse_query (Ok (PDict reply))) = Raise e
       ∧ seo_process E query sheet_id json_requested
         = mkResponse ("An error occurred processing your SEO query: "
                         +:+ exn_text e) None "seo".
Proof.
  intros Hid Hne Hf He Hreply Hv Hnd.
  destruct (resolver_needs_sort_object (set_order E) (columns df)
              (_parse_query (Ok (PDict reply))) v) as [e Hres]; [|done|].
  { by apply (parsed_reply_lookup reply). }
  exists e. split; [done|].
  unfold process, attempt. rewrite Hid.
  destruct id as [|a id]; [done|].
  by rewrite Hf, He, Hreply, Hres.
Qed.

End seo_processing.

Section seo_processing_examples.
Import Py PyStr ResponseFormatter SEOResolver SEOAgent SEOPipeline.
Local Open Scope nat_scope.

(** The theorem for the crawl export and the filter on Indexability. *)
Lemma filters_select_rows_witness :
  rows (example_filter crawl_frame "Indexability" (PStr "equals")
                       (PStr "indexable"))
    ++ rows (example_filter crawl_frame "Indexability" (PStr "not_equals")
                            (PStr "indexable"))
  ≡ₚ rows crawl_frame.
Proof.
  destruct (filters_select_rows (option Qc) example_to_numeric example_float
              example_gt example_lt (fun _ => "") (fun _ => "") example_search
              (fun df _ _ _ => df) crawl_frame "Indexability"
              (PStr "indexable")) as (_ & H & _).
  - reflexivity.
  - exact H.
Defined.

(** The theorem for the default query on the crawl export. *)
Lemma limit_bounds_rows_witness :
  ∃ out info,
    example_process_data crawl_frame default_query [("Address", "Address")]
      = Ok (out, info)
    ∧ nrows out ≤ 100.
Proof.
  eexists _, _. split; [vm_compute; reflexivity|].
  eapply (limit_bounds_rows (option Qc) example_to_numeric example_float
            example_gt example_lt (fun _ => "") (fun _ => "") example_search
            exact_percent (fun df _ _ _ => df) (fun _ df => Ok df)
            (fun _ => "") crawl_frame default_query [("Address", "Address")]
            _ _ 100%Z).
  - vm_compute. reflexivity.
  - reflexivity.
  - lia.
Defined.

(** The theorem for a reply with a null [sort_by]. *)
Lemma sort_by_must_be_an_object_witness :
  ∃ e, _resolve_columns (fun fields => fields) (columns crawl_frame)
         (_parse_query (Ok (PDict [("sort_by", PNone)]))) = Raise e
       ∧ example_process
           (example_environment (Ok (PDict [("sort_by", PNone)])))
           "pages by title" None true
         = mkResponse ("An error occurred processing your SEO query: "
                         +:+ exn_text e) None "seo".
Proof.
  apply (sort_by_must_be_an_object (option Qc) example_to_numeric example_float
           example_gt example_lt (fun _ => "") (fun _ => "") example_search
           exact_percent (fun df _ _ _ => df) (fun _ df => Ok df)
           (fun _ => "")
           (example_environment (Ok (PDict [("sort_by", PNone)])))
           "pages by title" None true "crawl" crawl_frame
           [("sort_by", PNone)] PNone).
  - reflexivity.
  - done.
  - reflexivity.
  - reflexivity.
  - reflexivity.
  - reflexivity.
  - done.
Defined.

End seo_processing_examples.
